(** * dbtester agent: lifecycle controller and remote-storage uploader

    A shallow embedding of [agent/agent.go] (the gRPC [Transfer] handler,
    its monitoring goroutine and the upload closure) and of the
    [remotestorage] package ([NewGoogleCloudStorage], [UploadFile],
    [UploadDir]), followed by the properties established about them.

    Conventions.
    - Go strings are [string]; Go [int] values are [Z]; slices are lists.
    - Everything the operating system, the Go runtime scheduler or a
      third-party library decides is supplied by an oracle record, whose
      answers may depend on the events performed so far.
    - Effects are recorded in chronological order in an event trace.
      Calls to the [plog] logger only write to the agent log and never
      influence control flow; they are not recorded. *)

From Stdlib Require Import String Ascii List ZArith NArith Lia Bool.
From Stdlib Require Import Permutation DecimalString DecimalZ DecimalN.
Import ListNotations.

Local Open Scope list_scope.
Local Open Scope string_scope.

(* ===================================================================== *)
(** ** Go standard library: [strings] and [fmt]                          *)
(* ===================================================================== *)

(** The Go standard library is not part of the repository.  The functions
    below follow its documented behaviour on byte strings. *)
Module Strings.

(** [strings.HasPrefix(s, prefix)]. *)
Definition HasPrefix (s pfx : string) : bool := String.prefix pfx s.

(** [strings.Join(elems, sep)]. *)
Definition Join (elems : list string) (sep : string) : string :=
  String.concat sep elems.

(** [strings.Contains(s, substr)]. *)
Fixpoint Contains (s substr : string) : bool :=
  String.prefix substr s ||
  match s with
  | EmptyString => false
  | String _ s' => Contains s' substr
  end.

(** Worker of [Split]: [skip] counts the bytes of a separator that was
    just matched and still has to be dropped, [cur] is the piece being
    collected. *)
Fixpoint split_from (sep : string) (skip : nat) (cur s : string)
  : list string :=
  match s with
  | EmptyString => [cur]
  | String c s' =>
      match skip with
      | S k => split_from sep k cur s'
      | O =>
          if String.prefix sep s
          then cur :: split_from sep (String.length sep - 1) EmptyString s'
          else split_from sep 0 (cur ++ String c EmptyString) s'
      end
  end.

(** [strings.Split(s, sep)] for a non-empty separator: the pieces between
    the leftmost non-overlapping occurrences of [sep]; always at least one
    piece.  (For an empty separator Go explodes [s] into UTF-8 sequences;
    the agent only ever splits on ["___"].) *)
Definition Split (s sep : string) : list string :=
  match sep with
  | EmptyString =>
      map (fun c => String c EmptyString) (list_ascii_of_string s)
  | _ => split_from sep 0 EmptyString s
  end.

(** [strings.Replace(s, old, "", -1)]: every non-overlapping occurrence of
    [old] removed. *)
Definition RemoveAll (s old : string) : string :=
  match old with
  | EmptyString => s
  | _ => String.concat EmptyString (Split s old)
  end.

End Strings.

Module Fmt.

(** The verb [%d] applied to an integer: decimal digits, with a leading
    minus sign for negative numbers. *)
Definition d (z : Z) : string := NilZero.string_of_int (Z.to_int z).

End Fmt.

(* ===================================================================== *)
(** ** Go standard library: [path/filepath] (Unix)                       *)
(* ===================================================================== *)

Module Filepath.

Definition Separator : string := "/".

(** [filepath.HasPrefix] is the deprecated helper that "does not respect
    path boundaries": it is [strings.HasPrefix]. *)
Definition HasPrefix (p pfx : string) : bool := Strings.HasPrefix p pfx.

(** The path elements of [p]: the pieces between slashes. *)
Definition elements (p : string) : list string := Strings.Split p Separator.

(** One pass of [Clean] over the path elements.  [out] is the output so
    far, last element first.  Empty elements and ["."] are dropped; [".."]
    removes the preceding real element when there is one, is dropped at
    the root of a rooted path, and is kept at the front of a relative
    one. *)
Fixpoint clean_elements (rooted : bool) (out elems : list string)
  : list string :=
  match elems with
  | [] => rev out
  | e :: rest =>
      if (e =? "")%string then clean_elements rooted out rest
      else if (e =? ".")%string then clean_elements rooted out rest
      else if (e =? "..")%string then
        match out with
        | top :: out' =>
            if (top =? "..")%string
            then clean_elements rooted (".." :: out) rest
            else clean_elements rooted out' rest
        | [] =>
            if rooted then clean_elements rooted out rest
            else clean_elements rooted [".."] rest
        end
      else clean_elements rooted (e :: out) rest
  end.

(** [filepath.Clean(path)]. *)
Definition Clean (path : string) : string :=
  match path with
  | EmptyString => "."
  | String c _ =>
      let rooted := Ascii.eqb c "/"%char in
      let out := clean_elements rooted [] (elements path) in
      if rooted then Separator ++ Strings.Join out Separator
      else match out with
           | [] => "."
           | _ => Strings.Join out Separator
           end
  end.

(** [filepath.Join(elem...)]: empty leading elements are ignored, the rest
    is joined with slashes and cleaned; all empty gives the empty string. *)
Fixpoint Join (elem : list string) : string :=
  match elem with
  | [] => ""
  | e :: rest =>
      if (e =? "")%string then Join rest
      else Clean (Strings.Join elem Separator)
  end.

(** Last element of a non-empty list of path elements that is not empty,
    i.e. the last element once trailing slashes are stripped. *)
Fixpoint last_nonempty (elems : list string) (acc : option string)
  : option string :=
  match elems with
  | [] => acc
  | e :: rest =>
      last_nonempty rest (if (e =? "")%string then acc else Some e)
  end.

(** [filepath.Base(path)]: the last element of the path, trailing slashes
    removed; ["."] for the empty path and ["/"] for a path of slashes. *)
Definition Base (path : string) : string :=
  match path with
  | EmptyString => "."
  | _ => match last_nonempty (elements path) None with
         | Some e => e
         | None => Separator
         end
  end.

End Filepath.

(* ===================================================================== *)
(** ** Data model of the agent                                            *)
(* ===================================================================== *)

(** Go [error] values.  [Errorf] keeps the format and its arguments apart;
    [Ext] is an error handed back by the operating system or by a library,
    with the text of its [Error()] method. *)
Inductive error : Type :=
| Errorf (format : string) (args : list string)
| Ext (msg : string).

(** Modelled from the spec: the [Request] message and its enumerations,
    generated from a protocol description that is not among the sources.
    They are the Command of the data model (operation tag, database kind,
    peer addresses, server index, tuning fields, remote-storage fields),
    under the names by which [agent.go] reads them; an enumeration value
    that [agent.go] never names is kept with its number. *)
Inductive Request_Operation : Type :=
| Request_Start
| Request_Stop
| Request_UploadLog
| Request_Operation_other (n : Z).

Inductive Request_Database : Type :=
| Request_etcdv2
| Request_etcdv3
| Request_ZooKeeper
| Request_Consul
| Request_zetcd
| Request_cetcd
| Request_Database_other (n : Z).

Definition Operation_eqb (a b : Request_Operation) : bool :=
  match a, b with
  | Request_Start, Request_Start => true
  | Request_Stop, Request_Stop => true
  | Request_UploadLog, Request_UploadLog => true
  | Request_Operation_other n, Request_Operation_other m => Z.eqb n m
  | _, _ => false
  end.

(** Modelled from the spec: [Database.String()], generated with the
    message type; it gives the name of the enumeration value, which is the
    constant's name after [Request_]. *)
Definition Database_String (db : Request_Database) : string :=
  match db with
  | Request_etcdv2 => "etcdv2"
  | Request_etcdv3 => "etcdv3"
  | Request_ZooKeeper => "ZooKeeper"
  | Request_Consul => "Consul"
  | Request_zetcd => "zetcd"
  | Request_cetcd => "cetcd"
  | Request_Database_other n => Fmt.d n
  end.

(** Modelled from the spec: the fields of [Request].  [ServerIndex] (the
    zero-based position of the node) and [ZookeeperMyID] are unsigned 32-bit
    fields, the two ZooKeeper limits are signed 64-bit ones, as
    [ZookeeperConfig] has them. *)
Record Request : Type := mkRequest {
  Operation : Request_Operation;
  Database : Request_Database;
  PeerIPString : string;
  ServerIndex : N;
  TestName : string;
  GoogleCloudProjectName : string;
  GoogleCloudStorageKey : string;
  GoogleCloudStorageBucketName : string;
  GoogleCloudStorageSubDirectory : string;
  ZookeeperMyID : N;
  ZookeeperMaxClientCnxns : Z;
  ZookeeperSnapCount : Z
}.

(** The zero value of [Request]. *)
Definition Request_zero : Request :=
  mkRequest Request_Start Request_etcdv2 "" 0 "" "" "" "" "" 0 0 0.

(** Addition on [uint32]. *)
Definition uint32_add (a b : N) : N := ((a + b) mod 2 ^ 32)%N.

Record Response : Type := mkResponse { Success : bool }.

(** [*exec.Cmd], as far as the agent looks at it. *)
Record Cmd : Type := mkCmd {
  Cmd_Path : string;
  Cmd_Args : list string
}.

(** [exec.Command(name, arg...)].  (The [PATH] lookup done for a name
    without a slash is not modelled: [Path] is the name.) *)
Definition exec_Command (name : string) (args : list string) : Cmd :=
  mkCmd name (name :: args).

(** [*os.File]: the identity of an open-file object. *)
Definition File : Type := nat.

(** [transporterServer]. *)
Record transporterServer : Type := mkServer {
  req : Request;
  cmd : option Cmd;
  logfile : option File;
  pid : Z;
  proxyCmd : option Cmd;
  proxyLogfile : option File;
  proxyPid : Z
}.

(** [NewTransporterServer]: [&transporterServer{}]. *)
Definition NewTransporterServer : transporterServer :=
  mkServer Request_zero None None 0 None None 0.

(** The package-level path variables that [Transfer] rewrites. *)
Record Globals : Type := mkGlobals {
  agentLogPath : string;
  databaseLogPath : string;
  monitorLogPath : string;
  etcdDataDir : string;
  consulDataDir : string;
  zkWorkingDir : string;
  zkDataDir : string
}.

Definition initial_globals : Globals :=
  mkGlobals "agent.log" "database.log" "monitor.csv"
            "data.etcd" "data.consul" "zookeeper" "zookeeper/data.zk".

(** Process environment and command-line flags. *)
Record Config : Type := mkConfig {
  GOPATH : string;
  SHELL : string;
  WorkingDirectory : string
}.

Section Paths.
Variable cfg : Config.

Definition shell : string :=
  if (String.length (SHELL cfg) =? 0)%nat then "sh" else SHELL cfg.
Definition etcdBinaryPath : string := Filepath.Join [GOPATH cfg; "bin/etcd"].
Definition consulBinaryPath : string := Filepath.Join [GOPATH cfg; "bin/consul"].
Definition zetcdBinaryPath : string := Filepath.Join [GOPATH cfg; "bin/zetcd"].
Definition cetcdBinaryPath : string := Filepath.Join [GOPATH cfg; "bin/cetcd"].
Definition javaBinaryPath : string := "/usr/bin/java".
Definition etcdToken : string := "etcd_token".
Definition zkConfigPath : string := "zookeeper.config".

(** [if !filepath.HasPrefix(p, wd) { p = filepath.Join(wd, p) }]. *)
Definition under_working_directory (p : string) : string :=
  if Filepath.HasPrefix p (WorkingDirectory cfg) then p
  else Filepath.Join [WorkingDirectory cfg; p].

(** [CommandFunc] puts the agent log under the working directory before
    the server starts. *)
Definition CommandFunc_globals (g : Globals) : Globals :=
  mkGlobals (under_working_directory (agentLogPath g))
            (databaseLogPath g) (monitorLogPath g) (etcdDataDir g)
            (consulDataDir g) (zkWorkingDir g) (zkDataDir g).

(** The block at the top of [Transfer] for a [Start] request. *)
Definition rebase_globals (g : Globals) : Globals :=
  mkGlobals (agentLogPath g)
            (under_working_directory (databaseLogPath g))
            (under_working_directory (monitorLogPath g))
            (under_working_directory (etcdDataDir g))
            (under_working_directory (consulDataDir g))
            (under_working_directory (zkWorkingDir g))
            (under_working_directory (zkDataDir g)).
End Paths.

(** [ZookeeperConfig] and the rendering of [zkTemplate]. *)
Record ZookeeperPeer : Type := mkZookeeperPeer { MyID : Z; IP : string }.

Record ZookeeperConfig : Type := mkZookeeperConfig {
  TickTime : Z;
  DataDir : string;
  ClientPort : string;
  InitLimit : Z;
  SyncLimit : Z;
  MaxClientCnxns : Z;
  SnapCount : Z;
  Peers : list ZookeeperPeer
}.

Definition zkConfigDefault : ZookeeperConfig :=
  mkZookeeperConfig 2000 "" "2181" 5 5 60 0
    [mkZookeeperPeer 1 ""; mkZookeeperPeer 2 ""; mkZookeeperPeer 3 ""].

Definition newline : string := String (ascii_of_nat 10) EmptyString.

Definition zkTemplate_execute (c : ZookeeperConfig) : string :=
  "tickTime=" ++ Fmt.d (TickTime c) ++ newline ++
  "dataDir=" ++ DataDir c ++ newline ++
  "clientPort=" ++ ClientPort c ++ newline ++
  "initLimit=" ++ Fmt.d (InitLimit c) ++ newline ++
  "syncLimit=" ++ Fmt.d (SyncLimit c) ++ newline ++
  "maxClientCnxns=" ++ Fmt.d (MaxClientCnxns c) ++ newline ++
  "snapCount=" ++ Fmt.d (SnapCount c) ++ newline ++
  String.concat ""
    (map (fun p => "server." ++ Fmt.d (MyID p) ++ "=" ++ IP p ++ ":2888:3888" ++ newline)
         (Peers c)) ++
  newline.

(* ===================================================================== *)
(** ** Package [remotestorage]                                           *)
(* ===================================================================== *)

Module RemoteStorage.

(** What the outside world answers to the uploader: the JWT parser of the
    OAuth2 library, the Cloud Storage client, the local file system.  An
    answer is [None] (or [inr]) on success and carries the text of the
    error otherwise.  The first argument of the calls that reach the
    network or the disk is the sequence number of the upload call, so the
    answers may change from one attempt to the next. *)
Record Cloud : Type := mkCloud {
  JWTConfigFromJSON : string -> option string;
  storage_NewClient : nat -> option string;
  Bucket_Create : nat -> string -> string -> option string;
  ioutil_ReadFile : nat -> string -> string + string;
  Writer_Write : nat -> string -> string -> string -> string -> option string;
  Writer_Close : nat -> string -> string -> option string;
  walkRecursive : nat -> string -> string + list string
}.

(** Modelled from the spec: [Op], the options record filled by [applyOpts];
    its declaration is in a file of the package that is not among the
    sources.  [UploadFile] and [UploadDir] only read its content type. *)
Record Op : Type := mkOp { ContentType : string }.

(** [GoogleCloudStorage]; the [Config] field is the parsed key. *)
Record GoogleCloudStorage : Type := mkGoogleCloudStorage {
  JSONKey : string;
  Project : string
}.

Section WithCloud.
Variable cloud : Cloud.

(** [NewGoogleCloudStorage(key, project)]. *)
Definition NewGoogleCloudStorage (key project : string)
  : error + GoogleCloudStorage :=
  match JWTConfigFromJSON cloud key with
  | Some e => inl (Ext e)
  | None => inr (mkGoogleCloudStorage key project)
  end.

Definition already_owned : string :=
  "You already own this bucket. Please select another name".

(** The common opening of [UploadFile] and [UploadDir]: nil receiver,
    client creation, bucket creation (an "already own" answer is
    fine). *)
Definition open_bucket (g : option GoogleCloudStorage) (n : nat)
           (bucket : string) : option error :=
  match g with
  | None => Some (Errorf "GoogleCloudStorage is nil" [])
  | Some gcs =>
      match storage_NewClient cloud n with
      | Some e => Some (Ext e)
      | None =>
          match Bucket_Create cloud n bucket (Project gcs) with
          | Some e =>
              if negb (Strings.Contains e already_owned)
              then Some (Ext e) else None
          | None => None
          end
      end
  end.

(** Reading one local file and writing it to the object [object] of the
    bucket: the tail of [UploadFile] and the body of a task of
    [UploadDir]. *)
Definition transfer_file (n : nat) (ret : Op) (bucket path object : string)
  : option error :=
  match ioutil_ReadFile cloud n path with
  | inl e => Some (Errorf "ioutil.ReadFile(%s) %v" [path; e])
  | inr bts =>
      match Writer_Write cloud n bucket object (ContentType ret) bts with
      | Some e => Some (Ext e)
      | None =>
          match Writer_Close cloud n bucket object with
          | Some e => Some (Ext e)
          | None => None
          end
      end
  end.

(** [UploadFile(bucket, src, dst, opts...)] on a [GoogleCloudStorage] pointer; [n] is
    the sequence number of the call. *)
Definition UploadFile (g : option GoogleCloudStorage) (n : nat)
           (ret : Op) (bucket src dst : string) : option error :=
  match open_bucket g n bucket with
  | Some e => Some e
  | None => transfer_file n ret bucket src dst
  end.

(** What a task of [UploadDir] sends: a value on [donec] or an error on
    [errc]. *)
Inductive Msg : Type :=
| MsgDone
| MsgErr (e : error).

(** The goroutine started for [fpath]: it sends exactly one message. *)
Definition upload_task (n : nat) (ret : Op) (bucket src dst fpath : string)
  : Msg :=
  let targetPath := Filepath.Join [dst; Strings.RemoveAll fpath src] in
  match transfer_file n ret bucket fpath targetPath with
  | Some e => MsgErr e
  | None => MsgDone
  end.

(** How a call ends: it returns its [error] result, or it never
    returns. *)
Inductive Completion : Type :=
| Returns (err : option error)
| BlocksForever.

(** [for cnt != num { select { case <-donec: case err := <-errc: return
    err }; cnt++ }].  Both channels are unbuffered, so each receive takes
    the message of one task; [arrivals] lists the messages in the order
    in which the scheduler lets them through. *)
Fixpoint wait_tasks (num cnt : nat) (arrivals : list Msg) : Completion :=
  if (cnt =? num)%nat then Returns None
  else match arrivals with
       | [] => BlocksForever
       | MsgDone :: rest => wait_tasks num (S cnt) rest
       | MsgErr e :: _ => Returns (Some e)
       end.


(** [UploadDir(bucket, src, dst, opts...)] on a [GoogleCloudStorage] pointer.  One
    task is started per key of the map returned by [walkRecursive];
    [order] is the order in which the tasks get to deliver their
    message, a permutation of the keys chosen by the scheduler. *)
Definition UploadDir (g : option GoogleCloudStorage) (n : nat) (ret : Op)
           (bucket src dst : string) (order : list string) : Completion :=
  match open_bucket g n bucket with
  | Some e => Returns (Some e)
  | None =>
      match walkRecursive cloud n src with
      | inl e => Returns (Some (Ext e))
      | inr fmap =>
          wait_tasks (List.length fmap) 0
                     (map (upload_task n ret bucket src dst) order)
      end
  end.

End WithCloud.
End RemoteStorage.

(* ===================================================================== *)
(** ** Effects of the agent                                              *)
(* ===================================================================== *)

(** What the agent does to the outside world, in the order it does it. *)
Inductive Event : Type :=
| EvSleep (seconds : Z)
| EvToFile (content path : string)
| EvRemoveAll (path : string)
| EvChdir (path : string)
| EvMkdirAll (path : string)
| EvOpen (path : string) (f : File)
| EvStart (c : Cmd) (out : File) (p : Z)
| EvGoWait (p : Z)
| EvKill (p : Z) (result : option error)
| EvClose (f : File)
| EvSync (f : File)
| EvSend (op : Request_Operation)
| EvRecv (op : Request_Operation)
| EvGoMonitor (p : Z)
| EvProcessList (p : Z)
| EvWriteCSV (f : File)
| EvUploadFile (bucket src dst : string) (result : option error).

(** The answers of the operating system.  [exist], [openToAppend] and
    [toFile] are helpers of the package kept in a file that is not among the
    sources; they are taken here as the system calls they wrap.  Every
    answer may depend on the events so far. *)
Record OS : Type := mkOS {
  os_exist : list Event -> string -> bool;
  os_toFile : list Event -> string -> string -> option string;
  os_RemoveAll : list Event -> string -> option string;
  os_Chdir : list Event -> string -> option string;
  os_MkdirAll : list Event -> string -> option string;
  os_openToAppend : list Event -> string -> option string;
  os_Start : list Event -> Cmd -> string + Z;
  os_Kill : list Event -> Z -> option string;
  os_process_List : list Event -> Z -> option string;
  os_WriteToCSV : list Event -> File -> option string
}.

(** The state of the agent process: the server object [t], the package
    variables, the channel [uploadSig] (capacity one), the file objects that
    are open, and the trace. *)
Record State : Type := mkState {
  srv : transporterServer;
  globals : Globals;
  uploadSig : option Request_Operation;
  open_files : list File;
  next_file : File;
  upload_calls : nat;
  trace : list Event
}.

(** The agent when it starts serving: nothing tracked, the channel empty;
    file 0 is the agent log that [CommandFunc] keeps open. *)
Definition initial_state (cfg : Config) : State :=
  mkState NewTransporterServer (CommandFunc_globals cfg initial_globals)
          None [0%nat] 1 0 [].

(** How a call ends. *)
Inductive Outcome (A : Type) : Type :=
| Returned (a : A)      (** normal return *)
| Failed (e : error)    (** [return nil, err] *)
| Panicked              (** run-time panic *)
| Parked.               (** blocked on a channel operation *)

Arguments Returned {A} a.
Arguments Failed {A} e.
Arguments Panicked {A}.
Arguments Parked {A}.

Definition M (A : Type) : Type := State -> Outcome A * State.

Definition ret {A : Type} (a : A) : M A := fun s => (Returned a, s).

Definition bind {A B : Type} (m : M A) (k : A -> M B) : M B :=
  fun s =>
    match m s with
    | (Returned a, s') => k a s'
    | (Failed e, s') => (Failed e, s')
    | (Panicked, s') => (Panicked, s')
    | (Parked, s') => (Parked, s')
    end.

Declare Scope agent_scope.
Delimit Scope agent_scope with agent.
Notation "x <- m ;; k" := (bind m (fun x => k))
  (at level 61, m at next level, right associativity) : agent_scope.
Notation "m ;; k" := (bind m (fun _ => k))
  (at level 61, right associativity) : agent_scope.
Local Open Scope agent_scope.

Definition fail {A : Type} (e : error) : M A := fun s => (Failed e, s).
Definition panic {A : Type} : M A := fun s => (Panicked, s).
Definition park {A : Type} : M A := fun s => (Parked, s).

Definition get_srv : M transporterServer := fun s => (Returned (srv s), s).
Definition get_globals : M Globals := fun s => (Returned (globals s), s).
Definition get_trace : M (list Event) := fun s => (Returned (trace s), s).

Definition with_srv (s : State) (t : transporterServer) : State :=
  mkState t (globals s) (uploadSig s) (open_files s) (next_file s)
          (upload_calls s) (trace s).
Definition with_globals (s : State) (g : Globals) : State :=
  mkState (srv s) g (uploadSig s) (open_files s) (next_file s)
          (upload_calls s) (trace s).
Definition with_uploadSig (s : State) (c : option Request_Operation) : State :=
  mkState (srv s) (globals s) c (open_files s) (next_file s)
          (upload_calls s) (trace s).
Definition with_open_files (s : State) (l : list File) : State :=
  mkState (srv s) (globals s) (uploadSig s) l (next_file s)
          (upload_calls s) (trace s).
Definition with_trace (s : State) (l : list Event) : State :=
  mkState (srv s) (globals s) (uploadSig s) (open_files s) (next_file s)
          (upload_calls s) l.

Definition modify_srv (f : transporterServer -> transporterServer) : M unit :=
  fun s => (Returned tt, with_srv s (f (srv s))).
Definition modify_globals (f : Globals -> Globals) : M unit :=
  fun s => (Returned tt, with_globals s (f (globals s))).
Definition emit (e : Event) : M unit :=
  fun s => (Returned tt, with_trace s (trace s ++ [e])%list).

(** Field updates of [t]. *)
Definition set_req (r : Request) (t : transporterServer) : transporterServer :=
  mkServer r (cmd t) (logfile t) (pid t) (proxyCmd t) (proxyLogfile t) (proxyPid t).
Definition set_logfile (f : File) (t : transporterServer) : transporterServer :=
  mkServer (req t) (cmd t) (Some f) (pid t) (proxyCmd t) (proxyLogfile t) (proxyPid t).
Definition set_cmd (c : Cmd) (p : Z) (t : transporterServer) : transporterServer :=
  mkServer (req t) (Some c) (logfile t) p (proxyCmd t) (proxyLogfile t) (proxyPid t).
Definition set_proxyLogfile (f : File) (t : transporterServer) : transporterServer :=
  mkServer (req t) (cmd t) (logfile t) (pid t) (proxyCmd t) (Some f) (proxyPid t).
Definition set_proxyCmd (c : Cmd) (p : Z) (t : transporterServer) : transporterServer :=
  mkServer (req t) (cmd t) (logfile t) (pid t) (Some c) (proxyLogfile t) p.

(** The [Request_UploadLog] case of the first [switch] of [Transfer]: three
    fields of the stored request are overwritten. *)
Definition merge_upload_fields (r old : Request) : Request :=
  mkRequest (Operation old) (Database old) (PeerIPString old)
            (ServerIndex old) (TestName old)
            (GoogleCloudProjectName r)
            (GoogleCloudStorageKey old)
            (GoogleCloudStorageBucketName r)
            (GoogleCloudStorageSubDirectory r)
            (ZookeeperMyID old) (ZookeeperMaxClientCnxns old)
            (ZookeeperSnapCount old).

Section Agent.
Variable cfg : Config.
Variable os : OS.
Variable cloud : RemoteStorage.Cloud.

(** *** Primitive operations *)

(** [time.Sleep(n * time.Second)]. *)
Definition Sleep (seconds : Z) : M unit := emit (EvSleep seconds).

(** A system call that only reports an error. *)
Definition syscall (answer : list Event -> option string) (e : Event)
  : M (option error) :=
  fun s =>
    let r := answer (trace s) in
    (Returned (option_map Ext r), with_trace s (trace s ++ [e])%list).

Definition exist (path : string) : M bool :=
  fun s => (Returned (os_exist os (trace s) path), s).

Definition toFile (content path : string) : M (option error) :=
  syscall (fun h => os_toFile os h content path) (EvToFile content path).
Definition os_RemoveAll_ (path : string) : M (option error) :=
  syscall (fun h => os_RemoveAll os h path) (EvRemoveAll path).
Definition os_Chdir_ (path : string) : M (option error) :=
  syscall (fun h => os_Chdir os h path) (EvChdir path).
Definition os_MkdirAll_ (path : string) : M (option error) :=
  syscall (fun h => os_MkdirAll os h path) (EvMkdirAll path).

(** [openToAppend(path)]: a new file object on success. *)
Definition openToAppend (path : string) : M (error + File) :=
  fun s =>
    match os_openToAppend os (trace s) path with
    | Some e => (Returned (inl (Ext e)), s)
    | None =>
        let f := next_file s in
        (Returned (inr f),
         mkState (srv s) (globals s) (uploadSig s)
                 (f :: open_files s) (S f) (upload_calls s)
                 (trace s ++ [EvOpen path f])%list)
    end.

(** [f.Close()], its error ignored. *)
Definition File_Close (f : File) : M unit :=
  fun s =>
    (Returned tt,
     mkState (srv s) (globals s) (uploadSig s)
             (List.remove Nat.eq_dec f (open_files s)) (next_file s)
             (upload_calls s) (trace s ++ [EvClose f])%list).

(** [f.Sync()], its error ignored. *)
Definition File_Sync (f : File) : M unit := emit (EvSync f).

(** [cmd.Stdout = f; cmd.Stderr = f; cmd.Start()]: the process id on
    success. *)
Definition Cmd_Start (c : Cmd) (f : File) : M (error + Z) :=
  fun s =>
    match os_Start os (trace s) c with
    | inl e => (Returned (inl (Ext e)), s)
    | inr p => (Returned (inr p), with_trace s (trace s ++ [EvStart c f p])%list)
    end.

(** [go func() { cmd.Wait() ... }()]: the reaper. *)
Definition go_Wait (p : Z) : M unit := emit (EvGoWait p).

(** [syscall.Kill(pid, syscall.SIGTERM)]. *)
Definition Kill (p : Z) : M (option error) :=
  fun s =>
    let r := option_map Ext (os_Kill os (trace s) p) in
    (Returned r, with_trace s (trace s ++ [EvKill p r])%list).

(** [uploadSig <- op] on the channel of capacity one. *)
Definition send_uploadSig (op : Request_Operation) : M unit :=
  fun s =>
    match uploadSig s with
    | Some _ => (Parked, s)
    | None =>
        (Returned tt,
         mkState (srv s) (globals s) (Some op) (open_files s) (next_file s)
                 (upload_calls s) (trace s ++ [EvSend op])%list)
    end.

(** [op := <-uploadSig]. *)
Definition recv_uploadSig : M Request_Operation :=
  fun s =>
    match uploadSig s with
    | None => (Parked, s)
    | Some op =>
        (Returned op,
         mkState (srv s) (globals s) None (open_files s) (next_file s)
                 (upload_calls s) (trace s ++ [EvRecv op])%list)
    end.

(** [if err != nil { return nil, err }]. *)
Definition check (m : M (option error)) : M unit :=
  r <- m ;;
  match r with
  | Some e => fail e
  | None => ret tt
  end.

Definition check_val {A : Type} (m : M (error + A)) : M A :=
  r <- m ;;
  match r with
  | inl e => fail e
  | inr a => ret a
  end.

(** [l[i]]: a run-time panic when [i] is out of range. *)
Definition index {A : Type} (l : list A) (i : N) : M A :=
  match nth_error l (N.to_nat i) with
  | Some a => ret a
  | None => panic
  end.

(** *** Arguments of the etcd process *)

(** [for i, u := range peerIPs { ... }]: the loop index with the element. *)
Fixpoint range_map {A : Type} (f : Z -> string -> A) (i : Z)
         (peerIPs : list string) : list A :=
  match peerIPs with
  | [] => []
  | u :: rest => f i u :: range_map f (i + 1) rest
  end.

Definition etcd_name (i : Z) (u : string) : string := "etcd-" ++ Fmt.d (i + 1).
Definition etcd_clientURL (i : Z) (u : string) : string := "http://" ++ u ++ ":2379".
Definition etcd_peerURL (i : Z) (u : string) : string := "http://" ++ u ++ ":2380".
Definition etcd_member (i : Z) (u : string) : string :=
  etcd_name i u ++ "=" ++ etcd_peerURL i u.

Definition etcd_clusterStr (peerIPs : list string) : string :=
  Strings.Join (range_map etcd_member 0 peerIPs) ",".

(** The [flags] slice of the etcd branch. *)
Definition etcd_flags (peerIPs : list string) : M (list string) :=
  let names := range_map etcd_name 0 peerIPs in
  let clientURLs := range_map etcd_clientURL 0 peerIPs in
  let peerURLs := range_map etcd_peerURL 0 peerIPs in
  let clusterStr := etcd_clusterStr peerIPs in
  t <- get_srv ;;
  g <- get_globals ;;
  name <- index names (ServerIndex (req t)) ;;
  clientURL <- index clientURLs (ServerIndex (req t)) ;;
  peerURL <- index peerURLs (ServerIndex (req t)) ;;
  ret [ "--name"; name;
        "--data-dir"; etcdDataDir g;
        "--listen-client-urls"; clientURL;
        "--advertise-client-urls"; clientURL;
        "--listen-peer-urls"; peerURL;
        "--initial-advertise-peer-urls"; peerURL;
        "--initial-cluster-token"; etcdToken;
        "--initial-cluster"; clusterStr;
        "--initial-cluster-state"; "new" ].

(** [cmd.Start()], the assignments to [t.cmd] and [t.pid] and the reaper
    goroutine. *)
Definition start_primary (c : Cmd) (f : File) : M Z :=
  p <- check_val (Cmd_Start c f) ;;
  modify_srv (set_cmd c p) ;;
  go_Wait p ;;
  ret p.

Definition start_proxy (c : Cmd) (f : File) : M unit :=
  p <- check_val (Cmd_Start c f) ;;
  modify_srv (set_proxyCmd c p) ;;
  go_Wait p.

Definition is_proxied (db : Request_Database) : bool :=
  match db with
  | Request_zetcd | Request_cetcd => true
  | _ => false
  end.

(** [case Request_etcdv2, Request_etcdv3, Request_zetcd, Request_cetcd]. *)
Definition start_etcd (peerIPs : list string) : M Z :=
  t <- get_srv ;;
  let db := Database (req t) in
  e1 <- exist (etcdBinaryPath cfg) ;;
  (if negb e1
   then fail (Errorf "etcd binary %q does not exist" [etcdBinaryPath cfg])
   else ret tt) ;;
  (match db with
   | Request_zetcd =>
       e2 <- exist (zetcdBinaryPath cfg) ;;
       if negb e2
       then fail (Errorf "zetcd binary %q does not exist" [zetcdBinaryPath cfg])
       else ret tt
   | _ => ret tt
   end) ;;
  (match db with
   | Request_cetcd =>
       e3 <- exist (cetcdBinaryPath cfg) ;;
       if negb e3
       then fail (Errorf "cetcd binary %q does not exist" [cetcdBinaryPath cfg])
       else ret tt
   | _ => ret tt
   end) ;;
  g <- get_globals ;;
  check (os_RemoveAll_ (etcdDataDir g)) ;;
  f <- check_val (openToAppend (databaseLogPath g)) ;;
  modify_srv (set_logfile f) ;;
  flags <- etcd_flags peerIPs ;;
  p <- start_primary (exec_Command (etcdBinaryPath cfg) flags) f ;;
  (if is_proxied db then
     f2 <- check_val (openToAppend (databaseLogPath g ++ "-" ++ Database_String db)) ;;
     modify_srv (set_proxyLogfile f2) ;;
     clientURL <- index (range_map etcd_clientURL 0 peerIPs) (ServerIndex (req t)) ;;
     let flags2 :=
       match db with
       | Request_zetcd => ["-zkaddr"; "0.0.0.0:2181"; "-endpoint"; clientURL]
       | _ => ["-consuladdr"; "0.0.0.0:8500"; "-etcd"; clientURL]
       end in
     let bpath :=
       match db with
       | Request_cetcd => cetcdBinaryPath cfg
       | _ => zetcdBinaryPath cfg
       end in
     start_proxy (exec_Command bpath flags2) f2
   else ret tt) ;;
  ret p.

Definition zk_flagString : string :=
  "-cp zookeeper-3.4.9.jar:lib/slf4j-api-1.6.1.jar:lib/slf4j-log4j12-1.6.1.jar:lib/log4j-1.2.16.jar:conf org.apache.zookeeper.server.quorum.QuorumPeerMain".

(** [case Request_ZooKeeper]. *)
Definition start_zookeeper (peerIPs : list string) : M Z :=
  t <- get_srv ;;
  g <- get_globals ;;
  e1 <- exist javaBinaryPath ;;
  (if negb e1 then fail (Errorf "%q does not exist" [javaBinaryPath]) else ret tt) ;;
  check (os_Chdir_ (zkWorkingDir g)) ;;
  check (os_MkdirAll_ (zkDataDir g)) ;;
  let idFilePath := Filepath.Join [zkDataDir g; "myid"] in
  check (toFile (Fmt.d (Z.of_N (ZookeeperMyID (req t)))) idFilePath) ;;
  let zkCfg :=
    mkZookeeperConfig (TickTime zkConfigDefault) (zkDataDir g)
                      (ClientPort zkConfigDefault)
                      (InitLimit zkConfigDefault) (SyncLimit zkConfigDefault)
                      (ZookeeperMaxClientCnxns (req t))
                      (ZookeeperSnapCount (req t))
                      (range_map (fun i ip => mkZookeeperPeer (i + 1) ip) 0 peerIPs) in
  let zc := zkTemplate_execute zkCfg in
  let configFilePath := Filepath.Join [zkWorkingDir g; zkConfigPath] in
  check (toFile zc configFilePath) ;;
  f <- check_val (openToAppend (databaseLogPath g)) ;;
  modify_srv (set_logfile f) ;;
  let args :=
    [shell cfg; "-c"; javaBinaryPath ++ " " ++ zk_flagString ++ " " ++ configFilePath] in
  start_primary (exec_Command (hd "" args) (tl args)) f.

(** [case Request_Consul]. *)
Definition start_consul (peerIPs : list string) : M Z :=
  t <- get_srv ;;
  g <- get_globals ;;
  e1 <- exist (consulBinaryPath cfg) ;;
  (if negb e1 then fail (Errorf "%q does not exist" [consulBinaryPath cfg]) else ret tt) ;;
  check (os_RemoveAll_ (consulDataDir g)) ;;
  f <- check_val (openToAppend (databaseLogPath g)) ;;
  modify_srv (set_logfile f) ;;
  let i := ServerIndex (req t) in
  own <- index peerIPs i ;;
  flags <-
    (if (i =? 0)%N
     then ret ["agent"; "-server"; "-data-dir"; consulDataDir g;
               "-bind"; own; "-client"; own; "-bootstrap-expect"; "3"]
     else
       first <- index peerIPs 0%N ;;
       ret ["agent"; "-server"; "-data-dir"; consulDataDir g;
            "-bind"; own; "-client"; own; "-join"; first]) ;;
  start_primary (exec_Command (consulBinaryPath cfg) flags) f.

(** [case Request_Start] of the second [switch]. *)
Definition start_database (r : Request) (peerIPs : list string) : M Z :=
  t <- get_srv ;;
  match Database (req t) with
  | Request_etcdv2 | Request_etcdv3 | Request_zetcd | Request_cetcd =>
      start_etcd peerIPs
  | Request_ZooKeeper => start_zookeeper peerIPs
  | Request_Consul => start_consul peerIPs
  | Request_Database_other _ =>
      fail (Errorf "unknown database %q" [Database_String (Database r)])
  end.

(** [case Request_Stop]. *)
Definition stop_database : M Z :=
  Sleep 3 ;;
  t <- get_srv ;;
  match cmd t with
  | None => fail (Errorf "nil command" [])
  | Some _ =>
      check (Kill (pid t)) ;;
      (match logfile t with
       | Some f => File_Close f
       | None => ret tt
       end) ;;
      (match proxyCmd t with
       | Some _ => check (Kill (proxyPid t))
       | None => ret tt
       end) ;;
      (match proxyLogfile t with
       | Some f => File_Close f
       | None => ret tt
       end) ;;
      send_uploadSig Request_Stop ;;
      ret (pid t)
  end.

(** [case Request_UploadLog]; [pidToMonitor] keeps its zero value. *)
Definition upload_log : M Z :=
  Sleep 3 ;;
  t <- get_srv ;;
  (match logfile t with
   | Some f => File_Sync f
   | None => ret tt
   end) ;;
  send_uploadSig Request_UploadLog ;;
  ret 0%Z.

Definition Operation_name (op : Request_Operation) : string :=
  match op with
  | Request_Start => "Start"
  | Request_Stop => "Stop"
  | Request_UploadLog => "UploadLog"
  | Request_Operation_other n => Fmt.d n
  end.

(** The first [switch r.Operation] of [Transfer]: what is kept of the
    request. *)
Definition store_request (r : Request) : M unit :=
  match Operation r with
  | Request_Start => modify_srv (set_req r)
  | Request_UploadLog =>
      modify_srv (fun t => set_req (merge_upload_fields r (req t)) t)
  | _ => ret tt
  end.

(** [if t.req.GoogleCloudStorageKey != "" { toFile(key, "gcloud-key.json") }]. *)
Definition write_key : M unit :=
  t <- get_srv ;;
  if negb (GoogleCloudStorageKey (req t) =? "")%string
  then check (toFile (GoogleCloudStorageKey (req t))
                     (Filepath.Join [WorkingDirectory cfg; "gcloud-key.json"]))
  else ret tt.

(** The second [switch r.Operation]: its value is [pidToMonitor]. *)
Definition dispatch (r : Request) (peerIPs : list string) : M Z :=
  match Operation r with
  | Request_Start => start_database r peerIPs
  | Request_Stop => stop_database
  | Request_UploadLog => upload_log
  | Request_Operation_other _ =>
      fail (Errorf "Not implemented %v" [Operation_name (Operation r)])
  end.

(** [Transfer(ctx, r)].  The goroutine started at the end of a [Start] is
    [monitor] below; here it is only recorded as started. *)
Definition Transfer (r : Request) : M Response :=
  let peerIPs := Strings.Split (PeerIPString r) "___" in
  (if Operation_eqb (Operation r) Request_Start
   then modify_globals (rebase_globals cfg)
   else ret tt) ;;
  store_request r ;;
  write_key ;;
  pidToMonitor <- dispatch r peerIPs ;;
  (if Operation_eqb (Operation r) Request_Start
   then emit (EvGoMonitor pidToMonitor)
   else ret tt) ;;
  ret (mkResponse true).

(** *** The upload closure *)

(** The name under which the file [base] is stored:
    [dst := base; if !strings.HasPrefix(base, TestName) { dst = fmt.Sprintf("%s-%d-%s", TestName, ServerIndex+1, base) }]. *)
Definition destination_name (testName : string) (serverIndex : N)
           (base : string) : string :=
  if negb (Strings.HasPrefix base testName)
  then testName ++ "-" ++ Fmt.d (Z.of_N (uint32_add serverIndex 1)) ++ "-" ++ base
  else base.

(** [dst = filepath.Join(GoogleCloudStorageSubDirectory, dst)]. *)
Definition destination (subDirectory testName : string) (serverIndex : N)
           (base : string) : string :=
  Filepath.Join [subDirectory; destination_name testName serverIndex base].

(** One call [u.UploadFile(bucket, src, dst)], without options. *)
Definition upload_once (u : RemoteStorage.GoogleCloudStorage)
           (bucket src dst : string) : M (option error) :=
  fun s =>
    let r := RemoteStorage.UploadFile cloud (Some u) (upload_calls s)
                                      (RemoteStorage.mkOp "") bucket src dst in
    (Returned r,
     mkState (srv s) (globals s) (uploadSig s) (open_files s) (next_file s)
             (S (upload_calls s))
             (trace s ++ [EvUploadFile bucket src dst r])%list).

(** [for k := 0; k < 30; k++ { if uerr = u.UploadFile(...); uerr != nil {
    time.Sleep(2 * time.Second); continue } else { break } }] with [n]
    iterations left; the result is the final value of [uerr]. *)
Fixpoint upload_retry (u : RemoteStorage.GoogleCloudStorage) (n : nat)
         (uerr : option error) (bucket src dst : string)
  : M (option error) :=
  match n with
  | O => ret uerr
  | S n' =>
      r <- upload_once u bucket src dst ;;
      match r with
      | Some e => Sleep 2 ;; upload_retry u n' (Some e) bucket src dst
      | None => ret None
      end
  end.

Definition max_attempts : nat := 30.

(** The block repeated in [uploadFunc] for each artifact: destination,
    then the retry loop. *)
Definition upload_artifact (u : RemoteStorage.GoogleCloudStorage)
           (srcPath : string) : M (option error) :=
  t <- get_srv ;;
  let dst := destination (GoogleCloudStorageSubDirectory (req t))
                         (TestName (req t)) (ServerIndex (req t))
                         (Filepath.Base srcPath) in
  upload_retry u max_attempts None
               (GoogleCloudStorageBucketName (req t)) srcPath dst.

(** [uploadFunc]: its result is the [error] it returns. *)
Definition uploadFunc : M (option error) :=
  t <- get_srv ;;
  match RemoteStorage.NewGoogleCloudStorage cloud
          (GoogleCloudStorageKey (req t)) (GoogleCloudProjectName (req t)) with
  | inl e => ret (Some e)
  | inr u =>
      g <- get_globals ;;
      upload_artifact u (databaseLogPath g) ;;
      (if is_proxied (Database (req t)) then
         let dpath := databaseLogPath g ++ "-" ++ Database_String (Database (req t)) in
         present <- exist dpath ;;
         if present then upload_artifact u dpath ;; ret tt else ret tt
       else ret tt) ;;
      upload_artifact u (monitorLogPath g) ;;
      upload_artifact u (agentLogPath g) ;;
      ret None
  end.

(** *** The monitoring goroutine *)

(** [rFunc]: one sample of the process appended to the monitor file. *)
Definition rFunc (p : Z) : M (option error) :=
  r <- syscall (fun h => os_process_List os h p) (EvProcessList p) ;;
  match r with
  | Some e => ret (Some e)
  | None =>
      g <- get_globals ;;
      o <- openToAppend (monitorLogPath g) ;;
      match o with
      | inl e => ret (Some e)
      | inr f =>
          w <- syscall (fun h => os_WriteToCSV os h f) (EvWriteCSV f) ;;
          File_Close f ;;
          ret w
      end
  end.

Inductive LoopStatus : Type :=
| Looping   (** back at the [select] *)
| Exited.   (** the goroutine returned *)

(** Which case of the [select] fires. *)
Inductive Select : Type :=
| SelTimer                          (** [<-time.After(time.Second)] *)
| SelUploadSig                      (** [us := <-uploadSig] *)
| SelNotifier (sig : string).       (** [sig := <-notifier] *)

(** The goroutine up to its loop: the first sample. *)
Definition monitor_enter (p : Z) : M LoopStatus :=
  r <- rFunc p ;;
  match r with
  | Some _ => ret Exited
  | None => ret Looping
  end.

(** One iteration of [for { select { ... } }]. *)
Definition monitor_iteration (p : Z) (sel : Select) : M LoopStatus :=
  match sel with
  | SelTimer =>
      rFunc p ;;
      ret Looping
  | SelUploadSig =>
      us <- recv_uploadSig ;;
      r <- uploadFunc ;;
      match r with
      | Some _ => ret Exited
      | None =>
          if Operation_eqb us Request_UploadLog then ret Looping else ret Exited
      end
  | SelNotifier _ => ret Exited
  end.

(** The loop driven by the sequence of [select] choices. *)
Fixpoint monitor_loop (p : Z) (sels : list Select) : M LoopStatus :=
  match sels with
  | [] => ret Looping
  | sel :: rest =>
      st <- monitor_iteration p sel ;;
      match st with
      | Looping => monitor_loop p rest
      | Exited => ret Exited
      end
  end.

(** The whole goroutine [go func(pid int) { ... }(pidToMonitor)]. *)
Definition monitor (p : Z) (sels : list Select) : M LoopStatus :=
  st <- monitor_enter p ;;
  match st with
  | Looping => monitor_loop p sels
  | Exited => ret Exited
  end.

End Agent.

(** The events a computation adds to the trace of [s]. *)
Definition emitted {A : Type} (m : M A) (s : State) : list Event :=
  skipn (List.length (trace s)) (trace (snd (m s))).

(** A computation only ever appends to the trace. *)
Definition extends {A : Type} (m : M A) : Prop :=
  forall s, exists l, trace (snd (m s)) = (trace s ++ l)%list.

(** [e1] occurs in [l] strictly before [e2]. *)
Definition precedes (e1 e2 : Event) (l : list Event) : Prop :=
  exists l1 l2 l3, l = (l1 ++ e1 :: l2 ++ e2 :: l3)%list.

(* ===================================================================== *)
(** ** Statements compared with the code                                 *)
(* ===================================================================== *)

Fixpoint drop_while (p : Event -> bool) (l : list Event) : list Event :=
  match l with
  | [] => []
  | e :: rest => if p e then drop_while p rest else l
  end.

Definition is_signal (e : Event) : bool :=
  match e with
  | EvKill _ _ => true
  | _ => false
  end.

Definition is_close (e : Event) : bool :=
  match e with
  | EvClose _ => true
  | _ => false
  end.

Definition is_upload (e : Event) : bool :=
  match e with
  | EvUploadFile _ _ _ _ => true
  | _ => false
  end.

(** The effects of a [Stop] in the order of the source text, given the
    server object and the results of the two signals. *)
Definition opt_close (f : option File) : list Event :=
  match f with
  | Some f => [EvClose f]
  | None => []
  end.

Definition stop_plan (t : transporterServer) (r1 r2 : option error)
  : list Event :=
  ([EvSleep 3; EvKill (pid t) r1] ++ opt_close (logfile t) ++
   match proxyCmd t with
   | Some _ => [EvKill (proxyPid t) r2]
   | None => []
   end ++ opt_close (proxyLogfile t) ++ [EvSend Request_Stop])%list.

(** A step of a command: from the events so far, the event it leaves and
    the error with which it ends the command when it fails. *)
Definition Step : Type := list Event -> Event * option error.

(** Steps done one after the other, ending at the first step that fails:
    the events left behind and the error of the failing step. *)
Fixpoint until_first_failure (h : list Event) (steps : list Step)
  : list Event * option error :=
  match steps with
  | [] => ([], None)
  | step :: rest =>
      match step h with
      | (e, Some err) => ([e], Some err)
      | (e, None) =>
          let (es, r) := until_first_failure (h ++ [e])%list rest in
          (e :: es, r)
      end
  end.

(** The steps of a [Stop] in the order of the amended claim.  Before them
    the key file is written when a key is stored; the wait is followed by
    the check that a process is tracked. *)
Definition key_step (cfg : Config) (os : OS) (t : transporterServer)
  : list Step :=
  if negb (GoogleCloudStorageKey (req t) =? "")%string
  then [fun h =>
          (EvToFile (GoogleCloudStorageKey (req t))
                    (Filepath.Join [WorkingDirectory cfg; "gcloud-key.json"]),
           option_map Ext
             (os_toFile os h (GoogleCloudStorageKey (req t))
                        (Filepath.Join [WorkingDirectory cfg; "gcloud-key.json"])))]
  else [].

Definition wait_step (t : transporterServer) : Step :=
  fun _ => (EvSleep 3,
            match cmd t with
            | Some _ => None
            | None => Some (Errorf "nil command" [])
            end).

Definition signal_step (os : OS) (p : Z) : Step :=
  fun h => (EvKill p (option_map Ext (os_Kill os h p)),
            option_map Ext (os_Kill os h p)).

Definition close_step (f : option File) : list Step :=
  match f with
  | Some f => [fun _ => (EvClose f, None)]
  | None => []
  end.

Definition stop_steps (cfg : Config) (os : OS) (t : transporterServer)
  : list Step :=
  (key_step cfg os t ++
   [wait_step t; signal_step os (pid t)] ++
   close_step (logfile t) ++
   match proxyCmd t with
   | Some _ => [signal_step os (proxyPid t)]
   | None => []
   end ++
   close_step (proxyLogfile t))%list.

(** The effects and the outcome of a [Stop] as the amended claim has them:
    the steps up to the first that fails and its error; when none fails,
    the trigger of the upload pass, which is a send on the channel of
    capacity one: it blocks while the channel is full. *)
Definition stop_effects (cfg : Config) (os : OS) (s : State)
  : list Event * Outcome Response :=
  match until_first_failure (trace s) (stop_steps cfg os (srv s)) with
  | (evs, Some e) => (evs, Failed e)
  | (evs, None) =>
      match uploadSig s with
      | None => ((evs ++ [EvSend Request_Stop])%list,
                 Returned (mkResponse true))
      | Some _ => (evs, Parked)
      end
  end.

(** The four phases of a [Stop] one after the other: the wait, then all the
    signals, then all the closes, then the trigger of the upload. *)
Definition phases_one_after_the_other (l : list Event) : bool :=
  match l with
  | EvSleep 3 :: rest =>
      match drop_while is_close (drop_while is_signal rest) with
      | [EvSend Request_Stop] => true
      | _ => false
      end
  | _ => false
  end.

(** The log files of [t] are closed in [s]: none of its handles is among
    the open file objects. *)
Definition log_files_closed (t : transporterServer) (s : State) : Prop :=
  (forall f, logfile t = Some f -> ~ In f (open_files s)) /\
  (forall f, proxyLogfile t = Some f -> ~ In f (open_files s)).

(** The number of upload attempts and of two-second pauses in a trace. *)
Definition attempts (l : list Event) : nat :=
  List.length (filter is_upload l).

Definition is_pause (e : Event) : bool :=
  match e with
  | EvSleep 2 => true
  | _ => false
  end.

Definition pauses (l : list Event) : nat :=
  List.length (filter is_pause l).

(** A state that differs from [s] by [k] more upload calls and the events
    [evs]. *)
Definition after_uploads (s : State) (k : nat) (evs : list Event) : State :=
  mkState (srv s) (globals s) (uploadSig s) (open_files s) (next_file s)
          (k + upload_calls s) (trace s ++ evs)%list.

(** The merge of an [UploadLog] command as the data model words it: all the
    remote-storage destination fields of the stored command (project,
    bucket, key material, sub-directory, test name) are taken from the new
    command. *)
Definition merge_destination_fields (r old : Request) : Request :=
  mkRequest (Operation old) (Database old) (PeerIPString old)
            (ServerIndex old) (TestName r)
            (GoogleCloudProjectName r)
            (GoogleCloudStorageKey r)
            (GoogleCloudStorageBucketName r)
            (GoogleCloudStorageSubDirectory r)
            (ZookeeperMyID old) (ZookeeperMaxClientCnxns old)
            (ZookeeperSnapCount old).


(** The cluster membership of [n] peers in words: the pairs
    [etcd-{i+1}=http://{peer i}:2380] for [i = 0 .. n-1], joined by commas. *)
Definition membership_pairs (peers : list string) : list string :=
  map (fun iu => "etcd-" ++ Fmt.d (Z.of_nat (fst iu) + 1) ++ "="
                 ++ "http://" ++ snd iu ++ ":2380")
      (combine (seq 0 (List.length peers)) peers).

Definition membership (peers : list string) : string :=
  Strings.Join (membership_pairs peers) ",".

(** The command of the first process started in a trace. *)
Fixpoint first_started (l : list Event) : option Cmd :=
  match l with
  | [] => None
  | EvStart c _ _ :: _ => Some c
  | _ :: rest => first_started rest
  end.

Definition is_etcd_family (db : Request_Database) : bool :=
  match db with
  | Request_etcdv2 | Request_etcdv3 | Request_zetcd | Request_cetcd => true
  | _ => false
  end.


(** [has_char c s]: the byte [c] occurs in [s]. *)
Fixpoint has_char (c : ascii) (s : string) : bool :=
  match s with
  | EmptyString => false
  | String a s' => Ascii.eqb a c || has_char c s'
  end.


(** The answer of the uploader to the upload call number [k], and the
    events of a failed attempt: the call and the pause that follows it. *)
Definition upload_answer (cloud : RemoteStorage.Cloud)
           (u : RemoteStorage.GoogleCloudStorage) (bucket src dst : string)
           (k : nat) : option error :=
  RemoteStorage.UploadFile cloud (Some u) k (RemoteStorage.mkOp "") bucket src dst.

Definition failed_round (cloud : RemoteStorage.Cloud)
           (u : RemoteStorage.GoogleCloudStorage) (bucket src dst : string)
           (k : nat) : list Event :=
  [EvUploadFile bucket src dst (upload_answer cloud u bucket src dst k); EvSleep 2].

(** The retry policy in words, for the artifact [src] stored as [dst] when
    the upload-call counter stands at [c]: either the uploader first
    succeeds on attempt [N <= 30], and the events are [N - 1] failed
    attempts, each followed by a two-second pause, and the successful
    attempt; or the uploader fails thirty times, and the events are thirty
    failed attempts, each followed by a two-second pause. *)
Definition follows_retry_policy (cloud : RemoteStorage.Cloud)
           (u : RemoteStorage.GoogleCloudStorage) (bucket src dst : string)
           (c : nat) (evs : list Event) : Prop :=
  (exists N,
      1 <= N <= 30 /\
      (forall i, i < N - 1 -> upload_answer cloud u bucket src dst (c + i) <> None) /\
      upload_answer cloud u bucket src dst (c + (N - 1)) = None /\
      evs = (flat_map (failed_round cloud u bucket src dst) (seq c (N - 1))
             ++ [EvUploadFile bucket src dst None])%list) \/
  ((forall i, i < 30 -> upload_answer cloud u bucket src dst (c + i) <> None) /\
   evs = flat_map (failed_round cloud u bucket src dst) (seq c 30)).

(** The same for an artifact of the pass run in state [s]: the bucket is
    the stored one, the name is derived from the stored sub-directory, test
    name and server index and from the base name of the file. *)
Definition artifact_uploaded_by_policy (cloud : RemoteStorage.Cloud)
           (u : RemoteStorage.GoogleCloudStorage) (s : State)
           (path : string) (c : nat) (evs : list Event) : Prop :=
  follows_retry_policy cloud u
    (GoogleCloudStorageBucketName (req (srv s))) path
    (destination (GoogleCloudStorageSubDirectory (req (srv s)))
                 (TestName (req (srv s))) (ServerIndex (req (srv s)))
                 (Filepath.Base path))
    c evs.

(* ===================================================================== *)
(** ** Scenarios                                                         *)
(* ===================================================================== *)

(** A machine on which every system call succeeds and every file exists;
    process ids are handed out from 100 upwards. *)
Definition cfg0 : Config := mkConfig "/go" "/bin/bash" "/home/agent".

Definition os_ok : OS :=
  mkOS (fun _ _ => true) (fun _ _ _ => None) (fun _ _ => None)
       (fun _ _ => None) (fun _ _ => None) (fun _ _ => None)
       (fun h _ => inr (100 + Z.of_nat (List.length h))%Z)
       (fun _ _ => None) (fun _ _ => None) (fun _ _ => None).

(** The same machine, on which the signal finds no process. *)
Definition os_no_such_process : OS :=
  mkOS (fun _ _ => true) (fun _ _ _ => None) (fun _ _ => None)
       (fun _ _ => None) (fun _ _ => None) (fun _ _ => None)
       (fun h _ => inr (100 + Z.of_nat (List.length h))%Z)
       (fun _ _ => Some "no such process") (fun _ _ => None) (fun _ _ => None).

(** The same machine, on which only the signal to the process 105 (the
    proxy of [running_zetcd]) finds no process. *)
Definition os_proxy_gone : OS :=
  mkOS (fun _ _ => true) (fun _ _ _ => None) (fun _ _ => None)
       (fun _ _ => None) (fun _ _ => None) (fun _ _ => None)
       (fun h _ => inr (100 + Z.of_nat (List.length h))%Z)
       (fun _ p => if (p =? 105)%Z then Some "no such process" else None)
       (fun _ _ => None) (fun _ _ => None).

(** A remote store that accepts everything, and one that rejects the empty
    key. *)
Definition cloud_ok : RemoteStorage.Cloud :=
  RemoteStorage.mkCloud (fun _ => None) (fun _ => None) (fun _ _ _ => None)
    (fun _ _ => inr "contents") (fun _ _ _ _ _ => None) (fun _ _ _ => None)
    (fun _ _ => inr []).

Definition cloud_bad_key : RemoteStorage.Cloud :=
  RemoteStorage.mkCloud
    (fun key => if (key =? "")%string
                then Some "unexpected end of JSON input" else None)
    (fun _ => None)
    (fun _ _ _ => None) (fun _ _ => inr "contents") (fun _ _ _ _ _ => None)
    (fun _ _ _ => None) (fun _ _ => inr []).

Definition three_peers : string := "10.0.0.1___10.0.0.2___10.0.0.3".

Definition start_etcd_request : Request :=
  mkRequest Request_Start Request_etcdv3 three_peers 1 "bench" "project" ""
            "bucket" "run-1" 0 0 0.

Definition start_zetcd_request : Request :=
  mkRequest Request_Start Request_zetcd three_peers 1 "bench" "project" ""
            "bucket" "run-1" 0 0 0.

Definition stop_request : Request :=
  mkRequest Request_Stop Request_etcdv2 "" 0 "" "" "" "" "" 0 0 0.

Definition upload_request : Request :=
  mkRequest Request_UploadLog Request_etcdv2 "" 0 "other" "project-2" "key-2"
            "bucket-2" "run-2" 0 0 0.

(** The agent after a successful [Start] of etcd, and of etcd with the
    zetcd proxy. *)
Definition running_etcd : State :=
  snd (Transfer cfg0 os_ok start_etcd_request (initial_state cfg0)).

Definition running_zetcd : State :=
  snd (Transfer cfg0 os_ok start_zetcd_request (initial_state cfg0)).

(** Two nodes of one test whose name, "database", is the beginning of the
    name of the database log: the agent after a successful [Start] of etcd
    on the node of index [i]. *)
Definition start_named_database (i : N) : Request :=
  mkRequest Request_Start Request_etcdv3 three_peers i "database" "project" ""
            "bucket" "run-1" 0 0 0.

Definition running_named_database (i : N) : State :=
  snd (Transfer cfg0 os_ok (start_named_database i) (initial_state cfg0)).

(** A remote store that is unreachable for the first two upload calls, and
    one that is never reachable. *)
Definition cloud_flaky : RemoteStorage.Cloud :=
  RemoteStorage.mkCloud (fun _ => None)
    (fun n => if (n <? 2)%nat then Some "connection refused" else None)
    (fun _ _ _ => None) (fun _ _ => inr "contents") (fun _ _ _ _ _ => None)
    (fun _ _ _ => None) (fun _ _ => inr []).

Definition cloud_down : RemoteStorage.Cloud :=
  RemoteStorage.mkCloud (fun _ => None) (fun _ => Some "connection refused")
    (fun _ _ _ => None) (fun _ _ => inr "contents") (fun _ _ _ _ _ => None)
    (fun _ _ _ => None) (fun _ _ => inr []).

Definition uploader0 : RemoteStorage.GoogleCloudStorage :=
  RemoteStorage.mkGoogleCloudStorage "" "project".

(** A directory of five files, the third of which cannot be read. *)
Definition five_files : list string :=
  ["logs/a"; "logs/b"; "logs/c"; "logs/d"; "logs/e"].

Definition cloud_third_unreadable : RemoteStorage.Cloud :=
  RemoteStorage.mkCloud (fun _ => None) (fun _ => None) (fun _ _ _ => None)
    (fun _ path => if (path =? "logs/c")%string
                   then inl "permission denied" else inr "contents")
    (fun _ _ _ _ _ => None) (fun _ _ _ => None)
    (fun _ _ => inr five_files).


(* ===================================================================== *)
(** ** Reasoning about computations                                      *)
(* ===================================================================== *)

(** [wp m Q s]: running [m] from [s] ends in an outcome and a state that
    satisfy [Q]. *)
Definition wp {A : Type} (m : M A) (Q : Outcome A -> State -> Prop)
           (s : State) : Prop :=
  Q (fst (m s)) (snd (m s)).

(** The postcondition that [bind m k] asks of [m]. *)
Definition wp_then {A B : Type} (k : A -> M B)
           (Q : Outcome B -> State -> Prop) (o : Outcome A) (s : State) : Prop :=
  match o with
  | Returned a => wp (k a) Q s
  | Failed e => Q (Failed e) s
  | Panicked => Q Panicked s
  | Parked => Q Parked s
  end.


(** The events of an engine branch of [Start]: files written, directories
    prepared, logs opened, processes started and their reapers. *)
Definition is_start_event (e : Event) : bool :=
  match e with
  | EvToFile _ _ | EvRemoveAll _ | EvChdir _ | EvMkdirAll _
  | EvOpen _ _ | EvStart _ _ _ | EvGoWait _ => true
  | _ => false
  end.

(** The file objects opened in a trace, oldest first. *)
Fixpoint opened (l : list Event) : list File :=
  match l with
  | [] => []
  | EvOpen _ f :: rest => f :: opened rest
  | _ :: rest => opened rest
  end.

(** The engines whose branch indexes the peer list with [ServerIndex]. *)
Definition indexes_peers (db : Request_Database) : bool :=
  match db with
  | Request_ZooKeeper | Request_Database_other _ => false
  | _ => true
  end.

(** What the engine branch of a [Start] has done when it ends with outcome
    [o] in state [s'], started from [s] with the peer list [peers]. *)
Definition start_outcome (peers : list string) (s : State)
           (o : Outcome Z) (s' : State) : Prop :=
  let t := srv s in
  let db := Database (req t) in
  req (srv s') = req t /\ globals s' = globals s /\
  uploadSig s' = uploadSig s /\ upload_calls s' = upload_calls s /\
  o <> Parked /\
  exists evs,
    trace s' = (trace s ++ evs)%list /\
    forallb is_start_event evs = true /\
    open_files s' = (rev (opened evs) ++ open_files s)%list /\
    (o = Panicked ->
       indexes_peers db = true /\
       (List.length peers <= N.to_nat (ServerIndex (req t)))%nat) /\
    (forall p, o = Returned p ->
       (indexes_peers db = true ->
        (N.to_nat (ServerIndex (req t)) < List.length peers)%nat) /\
       pid (srv s') = p /\
       logfile (srv s') = Some (next_file s) /\
       In (next_file s) (open_files s') /\
       exists c,
         cmd (srv s') = Some c /\
         first_started evs = Some c /\
         In (EvStart c (next_file s) p) evs /\
         (is_proxied db = true ->
          exists c2,
            proxyCmd (srv s') = Some c2 /\
            proxyLogfile (srv s') = Some (S (next_file s)) /\
            In (EvStart c2 (S (next_file s)) (proxyPid (srv s'))) evs)) /\
    (is_proxied db = false ->
       proxyCmd (srv s') = proxyCmd t /\
       proxyLogfile (srv s') = proxyLogfile t /\
       proxyPid (srv s') = proxyPid t) /\
    (forall e, o = Failed e ->
       (cmd (srv s') = cmd t /\ pid (srv s') = pid t /\
        first_started evs = None) \/
       (is_proxied db = true /\
        exists c, cmd (srv s') = Some c /\
                  In (EvStart c (next_file s) (pid (srv s'))) evs)).

(** A [Start] of etcd on a node whose index is not in the peer list. *)
Definition start_out_of_range_request : Request :=
  mkRequest Request_Start Request_etcdv3 three_peers 5 "bench" "project" ""
            "bucket" "run-1" 0 0 0.

(** The spawn of the monitoring goroutine. *)
Definition is_spawn (e : Event) : bool :=
  match e with
  | EvGoMonitor _ => true
  | _ => false
  end.

(** What a request other than [Start] has done when it ends with outcome
    [o] in state [s'], started from [s]. *)
Definition request_outcome (r : Request) (s : State)
           (o : Outcome Response) (s' : State) : Prop :=
  let t := srv s in
  o <> Panicked /\
  globals s' = globals s /\ upload_calls s' = upload_calls s /\
  next_file s' = next_file s /\
  srv s' = match Operation r with
           | Request_UploadLog => set_req (merge_upload_fields r (req t)) t
           | _ => t
           end /\
  (forall resp, o = Returned resp ->
     uploadSig s = None /\ uploadSig s' = Some (Operation r) /\
     (Operation r = Request_Stop -> cmd t <> None /\ log_files_closed t s') /\
     (Operation r = Request_UploadLog -> open_files s' = open_files s)) /\
  (o = Parked -> uploadSig s <> None) /\
  ((forall resp, o <> Returned resp) -> uploadSig s' = uploadSig s) /\
  exists evs,
    trace s' = (trace s ++ evs)%list /\
    existsb is_spawn evs = false /\
    first_started evs = None /\
    opened evs = [].

(** The events of a sample of the monitored process. *)
Definition is_sample_event (e : Event) : bool :=
  match e with
  | EvProcessList _ | EvOpen _ _ | EvWriteCSV _ | EvClose _ => true
  | _ => false
  end.

(** File objects are numbered as they are opened: every open file is older
    than the next one to be opened. *)
Definition files_fresh (s : State) : Prop :=
  forall f, In f (open_files s) -> (f < next_file s)%nat.

(** A machine on which the process table cannot be read. *)
Definition os_blind : OS :=
  mkOS (fun _ _ => true) (fun _ _ _ => None) (fun _ _ => None)
       (fun _ _ => None) (fun _ _ => None) (fun _ _ => None)
       (fun h _ => inr (100 + Z.of_nat (List.length h))%Z)
       (fun _ _ => None) (fun _ _ => Some "process not found")
       (fun _ _ => None).

(** The command line of the etcd node whose peer address is [u] and whose
    position in [peers] is [i], in words: its name is [etcd-{i+1}], it
    listens for clients on port 2379 and for peers on port 2380 of its own
    address, and it is given the membership of the whole cluster. *)
Definition etcd_node_flags (g : Globals) (peers : list string) (i : N)
           (u : string) : list string :=
  [ "--name"; "etcd-" ++ Fmt.d (Z.of_N i + 1);
    "--data-dir"; etcdDataDir g;
    "--listen-client-urls"; "http://" ++ u ++ ":2379";
    "--advertise-client-urls"; "http://" ++ u ++ ":2379";
    "--listen-peer-urls"; "http://" ++ u ++ ":2380";
    "--initial-advertise-peer-urls"; "http://" ++ u ++ ":2380";
    "--initial-cluster-token"; "etcd_token";
    "--initial-cluster"; membership peers;
    "--initial-cluster-state"; "new" ].

(** The command of the proxy put in front of the etcd node at [u]. *)
Definition proxy_command (cfg : Config) (db : Request_Database) (u : string)
  : Cmd :=
  match db with
  | Request_cetcd =>
      exec_Command (cetcdBinaryPath cfg)
                   ["-consuladdr"; "0.0.0.0:8500"; "-etcd"; "http://" ++ u ++ ":2379"]
  | _ =>
      exec_Command (zetcdBinaryPath cfg)
                   ["-zkaddr"; "0.0.0.0:2181"; "-endpoint"; "http://" ++ u ++ ":2379"]
  end.

(** The events of a successful start of an etcd-family engine: the data
    directory is removed, the log opened, the node started and its reaper
    spawned; for zetcd and cetcd the same follows for the proxy, with its
    own log. *)
Definition etcd_start_events (cfg : Config) (g : Globals)
           (db : Request_Database) (peers : list string) (i : N) (u : string)
           (f : File) (p p2 : Z) : list Event :=
  ([EvRemoveAll (etcdDataDir g);
    EvOpen (databaseLogPath g) f;
    EvStart (exec_Command (etcdBinaryPath cfg) (etcd_node_flags g peers i u)) f p;
    EvGoWait p] ++
   if is_proxied db
   then [EvOpen (databaseLogPath g ++ "-" ++ Database_String db) (S f);
         EvStart (proxy_command cfg db u) (S f) p2;
         EvGoWait p2]
   else [])%list.

(** The command line of the Consul agent at [u]: the node of index 0
    bootstraps a cluster of three servers, every other node joins the first
    peer. *)
Definition consul_flags (g : Globals) (peers : list string) (i : N)
           (u : string) : list string :=
  (["agent"; "-server"; "-data-dir"; consulDataDir g; "-bind"; u; "-client"; u]
   ++ if (i =? 0)%N then ["-bootstrap-expect"; "3"]
      else ["-join"; hd "" peers])%list.

(** The events of a successful start of Consul. *)
Definition consul_start_events (cfg : Config) (g : Globals)
           (peers : list string) (i : N) (u : string) (f : File) (p : Z)
  : list Event :=
  [EvRemoveAll (consulDataDir g);
   EvOpen (databaseLogPath g) f;
   EvStart (exec_Command (consulBinaryPath cfg) (consul_flags g peers i u)) f p;
   EvGoWait p].

(** The configuration file of ZooKeeper in words: the fixed settings, the
    data directory, the two limits of the request and one [server] line
    per peer, numbered from 1 in the order of the peer list. *)
Definition zookeeper_server_lines (peers : list string) : list string :=
  map (fun iu => "server." ++ Fmt.d (Z.of_nat (fst iu) + 1) ++ "="
                 ++ snd iu ++ ":2888:3888" ++ newline)
      (combine (seq 0 (List.length peers)) peers).

Definition zookeeper_config_text (g : Globals) (r : Request)
           (peers : list string) : string :=
  "tickTime=2000" ++ newline ++
  "dataDir=" ++ zkDataDir g ++ newline ++
  "clientPort=2181" ++ newline ++
  "initLimit=5" ++ newline ++
  "syncLimit=5" ++ newline ++
  "maxClientCnxns=" ++ Fmt.d (ZookeeperMaxClientCnxns r) ++ newline ++
  "snapCount=" ++ Fmt.d (ZookeeperSnapCount r) ++ newline ++
  String.concat "" (zookeeper_server_lines peers) ++
  newline.

(** The events of a successful start of ZooKeeper. *)
Definition zookeeper_start_events (cfg : Config) (g : Globals) (r : Request)
           (peers : list string) (f : File) (p : Z) : list Event :=
  let configFilePath := Filepath.Join [zkWorkingDir g; "zookeeper.config"] in
  [EvChdir (zkWorkingDir g);
   EvMkdirAll (zkDataDir g);
   EvToFile (Fmt.d (Z.of_N (ZookeeperMyID r))) (Filepath.Join [zkDataDir g; "myid"]);
   EvToFile (zookeeper_config_text g r peers) configFilePath;
   EvOpen (databaseLogPath g) f;
   EvStart (mkCmd (shell cfg)
                  [shell cfg; "-c";
                   "/usr/bin/java" ++ " " ++ zk_flagString ++ " " ++ configFilePath])
           f p;
   EvGoWait p].

(** A [Start] of Consul on the second node and a [Start] of ZooKeeper. *)
Definition start_consul_request : Request :=
  mkRequest Request_Start Request_Consul three_peers 1 "bench" "project" ""
            "bucket" "run-1" 0 0 0.

Definition start_zookeeper_request : Request :=
  mkRequest Request_Start Request_ZooKeeper three_peers 1 "bench" "project" ""
            "bucket" "run-1" 2 5000 100000.

(** The executables an engine needs on the machine. *)
Definition required_binaries (cfg : Config) (db : Request_Database)
  : list string :=
  match db with
  | Request_etcdv2 | Request_etcdv3 => [etcdBinaryPath cfg]
  | Request_zetcd => [etcdBinaryPath cfg; zetcdBinaryPath cfg]
  | Request_cetcd => [etcdBinaryPath cfg; cetcdBinaryPath cfg]
  | Request_ZooKeeper => [javaBinaryPath]
  | Request_Consul => [consulBinaryPath cfg]
  | Request_Database_other _ => []
  end.

(** A machine without any of the executables. *)
Definition os_bare : OS :=
  mkOS (fun _ _ => false) (fun _ _ _ => None) (fun _ _ => None)
       (fun _ _ => None) (fun _ _ => None) (fun _ _ => None)
       (fun h _ => inr (100 + Z.of_nat (List.length h))%Z)
       (fun _ _ => None) (fun _ _ => None) (fun _ _ => None).

(** The key that [Transfer] writes to the key file: the key of a [Start]
    request, the stored key for every other request. *)
Definition stored_key (r : Request) (s : State) : string :=
  if Operation_eqb (Operation r) Request_Start
  then GoogleCloudStorageKey r
  else GoogleCloudStorageKey (req (srv s)).

(** A machine on which no file can be written. *)
Definition os_read_only : OS :=
  mkOS (fun _ _ => true) (fun _ _ _ => Some "read-only file system")
       (fun _ _ => None) (fun _ _ => None) (fun _ _ => None) (fun _ _ => None)
       (fun h _ => inr (100 + Z.of_nat (List.length h))%Z)
       (fun _ _ => None) (fun _ _ => None) (fun _ _ => None).

(** The agent after a successful [Start] of etcd with a key. *)
Definition start_with_key_request : Request :=
  mkRequest Request_Start Request_etcdv3 three_peers 1 "bench" "project"
            "key-1" "bucket" "run-1" 0 0 0.

Definition running_with_key : State :=
  snd (Transfer cfg0 os_ok start_with_key_request (initial_state cfg0)).

(** The flush of the database log by an [UploadLog]. *)
Definition opt_sync (f : option File) : list Event :=
  match f with
  | Some f => [EvSync f]
  | None => []
  end.

(** A request with an operation the agent does not know. *)
Definition unknown_request : Request :=
  mkRequest (Request_Operation_other 7) Request_etcdv2 "" 0 "" "" "" "" "" 0 0 0.

(* ===================================================================== *)
(** * Properties                                                          *)
(* ===================================================================== *)

(** ** The library functions on examples *)

Example split_peers :
  Strings.Split "10.0.0.1___10.0.0.2___10.0.0.3" "___"
  = ["10.0.0.1"; "10.0.0.2"; "10.0.0.3"].
Proof. reflexivity. Qed.

Example join_wd : Filepath.Join ["/home/gyuho"; "database.log"] = "/home/gyuho/database.log".
Proof. reflexivity. Qed.

Example clean_ex1 : Filepath.Clean "a//b/./c/../d/" = "a/b/d".
Proof. reflexivity. Qed.
Example clean_ex2 : Filepath.Clean "/../a/../.." = "/".
Proof. reflexivity. Qed.
Example clean_ex3 : Filepath.Clean "../a/../../b" = "../../b".
Proof. reflexivity. Qed.
Example base_ex1 : Filepath.Base "/home/gyuho/database.log-zetcd" = "database.log-zetcd".
Proof. reflexivity. Qed.
Example base_ex2 : Filepath.Base "a/b//" = "b".
Proof. reflexivity. Qed.
Example base_ex3 : Filepath.Base "///" = "/".
Proof. reflexivity. Qed.
Example fmt_ex : (Fmt.d 12, Fmt.d 0, Fmt.d (-7)) = ("12", "0", "-7").
Proof. reflexivity. Qed.
Example split_ex2 : Strings.Split "a____b" "___" = ["a"; "_b"].
Proof. reflexivity. Qed.
Example split_ex3 : Strings.Split "" "___" = [""].
Proof. reflexivity. Qed.
Example split_ex4 : Strings.Split "___" "___" = [""; ""].
Proof. reflexivity. Qed.

(** ** Traces *)

Lemma skipn_length_app {A : Type} (l l' : list A) :
  skipn (List.length l) (l ++ l')%list = l'.
Proof. induction l; simpl; auto. Qed.

Lemma emitted_intro {A : Type} (m : M A) (s : State) (l : list Event) :
  trace (snd (m s)) = (trace s ++ l)%list -> emitted m s = l.
Proof. unfold emitted. intros ->. apply skipn_length_app. Qed.

(** Symbolic execution of the monad on a state given by its fields. *)
Ltac exec :=
  cbv beta iota zeta delta
    [bind ret fail panic park get_srv get_globals get_trace
     modify_srv modify_globals emit Sleep syscall Kill File_Close
     File_Sync check check_val send_uploadSig recv_uploadSig exist
     toFile os_RemoveAll_ os_Chdir_ os_MkdirAll_ openToAppend Cmd_Start
     go_Wait index
     with_srv with_globals with_uploadSig with_open_files with_trace
     set_req set_logfile set_cmd set_proxyLogfile set_proxyCmd
     fst snd option_map
     srv globals uploadSig open_files next_file upload_calls trace
     req cmd logfile pid proxyCmd proxyLogfile proxyPid].

Ltac case_step :=
  match goal with
  | |- context [match ?x with _ => _ end] =>
      lazymatch x with
      | context [match _ with _ => _ end] => fail
      | _ => destruct x eqn:?
      end
  end; exec.

Lemma extends_emitted {A : Type} (m : M A) :
  extends m -> forall s, trace (snd (m s)) = (trace s ++ emitted m s)%list.
Proof.
  intros H s. destruct (H s) as [l Hl]. rewrite (emitted_intro m s l Hl). exact Hl.
Qed.

Lemma extends_ret {A : Type} (a : A) : extends (ret a).
Proof. intros s. exists []. cbn. now rewrite app_nil_r. Qed.

Lemma extends_bind {A B : Type} (m : M A) (k : A -> M B) :
  extends m -> (forall a, extends (k a)) -> extends (bind m k).
Proof.
  intros Hm Hk s. unfold bind. destruct (Hm s) as [l Hl].
  destruct (m s) as [[a|e| |] s']; cbn [snd] in *; try (now exists l).
  destruct (Hk a s') as [l' Hl']. exists (l ++ l')%list.
  rewrite Hl', Hl. now rewrite app_assoc.
Qed.

Lemma extends_same {A : Type} (o : Outcome A) : extends (fun s => (o, s)).
Proof. intros s. exists []. cbn. now rewrite app_nil_r. Qed.

Lemma extends_fail {A : Type} (e : error) : extends (@fail A e).
Proof. apply extends_same. Qed.
Lemma extends_panic {A : Type} : extends (@panic A).
Proof. apply extends_same. Qed.
Lemma extends_get_srv : extends get_srv.
Proof. intros s. exists []. cbn. now rewrite app_nil_r. Qed.
Lemma extends_get_globals : extends get_globals.
Proof. intros s. exists []. cbn. now rewrite app_nil_r. Qed.
Lemma extends_modify_srv f : extends (modify_srv f).
Proof. intros s. exists []. cbn. now rewrite app_nil_r. Qed.
Lemma extends_modify_globals f : extends (modify_globals f).
Proof. intros s. exists []. cbn. now rewrite app_nil_r. Qed.
Lemma extends_emit e : extends (emit e).
Proof. intros s. now exists [e]. Qed.
Lemma extends_syscall answer e : extends (syscall answer e).
Proof. intros s. now exists [e]. Qed.
Lemma extends_exist os path : extends (exist os path).
Proof. intros s. exists []. cbn. now rewrite app_nil_r. Qed.
Lemma extends_openToAppend os path : extends (openToAppend os path).
Proof.
  intros s. unfold openToAppend. destruct (os_openToAppend os (trace s) path).
  - exists []. cbn. now rewrite app_nil_r.
  - eexists. cbn. reflexivity.
Qed.
Lemma extends_File_Close f : extends (File_Close f).
Proof. intros s. now exists [EvClose f]. Qed.
Lemma extends_Cmd_Start os c f : extends (Cmd_Start os c f).
Proof.
  intros s. unfold Cmd_Start. destruct (os_Start os (trace s) c).
  - exists []. cbn. now rewrite app_nil_r.
  - eexists. cbn. reflexivity.
Qed.
Lemma extends_Kill os p : extends (Kill os p).
Proof. intros s. eexists. cbn. reflexivity. Qed.
Lemma extends_send op : extends (send_uploadSig op).
Proof.
  intros s. unfold send_uploadSig. destruct (uploadSig s).
  - exists []. cbn. now rewrite app_nil_r.
  - eexists. cbn. reflexivity.
Qed.
Lemma extends_recv : extends recv_uploadSig.
Proof.
  intros s. unfold recv_uploadSig. destruct (uploadSig s).
  - eexists. cbn. reflexivity.
  - exists []. cbn. now rewrite app_nil_r.
Qed.
Lemma extends_Sleep n : extends (Sleep n).
Proof. apply extends_emit. Qed.
Lemma extends_File_Sync f : extends (File_Sync f).
Proof. apply extends_emit. Qed.
Lemma extends_upload_once cloud u bucket src dst :
  extends (upload_once cloud u bucket src dst).
Proof. intros s. eexists. cbn. reflexivity. Qed.

Create HintDb trace_ext.
#[export] Hint Resolve extends_ret extends_bind extends_fail extends_panic
  extends_get_srv extends_get_globals extends_modify_srv
  extends_modify_globals extends_emit extends_syscall extends_exist
  extends_openToAppend extends_File_Close extends_Cmd_Start extends_Kill
  extends_send extends_recv extends_upload_once extends_Sleep
  extends_File_Sync : trace_ext.

Ltac extends_tac :=
  repeat first
    [ progress intros
    | progress cbv beta zeta
    | solve [auto with trace_ext]
    | match goal with
      | |- extends (bind _ _) => apply extends_bind
      | |- extends (match ?x with _ => _ end) => destruct x
      | |- extends (if ?x then _ else _) => destruct x
      end ].

Lemma extends_upload_retry cloud u n uerr bucket src dst :
  extends (upload_retry cloud u n uerr bucket src dst).
Proof.
  revert uerr. induction n as [|n IH]; intros uerr; cbn [upload_retry].
  - auto with trace_ext.
  - apply extends_bind; [auto with trace_ext|]. intros [e|].
    + apply extends_bind; [apply extends_emit | intros; apply IH].
    + auto with trace_ext.
Qed.
#[export] Hint Resolve extends_upload_retry : trace_ext.

Lemma extends_upload_artifact cloud u path : extends (upload_artifact cloud u path).
Proof. unfold upload_artifact. extends_tac. Qed.
#[export] Hint Resolve extends_upload_artifact : trace_ext.

Lemma extends_uploadFunc os cloud : extends (uploadFunc os cloud).
Proof. unfold uploadFunc. extends_tac. Qed.
#[export] Hint Resolve extends_uploadFunc : trace_ext.

Lemma extends_rFunc os p : extends (rFunc os p).
Proof. unfold rFunc. extends_tac. Qed.
#[export] Hint Resolve extends_rFunc : trace_ext.

Lemma extends_monitor_iteration os cloud p sel :
  extends (monitor_iteration os cloud p sel).
Proof. unfold monitor_iteration. extends_tac. Qed.

Lemma extends_stop_database os : extends (stop_database os).
Proof. unfold stop_database, Sleep, check. extends_tac. Qed.

Lemma extends_upload_log : extends upload_log.
Proof. unfold upload_log, Sleep, File_Sync. extends_tac. Qed.

Lemma extends_write_key cfg os : extends (write_key cfg os).
Proof. unfold write_key, check, toFile. extends_tac. Qed.

Lemma extends_store_request r : extends (store_request r).
Proof. unfold store_request. extends_tac. Qed.

(** ** The [Stop] case *)

Lemma stop_database_prefix (os : OS) (s : State) :
  exists r1 r2 rest,
    stop_plan (srv s) r1 r2 = (emitted (stop_database os) s ++ rest)%list /\
    (forall p, fst (stop_database os s) = Returned p ->
               rest = [] /\ r1 = None /\ r2 = None).
Proof.
  destruct s as [[rq c lf p pc plf pp] g ch opens nf uc tr].
  unfold emitted, stop_database, stop_plan, opt_close. exec.
  repeat case_step.
  all: repeat rewrite <- app_assoc; rewrite ?skipn_length_app; cbn [app].
  all: do 3 eexists; split; [reflexivity | intros; try discriminate; auto].
  Unshelve. all: exact None.
Qed.

Lemma stop_database_returned (os : OS) (s : State) (p : Z) :
  fst (stop_database os s) = Returned p ->
  uploadSig (snd (stop_database os s)) = Some Request_Stop.
Proof.
  destruct s as [[rq c lf p0 pc plf pp] g ch opens nf uc tr].
  unfold stop_database. exec.
  repeat case_step; intros; try discriminate; reflexivity.
Qed.

(** For a [Stop] request [Transfer] is the key-file step followed by the
    [Stop] case. *)
Lemma Transfer_Stop (cfg : Config) (os : OS) (r : Request) (s : State) :
  Operation r = Request_Stop ->
  Transfer cfg os r s =
  (write_key cfg os ;; _ <- stop_database os ;; ret (mkResponse true)) s.
Proof.
  intros H. unfold Transfer, store_request, dispatch. rewrite H. cbn [Operation_eqb].
  reflexivity.
Qed.

Lemma write_key_cases (cfg : Config) (os : OS) (s : State) :
  exists keyw,
    (keyw = [] \/ exists c p, keyw = [EvToFile c p]) /\
    snd (write_key cfg os s) = with_trace s (trace s ++ keyw)%list /\
    (fst (write_key cfg os s) = Returned tt \/
     exists e, fst (write_key cfg os s) = Failed e).
Proof.
  destruct s as [t g ch opens nf uc tr].
  unfold write_key. exec.
  destruct (negb _).
  - destruct (os_toFile _ _ _ _); exec;
      (eexists; split; [right; eauto | split; [reflexivity | eauto]]).
  - exists []. rewrite app_nil_r. split; [now left | split; [reflexivity | now left]].
Qed.
Lemma emitted_bind {A B : Type} (m : M A) (k : A -> M B) (s : State) :
  extends m -> (forall a, extends (k a)) ->
  emitted (bind m k) s =
  match m s with
  | (Returned a, s') => (emitted m s ++ emitted (k a) s')%list
  | _ => emitted m s
  end.
Proof.
  intros Hm Hk. pose proof (extends_emitted m Hm s) as Em.
  unfold emitted at 1. unfold bind.
  destruct (m s) as [[a|e| |] s'] eqn:E; cbn [snd] in *;
    try (rewrite Em; apply skipn_length_app).
  rewrite (extends_emitted (k a) (Hk a) s'), Em, <- app_assoc.
  apply skipn_length_app.
Qed.

Lemma emitted_ret {A : Type} (a : A) (s : State) : emitted (ret a) s = [].
Proof. apply emitted_intro. cbn. now rewrite app_nil_r. Qed.

Lemma write_key_emitted (cfg : Config) (os : OS) (s : State) :
  (emitted (write_key cfg os) s = [] \/
   exists c p, emitted (write_key cfg os) s = [EvToFile c p]) /\
  srv (snd (write_key cfg os s)) = srv s /\
  (fst (write_key cfg os s) = Returned tt \/
   exists e, fst (write_key cfg os s) = Failed e).
Proof.
  destruct (write_key_cases cfg os s) as (keyw & Hk & Hs & Hr).
  assert (E : emitted (write_key cfg os) s = keyw).
  { apply emitted_intro. now rewrite Hs. }
  rewrite E, Hs. auto.
Qed.

(** ** Symbolic execution *)

Lemma wp_bind {A B : Type} (m : M A) (k : A -> M B)
      (Q : Outcome B -> State -> Prop) (s : State) :
  wp m (wp_then k Q) s -> wp (bind m k) Q s.
Proof.
  unfold wp, wp_then, bind. destruct (m s) as [[a|e| |] s']; cbn [fst snd]; auto.
Qed.

Ltac head_of t :=
  lazymatch t with
  | ?f _ => head_of f
  | _ => t
  end.

Ltac wp_simpl :=
  cbn [fst snd wp_then option_map
       with_srv with_globals with_uploadSig with_open_files with_trace
       srv globals uploadSig open_files next_file upload_calls trace
       req cmd logfile pid proxyCmd proxyLogfile proxyPid
       set_req set_logfile set_cmd set_proxyLogfile set_proxyCmd].

(** One step of symbolic execution: the head of the computation is run on
    the current state, a case distinction is made where it branches. *)
Ltac wp_step :=
  lazymatch goal with
  | |- wp (bind _ _) _ _ => apply wp_bind
  | |- wp (fun _ => _) _ _ => unfold wp at 1; cbv beta zeta; wp_simpl
  | |- wp (match ?x with _ => _ end) _ _ => destruct x eqn:?
  | |- wp (let _ := _ in _) _ _ => cbv zeta
  | |- wp ((fun _ => _) _) _ _ => cbv beta
  | |- wp ?m _ _ => let h := head_of m in unfold h
  | |- context [wp_then _ _ (fst (match ?x with _ => _ end))] =>
      destruct x eqn:?; wp_simpl
  | |- context [wp_then] => wp_simpl
  end.

Ltac norm_trace :=
  repeat rewrite <- app_assoc;
  rewrite ?skipn_all, ?skipn_length_app; cbn [app].


Ltac use_answers :=
  unfold stop_effects, stop_steps, key_step, wait_step, signal_step, close_step;
  cbn [srv globals uploadSig open_files next_file upload_calls trace
       req cmd logfile pid proxyCmd proxyLogfile proxyPid];
  repeat (progress (repeat match goal with
                           | H : ?x = _ |- context [?x] => rewrite !H
                           end;
                    cbn [app until_first_failure fst snd])).

(** A [Stop] does the steps of [stop_steps] up to the first that fails. *)
Lemma Transfer_Stop_effects (cfg : Config) (os : OS) (r : Request) (s : State) :
  Operation r = Request_Stop ->
  wp (Transfer cfg os r)
     (fun o s' =>
        trace s' = (trace s ++ fst (stop_effects cfg os s))%list /\
        o = snd (stop_effects cfg os s)) s.
Proof.
  intros Hop.
  destruct s as [[rq c lf p pc plf pp] g ch opens nf uc tr].
  unfold Transfer, store_request, dispatch. rewrite Hop. cbn [Operation_eqb].
  repeat wp_step.
  all: cbn [fst snd]; use_answers.
  all: norm_trace; split; reflexivity.
Qed.

(** C1 (amended): every [Stop] command performs its effects in this order,
    ending at the first step that fails: (the write of the key file, when a
    key is stored,) the three-second wait, the signal to the primary
    process, the close of its log file, the signal to the proxy process
    when there is one, the close of the proxy log file, then the trigger of
    the upload pass, the send on [uploadSig].  The events of the command
    are exactly the events of these steps up to the first that fails, and
    the command returns the error of that step; it returns successfully
    exactly when no step fails and the channel takes the signal.  In
    particular the effects are an initial segment of [stop_plan], the whole
    of it when the command succeeds: the wait comes before every signal,
    every signal and every close before the trigger of the upload pass, but
    the log of the primary is closed before the proxy is signaled.  The
    pass that the trigger starts in the monitoring goroutine begins by
    taking the signal, so every file closed by the [Stop] is closed before
    the pass attempts any upload. *)
Theorem stop_effects_in_order
        (cfg : Config) (os : OS) (r : Request) (s : State) :
  Operation r = Request_Stop ->
  (emitted (Transfer cfg os r) s = fst (stop_effects cfg os s) /\
   fst (Transfer cfg os r s) = snd (stop_effects cfg os s)) /\
  (exists keyw r1 r2 rest,
      (keyw = [] \/ exists c p, keyw = [EvToFile c p]) /\
      (keyw ++ stop_plan (srv s) r1 r2)%list
      = (emitted (Transfer cfg os r) s ++ rest)%list /\
      (forall resp, fst (Transfer cfg os r s) = Returned resp ->
                    rest = [] /\ r1 = None /\ r2 = None)) /\
  (forall cloud p resp,
      fst (Transfer cfg os r s) = Returned resp ->
      let s1 := snd (Transfer cfg os r s) in
      let pass := monitor_iteration os cloud p SelUploadSig in
      (exists ups, emitted pass s1 = EvRecv Request_Stop :: ups) /\
      forall f b src dst res,
        In (EvClose f) (emitted (Transfer cfg os r) s) ->
        In (EvUploadFile b src dst res) (emitted pass s1) ->
        precedes (EvClose f) (EvUploadFile b src dst res)
                 (trace (snd (pass s1)))).
Proof.
  intros Hop.
  assert (Hext : extends (Transfer cfg os r)).
  { intros s0. rewrite (Transfer_Stop cfg os r s0 Hop).
    revert s0. change (extends (write_key cfg os ;; _ <- stop_database os ;; ret (mkResponse true))).
    pose proof (extends_write_key cfg os). pose proof (extends_stop_database os).
    extends_tac. }
  split; [| split].
  - destruct (Transfer_Stop_effects cfg os r s Hop) as [Htr Ho].
    split; [apply emitted_intro; exact Htr | exact Ho].
  - destruct (write_key_emitted cfg os s) as (Hk & Hsrv & Hr).
    assert (Hem : emitted (Transfer cfg os r) s
                  = emitted (write_key cfg os ;; _ <- stop_database os ;; ret (mkResponse true)) s).
    { unfold emitted. now rewrite (Transfer_Stop cfg os r s Hop). }
    rewrite (Transfer_Stop cfg os r s Hop), Hem.
    rewrite (emitted_bind (write_key cfg os)
               (fun _ => _ <- stop_database os ;; ret (mkResponse true)) s
               (extends_write_key cfg os));
      [| intros; apply extends_bind; [apply extends_stop_database | intros; apply extends_ret] ].
    unfold bind at 2.
    destruct (write_key cfg os s) as [o s1]. cbn [fst snd] in *.
    destruct Hr as [-> | [e ->]].
    + destruct (stop_database_prefix os s1) as (r1 & r2 & rest & Hplan & Hret).
      rewrite Hsrv in Hplan.
      rewrite (emitted_bind (stop_database os) (fun _ => ret (mkResponse true)) s1
                 (extends_stop_database os)); [| intros; apply extends_ret].
      unfold bind.
      exists (emitted (write_key cfg os) s), r1, r2, rest.
      split; [exact Hk|].
      destruct (stop_database os s1) as [[p|e| |] s2];
        rewrite ?emitted_ret; unfold ret; cbn [fst snd] in *.
      * rewrite app_nil_r. split.
        -- rewrite Hplan. now rewrite app_assoc.
        -- intros resp _. now apply (Hret p).
      * split; [rewrite Hplan; now rewrite app_assoc | intros; discriminate].
      * split; [rewrite Hplan; now rewrite app_assoc | intros; discriminate].
      * split; [rewrite Hplan; now rewrite app_assoc | intros; discriminate].
    + exists (emitted (write_key cfg os) s), None, None, (stop_plan (srv s) None None).
      split; [exact Hk|]. split; [reflexivity | intros; discriminate].
  - intros cloud p resp Hret s1 pass.
    assert (Hsig : uploadSig s1 = Some Request_Stop).
    { subst s1. revert Hret. rewrite (Transfer_Stop cfg os r s Hop).
      unfold bind, ret.
      destruct (write_key cfg os s) as [[[]|e| |] s0]; cbn [fst snd]; try discriminate.
      pose proof (stop_database_returned os s0) as Hs.
      destruct (stop_database os s0) as [[p0|e| |] s2]; cbn [fst snd] in *; try discriminate.
      intros _. now apply (Hs p0). }
    assert (Hpass : exists ups, emitted pass s1 = EvRecv Request_Stop :: ups).
    { subst pass. unfold monitor_iteration.
      rewrite (emitted_bind recv_uploadSig _ s1 extends_recv); [| intros; extends_tac].
      unfold recv_uploadSig at 1. rewrite Hsig.
      assert (E : emitted recv_uploadSig s1 = [EvRecv Request_Stop]).
      { apply emitted_intro. unfold recv_uploadSig. now rewrite Hsig. }
      rewrite E. cbn [app]. eauto. }
    split; [exact Hpass|].
    intros f b src dst res Hin1 Hin2.
    pose proof (extends_emitted _ (extends_monitor_iteration os cloud p SelUploadSig) s1) as E2.
    pose proof (extends_emitted _ Hext s) as E1.
    fold pass in E2. fold s1 in E1.
    apply in_split in Hin1 as (a1 & a2 & Ha).
    apply in_split in Hin2 as (b1 & b2 & Hb).
    rewrite E2, E1, Ha, Hb.
    exists (trace s ++ a1)%list, (a2 ++ b1)%list, b2.
    repeat rewrite <- app_assoc. cbn [app]. repeat rewrite <- app_assoc. reflexivity.
Qed.
(** C1, witness of [stop_effects_in_order]: a [Stop] of the etcd with its
    zetcd proxy started in [running_zetcd], on a machine that accepts both
    signals. *)
Lemma stop_effects_in_order_witness :
  Operation stop_request = Request_Stop /\
  emitted (Transfer cfg0 os_ok stop_request) running_zetcd
  = fst (stop_effects cfg0 os_ok running_zetcd) /\
  fst (Transfer cfg0 os_ok stop_request running_zetcd)
  = snd (stop_effects cfg0 os_ok running_zetcd).
Proof.
  split; [reflexivity|].
  exact (proj1 (stop_effects_in_order cfg0 os_ok stop_request running_zetcd eq_refl)).
Defined.

(** A [Stop] whose signal to the proxy is refused ends there: the primary
    is signaled and its log closed, the log of the proxy stays open and the
    upload pass is not triggered. *)
Example stop_ends_at_refused_proxy_signal :
  stop_effects cfg0 os_proxy_gone running_zetcd
  = ([EvSleep 3; EvKill 102 None; EvClose 1;
      EvKill 105 (Some (Ext "no such process"))],
     Failed (Ext "no such process")) /\
  emitted (Transfer cfg0 os_proxy_gone stop_request) running_zetcd
  = [EvSleep 3; EvKill 102 None; EvClose 1;
     EvKill 105 (Some (Ext "no such process"))] /\
  open_files (snd (Transfer cfg0 os_proxy_gone stop_request running_zetcd))
  = [2%nat; 0%nat] /\
  uploadSig (snd (Transfer cfg0 os_proxy_gone stop_request running_zetcd)) = None.
Proof. repeat split; vm_compute; reflexivity. Qed.

(** C1, counterexample: with the zetcd proxy running, a successful [Stop]
    closes the log of the primary before it signals the proxy, so its four
    phases do not come one after the other. *)
Lemma stop_phases_interleave :
  Operation stop_request = Request_Stop /\
  fst (Transfer cfg0 os_ok stop_request running_zetcd)
  = Returned (mkResponse true) /\
  emitted (Transfer cfg0 os_ok stop_request) running_zetcd
  = [EvSleep 3; EvKill 102 None; EvClose 1; EvKill 105 None; EvClose 2;
     EvSend Request_Stop] /\
  phases_one_after_the_other
    (emitted (Transfer cfg0 os_ok stop_request) running_zetcd) = false.
Proof. repeat split; vm_compute; reflexivity. Qed.
(** ** Requests that arrive while no process is tracked *)

(** A [Stop] is refused as long as [t.cmd] is nil. *)
Lemma stop_without_process (cfg : Config) (os : OS) (r : Request) (s : State) :
  Operation r = Request_Stop ->
  cmd (srv s) = None ->
  exists e, fst (Transfer cfg os r s) = Failed e.
Proof.
  intros Hop Hcmd. rewrite (Transfer_Stop cfg os r s Hop).
  destruct (write_key_emitted cfg os s) as (_ & Hsrv & Hr).
  unfold bind. destruct (write_key cfg os s) as [o s1]. cbn [fst snd] in *.
  destruct Hr as [-> | [e ->]]; [| cbn; eauto].
  unfold stop_database, bind, Sleep, emit, get_srv, fail. cbn [fst snd srv with_trace].
  rewrite Hsrv, Hcmd. cbn. eauto.
Qed.

(** C2 (the code at the failing input): an [UploadLog] that reaches a fresh
    agent is answered with success; the signal is left in the channel,
    where no monitoring goroutine exists to take it. *)
Theorem upload_log_without_process_succeeds (cfg : Config) (os : OS) :
  cmd (srv (initial_state cfg)) = None /\
  fst (Transfer cfg os upload_request (initial_state cfg))
  = Returned (mkResponse true) /\
  emitted (Transfer cfg os upload_request) (initial_state cfg)
  = [EvSleep 3; EvSend Request_UploadLog] /\
  uploadSig (snd (Transfer cfg os upload_request (initial_state cfg)))
  = Some Request_UploadLog.
Proof. repeat split. Qed.
(** The second [UploadLog] on a fresh agent never returns: the channel is
    full. *)
Lemma second_upload_log_without_process_parks (cfg : Config) (os : OS) :
  fst (Transfer cfg os upload_request
         (snd (Transfer cfg os upload_request (initial_state cfg))))
  = Parked.
Proof. reflexivity. Qed.

(** ** A [Stop] whose signal fails *)

(** C3 (amended): when the signal to the primary process fails, [Transfer]
    returns that error at once.  Nothing else happens: the server object
    and the set of open files are unchanged (the log files stay open), the
    proxy is not signaled and nothing is sent on [uploadSig]. *)
Theorem stop_signal_failure_returns_at_once
        (cfg : Config) (os : OS) (r : Request) (s : State) (c : Cmd) (e : string) :
  Operation r = Request_Stop ->
  cmd (srv s) = Some c ->
  fst (write_key cfg os s) = Returned tt ->
  os_Kill os (trace (snd (write_key cfg os s)) ++ [EvSleep 3])%list (pid (srv s))
  = Some e ->
  let s' := snd (Transfer cfg os r s) in
  fst (Transfer cfg os r s) = Failed (Ext e) /\
  srv s' = srv s /\
  open_files s' = open_files s /\
  uploadSig s' = uploadSig s /\
  emitted (Transfer cfg os r) s
  = (emitted (write_key cfg os) s
     ++ [EvSleep 3; EvKill (pid (srv s)) (Some (Ext e))])%list.
Proof.
  intros Hop Hcmd Hkey Hkill s'.
  destruct (write_key_cases cfg os s) as (keyw & _ & Hs1 & _).
  assert (Ek : emitted (write_key cfg os) s = keyw).
  { apply emitted_intro. now rewrite Hs1. }
  assert (HT : Transfer cfg os r s
               = (Failed (Ext e),
                  with_trace s (trace s ++ keyw ++ [EvSleep 3; EvKill (pid (srv s)) (Some (Ext e))])%list)).
  { rewrite (Transfer_Stop cfg os r s Hop). unfold bind.
    destruct (write_key cfg os s) as [o s1]. cbn [fst snd] in *. subst o s1.
    destruct s as [[rq c0 lf p pc plf pp] g ch opens nf uc tr].
    cbn in Hcmd, Hkill. subst c0.
    unfold stop_database. exec. rewrite Hkill. exec.
    repeat rewrite <- app_assoc. reflexivity. }
  assert (Hem : emitted (Transfer cfg os r) s
                = (keyw ++ [EvSleep 3; EvKill (pid (srv s)) (Some (Ext e))])%list).
  { apply emitted_intro. rewrite HT. reflexivity. }
  subst s'. rewrite Hem, Ek, HT. destruct s; repeat split.
Qed.

(** C3, witness of [stop_signal_failure_returns_at_once]: the etcd of
    [running_etcd] has vanished when the [Stop] arrives. *)
Lemma stop_signal_failure_witness :
  Operation stop_request = Request_Stop /\
  fst (Transfer cfg0 os_no_such_process stop_request running_etcd)
  = Failed (Ext "no such process") /\
  open_files (snd (Transfer cfg0 os_no_such_process stop_request running_etcd))
  = open_files running_etcd.
Proof.
  pose proof (stop_signal_failure_returns_at_once
                cfg0 os_no_such_process stop_request running_etcd
                (exec_Command (etcdBinaryPath cfg0)
                   (tl (match cmd (srv running_etcd) with
                        | Some c => Cmd_Args c
                        | None => []
                        end)))
                "no such process" eq_refl eq_refl eq_refl eq_refl) as H.
  cbv zeta in H. destruct H as (H1 & _ & H3 & _).
  split; [reflexivity | split; assumption].
Defined.

(** C3, counterexample: the signal fails, the failure is reported, and the
    database log (file 1) is still open afterwards. *)
Lemma stop_signal_failure_leaves_log_open :
  fst (Transfer cfg0 os_no_such_process stop_request running_etcd)
  = Failed (Ext "no such process") /\
  logfile (srv running_etcd) = Some 1%nat /\
  In 1%nat (open_files (snd (Transfer cfg0 os_no_such_process stop_request running_etcd))) /\
  ~ log_files_closed
      (srv running_etcd)
      (snd (Transfer cfg0 os_no_such_process stop_request running_etcd)).
Proof.
  assert (Hin : In 1%nat (open_files (snd (Transfer cfg0 os_no_such_process
                                             stop_request running_etcd)))).
  { vm_compute. auto. }
  repeat split; try exact Hin.
  intros [Hclosed _]. exact (Hclosed 1%nat eq_refl Hin).
Qed.
(** ** The retry loop of the upload closure *)

Section Retry.
Variable cloud : RemoteStorage.Cloud.
Variable u : RemoteStorage.GoogleCloudStorage.
Variables bucket src dst : string.

Local Abbreviation answer := (upload_answer cloud u bucket src dst).
Local Abbreviation failed_round := (failed_round cloud u bucket src dst).

Lemma after_uploads_0 (s : State) : after_uploads s 0 [] = s.
Proof. destruct s. unfold after_uploads. cbn. now rewrite app_nil_r. Qed.

Lemma after_uploads_trans (s : State) k1 l1 k2 l2 :
  after_uploads (after_uploads s k1 l1) k2 l2
  = after_uploads s (k2 + k1) (l1 ++ l2).
Proof. unfold after_uploads. cbn. now rewrite Nat.add_assoc, app_assoc. Qed.

Lemma upload_once_run (s : State) :
  upload_once cloud u bucket src dst s
  = (Returned (answer (upload_calls s)),
     after_uploads s 1 [EvUploadFile bucket src dst (answer (upload_calls s))]).
Proof. reflexivity. Qed.

(** When the first [m] answers are failures, the loop spends [m]
    iterations on them. *)
Lemma upload_retry_failed_rounds (m : nat) :
  forall n uerr s,
    (forall i, i < m -> answer (upload_calls s + i) <> None) ->
    upload_retry cloud u (m + n) uerr bucket src dst s
    = upload_retry cloud u n
        (match m with O => uerr | S m' => answer (upload_calls s + m') end)
        bucket src dst
        (after_uploads s m (flat_map failed_round (seq (upload_calls s) m))).
Proof.
  induction m as [|m IH]; intros n uerr s Hfail.
  - cbn. now rewrite after_uploads_0.
  - cbn [Nat.add upload_retry]. unfold bind at 1. rewrite upload_once_run.
    pose proof (Hfail 0 (Nat.lt_0_succ m)) as H0. rewrite Nat.add_0_r in H0.
    destruct (answer (upload_calls s)) as [e|] eqn:E; [| congruence].
    unfold bind, Sleep, emit. cbn [fst snd].
    change (with_trace (after_uploads s 1 [EvUploadFile bucket src dst (Some e)])
              (trace (after_uploads s 1 [EvUploadFile bucket src dst (Some e)])
               ++ [EvSleep 2])%list)
      with (after_uploads (after_uploads s 1 [EvUploadFile bucket src dst (Some e)])
                          0 [EvSleep 2]).
    rewrite after_uploads_trans. cbn [Nat.add app].
    rewrite IH.
    + rewrite after_uploads_trans. cbn [upload_calls after_uploads Nat.add].
      replace (m + 1) with (S m) by lia.
      cbn [seq flat_map].
      replace (failed_round (upload_calls s))
        with [EvUploadFile bucket src dst (Some e); EvSleep 2]
        by (unfold failed_round; now rewrite E).
      f_equal. destruct m as [|m'].
      * now rewrite Nat.add_0_r, E.
      * now rewrite Nat.add_succ_r.
    + intros i Hi. cbn [upload_calls after_uploads Nat.add].
      rewrite <- Nat.add_succ_r. apply Hfail. lia.
Qed.

(** The loop always returns, after at most [n] attempts. *)
Lemma upload_retry_total (n : nat) :
  forall uerr s,
    exists r k evs,
      upload_retry cloud u n uerr bucket src dst s
      = (Returned r, after_uploads s k evs) /\
      k <= n /\ attempts evs = k /\
      (0 < n -> exists res rest, evs = EvUploadFile bucket src dst res :: rest).
Proof.
  induction n as [|n IH]; intros uerr s.
  - exists uerr, 0, []. cbn. rewrite after_uploads_0. repeat split; auto; lia.
  - cbn [upload_retry]. unfold bind at 1. rewrite upload_once_run.
    destruct (answer (upload_calls s)) as [e|] eqn:E.
    + unfold bind, Sleep, emit. cbn [fst snd].
      change (with_trace (after_uploads s 1 [EvUploadFile bucket src dst (Some e)])
                (trace (after_uploads s 1 [EvUploadFile bucket src dst (Some e)])
                 ++ [EvSleep 2])%list)
        with (after_uploads (after_uploads s 1 [EvUploadFile bucket src dst (Some e)])
                            0 [EvSleep 2]).
      rewrite after_uploads_trans. cbn [Nat.add app].
      destruct (IH (Some e)
                   (after_uploads s 1 [EvUploadFile bucket src dst (Some e); EvSleep 2]))
        as (r & k & evs & Hrun & Hk & Hatt & _).
      rewrite Hrun, after_uploads_trans.
      exists r, (k + 1), ([EvUploadFile bucket src dst (Some e); EvSleep 2] ++ evs)%list.
      repeat split; [lia | unfold attempts in *; cbn; rewrite Hatt; lia | intros _; cbn; eauto].
    + exists None, 1, [EvUploadFile bucket src dst None]. unfold ret.
      repeat split; [lia | intros _; eauto].
Qed.
End Retry.

Lemma attempts_app (l1 l2 : list Event) :
  attempts (l1 ++ l2) = attempts l1 + attempts l2.
Proof. unfold attempts. now rewrite filter_app, length_app. Qed.

Lemma pauses_app (l1 l2 : list Event) :
  pauses (l1 ++ l2) = pauses l1 + pauses l2.
Proof. unfold pauses. now rewrite filter_app, length_app. Qed.

Lemma failed_rounds_count (f : nat -> list Event) (c m : nat) :
  (forall k, attempts (f k) = 1 /\ pauses (f k) = 1) ->
  attempts (flat_map f (seq c m)) = m /\ pauses (flat_map f (seq c m)) = m.
Proof.
  intros Hf. revert c. induction m as [|m IH]; intros c; cbn [seq flat_map].
  - split; reflexivity.
  - rewrite attempts_app, pauses_app.
    destruct (Hf c) as [-> ->]. destruct (IH (S c)) as [-> ->]. split; reflexivity.
Qed.

(** One artifact: the loop returns and starts with an attempt on the
    file. *)
Lemma upload_artifact_run
      (cloud : RemoteStorage.Cloud) (u : RemoteStorage.GoogleCloudStorage)
      (path : string) (s : State) :
  exists r k evs,
    upload_artifact cloud u path s = (Returned r, after_uploads s k evs) /\
    k <= max_attempts /\ attempts evs = k /\
    exists b d res rest, evs = EvUploadFile b path d res :: rest.
Proof.
  unfold upload_artifact, bind, get_srv. cbn [fst snd].
  destruct (upload_retry_total cloud u
              (GoogleCloudStorageBucketName (req (srv s))) path
              (destination (GoogleCloudStorageSubDirectory (req (srv s)))
                           (TestName (req (srv s))) (ServerIndex (req (srv s)))
                           (Filepath.Base path))
              max_attempts None s)
    as (r & k & evs & Hrun & Hk & Hatt & Hfirst).
  rewrite Hrun. exists r, k, evs. repeat split; auto.
  destruct Hfirst as (res & rest & ->); [unfold max_attempts; lia|]. eauto.
Qed.

(** The whole pass.  Without a client nothing is attempted; with a client
    every artifact gets its loop and the pass returns nil. *)
Lemma uploadFunc_run (os : OS) (cloud : RemoteStorage.Cloud) (s : State) :
  match RemoteStorage.NewGoogleCloudStorage cloud
          (GoogleCloudStorageKey (req (srv s)))
          (GoogleCloudProjectName (req (srv s))) with
  | inl e => uploadFunc os cloud s = (Returned (Some e), s)
  | inr _ =>
      exists k e1 e2 e3 e4,
        uploadFunc os cloud s
        = (Returned None, after_uploads s k (e1 ++ e2 ++ e3 ++ e4)) /\
        (exists b d res rest,
            e1 = EvUploadFile b (databaseLogPath (globals s)) d res :: rest) /\
        (exists b d res rest,
            e3 = EvUploadFile b (monitorLogPath (globals s)) d res :: rest) /\
        (exists b d res rest,
            e4 = EvUploadFile b (agentLogPath (globals s)) d res :: rest) /\
        attempts (e1 ++ e2 ++ e3 ++ e4) = k /\
        k <= 4 * max_attempts
  end.
Proof.
  destruct (RemoteStorage.NewGoogleCloudStorage _ _ _) as [e|u] eqn:Hnew.
  { unfold uploadFunc, bind, get_srv. cbn [fst snd]. now rewrite Hnew. }
  unfold uploadFunc. unfold bind at 1. unfold get_srv at 1. cbn [fst snd].
  rewrite Hnew.
  unfold bind at 1. unfold get_globals at 1. cbn [fst snd].
  destruct (upload_artifact_run cloud u (databaseLogPath (globals s)) s)
    as (r1 & k1 & e1 & H1 & Hk1 & Ha1 & Hf1).
  unfold bind at 1. rewrite H1.
  set (s1 := after_uploads s k1 e1).
  assert (exists k2 e2,
             (if is_proxied (Database (req (srv s)))
              then
                present <- exist os (databaseLogPath (globals s) ++ "-"
                                       ++ Database_String (Database (req (srv s)))) ;;
                (if present
                 then upload_artifact cloud u
                        (databaseLogPath (globals s) ++ "-"
                           ++ Database_String (Database (req (srv s)))) ;; ret tt
                 else ret tt)
              else ret tt) s1
             = (Returned tt, after_uploads s1 k2 e2) /\
             attempts e2 = k2 /\ k2 <= max_attempts) as (k2 & e2 & H2 & Ha2 & Hk2).
  { destruct (is_proxied _).
    - unfold bind at 1. unfold exist. cbn [fst snd].
      destruct (os_exist os (trace s1) _).
      + destruct (upload_artifact_run cloud u
                    (databaseLogPath (globals s) ++ "-"
                       ++ Database_String (Database (req (srv s)))) s1)
          as (r2 & k2 & e2 & H2 & Hk2 & Ha2 & _).
        unfold bind. rewrite H2. exists k2, e2. unfold ret. auto.
      + exists 0, []. unfold ret. rewrite after_uploads_0. repeat split; lia.
    - exists 0, []. unfold ret. rewrite after_uploads_0. repeat split; lia. }
  unfold bind at 1. rewrite H2.
  set (s2 := after_uploads s1 k2 e2).
  destruct (upload_artifact_run cloud u (monitorLogPath (globals s)) s2)
    as (r3 & k3 & e3 & H3 & Hk3 & Ha3 & Hf3).
  unfold bind at 1. rewrite H3.
  set (s3 := after_uploads s2 k3 e3).
  destruct (upload_artifact_run cloud u (agentLogPath (globals s)) s3)
    as (r4 & k4 & e4 & H4 & Hk4 & Ha4 & Hf4).
  unfold bind at 1. rewrite H4. unfold ret.
  subst s3 s2 s1. rewrite !after_uploads_trans.
  exists (k4 + (k3 + (k2 + k1))), e1, e2, e3, e4.
  repeat rewrite <- app_assoc.
  repeat split; auto.
  all: try (rewrite !attempts_app; lia).
  - do 2 f_equal. lia.
  - unfold max_attempts in *. lia.
Qed.
Lemma emitted_after_uploads {A : Type} (m : M A) (s : State) o k evs :
  m s = (o, after_uploads s k evs) -> emitted m s = evs.
Proof. intros H. apply emitted_intro. now rewrite H. Qed.

Lemma first_success_or_all_fail (answer : nat -> option error) (c n : nat) :
  (exists N, 1 <= N <= n /\
             (forall i, i < N - 1 -> answer (c + i) <> None) /\
             answer (c + (N - 1)) = None) \/
  (forall i, i < n -> answer (c + i) <> None).
Proof.
  induction n as [|n [(N & HN & Hf & Hs) | Hall]].
  - right. intros i Hi. lia.
  - left. exists N. repeat split; auto; lia.
  - destruct (answer (c + n)) as [e|] eqn:E.
    + right. intros i Hi. destruct (Nat.eq_dec i n) as [-> | Hne].
      * rewrite E. discriminate.
      * apply Hall. lia.
    + left. exists (S n). replace (S n - 1) with n by lia.
      repeat split; auto; lia.
Qed.

Section RetryRuns.
Variable cloud : RemoteStorage.Cloud.
Variable u : RemoteStorage.GoogleCloudStorage.
Variables bucket src dst : string.

Local Abbreviation answer := (upload_answer cloud u bucket src dst).
Local Abbreviation failed := (failed_round cloud u bucket src dst).
Local Abbreviation run := (upload_retry cloud u max_attempts None bucket src dst).

(** The run of the loop when the uploader first succeeds on attempt [N]. *)
Lemma upload_retry_succeeds_at (s : State) (N : nat) :
  1 <= N <= 30 ->
  (forall i, i < N - 1 -> answer (upload_calls s + i) <> None) ->
  answer (upload_calls s + (N - 1)) = None ->
  run s = (Returned None,
           after_uploads s N
             (flat_map failed (seq (upload_calls s) (N - 1))
              ++ [EvUploadFile bucket src dst None])).
Proof.
  intros HN Hfail Hok. unfold max_attempts.
  replace 30 with ((N - 1) + S (30 - N)) by lia.
  rewrite (upload_retry_failed_rounds cloud u bucket src dst (N - 1)); [| exact Hfail].
  cbn [upload_retry]. unfold bind. rewrite upload_once_run.
  cbn [upload_calls after_uploads].
  rewrite (Nat.add_comm (N - 1) (upload_calls s)).
  rewrite Hok. unfold ret.
  rewrite after_uploads_trans.
  replace (1 + (N - 1)) with N by lia. reflexivity.
Qed.

(** The run of the loop when the uploader fails thirty times. *)
Lemma upload_retry_exhausted (s : State) :
  (forall i, i < 30 -> answer (upload_calls s + i) <> None) ->
  run s = (Returned (answer (upload_calls s + 29)),
           after_uploads s 30 (flat_map failed (seq (upload_calls s) 30))).
Proof.
  intros Hfail. unfold max_attempts.
  change 30 with (30 + 0) at 1.
  rewrite (upload_retry_failed_rounds cloud u bucket src dst 30); [| exact Hfail].
  reflexivity.
Qed.

Lemma failed_round_counts (k : nat) :
  attempts (failed k) = 1 /\ pauses (failed k) = 1.
Proof. split; reflexivity. Qed.

(** Every run of the loop follows the policy. *)
Lemma upload_retry_follows_policy (s : State) :
  exists r evs,
    run s = (Returned r, after_uploads s (attempts evs) evs) /\
    follows_retry_policy cloud u bucket src dst (upload_calls s) evs.
Proof.
  destruct (first_success_or_all_fail answer (upload_calls s) 30)
    as [(N & HN & Hf & Hs) | Hall].
  - exists None,
      (flat_map failed (seq (upload_calls s) (N - 1))
       ++ [EvUploadFile bucket src dst None])%list.
    split.
    + rewrite (upload_retry_succeeds_at s N HN Hf Hs). do 2 f_equal.
      rewrite attempts_app.
      destruct (failed_rounds_count failed (upload_calls s) (N - 1) failed_round_counts)
        as [-> _].
      cbn. lia.
    + left. exists N. repeat split; auto; lia.
  - exists (answer (upload_calls s + 29)),
      (flat_map failed (seq (upload_calls s) 30)).
    split.
    + rewrite (upload_retry_exhausted s Hall).
      destruct (failed_rounds_count failed (upload_calls s) 30 failed_round_counts)
        as [E _].
      now rewrite E.
    + right. split; auto.
Qed.
End RetryRuns.

(** One artifact of the pass follows the policy. *)
Lemma upload_artifact_follows_policy
      (cloud : RemoteStorage.Cloud) (u : RemoteStorage.GoogleCloudStorage)
      (path : string) (s : State) :
  exists r evs,
    upload_artifact cloud u path s
    = (Returned r, after_uploads s (attempts evs) evs) /\
    artifact_uploaded_by_policy cloud u s path (upload_calls s) evs.
Proof.
  unfold upload_artifact, artifact_uploaded_by_policy, bind, get_srv.
  cbn [fst snd].
  apply upload_retry_follows_policy.
Qed.

Lemma artifact_policy_after_uploads cloud u s k evs0 path c evs :
  artifact_uploaded_by_policy cloud u (after_uploads s k evs0) path c evs
  = artifact_uploaded_by_policy cloud u s path c evs.
Proof. reflexivity. Qed.

(** The whole pass, artifact by artifact. *)
Lemma uploadFunc_follows_policy
      (os : OS) (cloud : RemoteStorage.Cloud) (s : State)
      (u : RemoteStorage.GoogleCloudStorage) :
  RemoteStorage.NewGoogleCloudStorage cloud
    (GoogleCloudStorageKey (req (srv s)))
    (GoogleCloudProjectName (req (srv s))) = inr u ->
  let g := globals s in
  let db := Database (req (srv s)) in
  let dpath := databaseLogPath g ++ "-" ++ Database_String db in
  let c := upload_calls s in
  exists e1 e2 e3 e4,
    uploadFunc os cloud s
    = (Returned None,
       after_uploads s (attempts (e1 ++ e2 ++ e3 ++ e4)) (e1 ++ e2 ++ e3 ++ e4)) /\
    artifact_uploaded_by_policy cloud u s (databaseLogPath g) c e1 /\
    (if is_proxied db && os_exist os (trace s ++ e1) dpath
     then artifact_uploaded_by_policy cloud u s dpath (c + attempts e1) e2
     else e2 = []) /\
    artifact_uploaded_by_policy cloud u s (monitorLogPath g)
      (c + attempts e1 + attempts e2) e3 /\
    artifact_uploaded_by_policy cloud u s (agentLogPath g)
      (c + attempts e1 + attempts e2 + attempts e3) e4.
Proof.
  intros Hnew g db dpath c.
  unfold uploadFunc. unfold bind at 1. unfold get_srv at 1. cbn [fst snd].
  rewrite Hnew.
  unfold bind at 1. unfold get_globals at 1. cbn [fst snd].
  destruct (upload_artifact_follows_policy cloud u (databaseLogPath (globals s)) s)
    as (r1 & e1 & H1 & P1).
  unfold bind at 1. rewrite H1.
  set (s1 := after_uploads s (attempts e1) e1).
  fold g db. fold dpath.
  assert (exists e2,
             (if is_proxied db
              then
                present <- exist os dpath ;;
                (if present
                 then upload_artifact cloud u dpath ;; ret tt
                 else ret tt)
              else ret tt) s1
             = (Returned tt, after_uploads s1 (attempts e2) e2) /\
             (if is_proxied db && os_exist os (trace s ++ e1) dpath
              then artifact_uploaded_by_policy cloud u s dpath (c + attempts e1) e2
              else e2 = [])) as (e2 & H2 & P2).
  { destruct (is_proxied db); cbn [andb].
    - unfold bind at 1. unfold exist. cbn [fst snd].
      change (trace s1) with (trace s ++ e1)%list.
      destruct (os_exist os (trace s ++ e1) dpath).
      + destruct (upload_artifact_follows_policy cloud u dpath s1)
          as (r2 & e2 & H2 & P2).
        unfold bind. rewrite H2. exists e2. unfold ret. split; [reflexivity|].
        subst s1. rewrite artifact_policy_after_uploads in P2.
        cbn [upload_calls after_uploads] in P2.
        now rewrite (Nat.add_comm c).
      + exists []. unfold ret. now rewrite after_uploads_0.
    - exists []. unfold ret. now rewrite after_uploads_0. }
  unfold bind at 1. rewrite H2.
  set (s2 := after_uploads s1 (attempts e2) e2).
  destruct (upload_artifact_follows_policy cloud u (monitorLogPath g) s2)
    as (r3 & e3 & H3 & P3).
  unfold bind at 1. rewrite H3.
  set (s3 := after_uploads s2 (attempts e3) e3).
  destruct (upload_artifact_follows_policy cloud u (agentLogPath g) s3)
    as (r4 & e4 & H4 & P4).
  unfold bind at 1. rewrite H4. unfold ret.
  exists e1, e2, e3, e4.
  subst s3 s2 s1. rewrite !artifact_policy_after_uploads in *.
  cbn [upload_calls after_uploads] in P3, P4.
  rewrite !after_uploads_trans.
  split; [| split; [exact P1 | split; [exact P2 | split]]].
  - f_equal. f_equal. rewrite !attempts_app. lia.
  - now replace (c + attempts e1 + attempts e2)
      with (attempts e2 + (attempts e1 + upload_calls s)) by (subst c; lia).
  - now replace (c + attempts e1 + attempts e2 + attempts e3)
      with (attempts e3 + (attempts e2 + (attempts e1 + upload_calls s)))
      by (subst c; lia).
Qed.

(** C4: the retry loop of one artifact makes at most 30 attempts; when the
    uploader first succeeds on attempt [N <= 30] the loop makes exactly [N]
    attempts, each failed one followed by a two-second pause, and ends with
    a nil error; when all 30 attempts fail the loop gives up with the last
    error after 30 attempts and 30 pauses.  The upload pass is made of
    such loops and of nothing else: once the client is constructed, its
    events are those of the database log, of the proxy log (for zetcd and
    cetcd, when the file exists), of the monitor file and of the agent log,
    in this order, and the events of each artifact are those of the retry
    policy for that file, the stored bucket and the derived name, counted
    from the upload calls made so far; the pass returns nil.  So whatever
    the uploader answers, an abandoned artifact does not keep the pass from
    the remaining ones: the database log, the monitor file and the agent
    log are each attempted. *)
Theorem upload_retry_policy :
  (forall cloud u bucket src dst s,
      let answer := upload_answer cloud u bucket src dst in
      let failed_round := failed_round cloud u bucket src dst in
      let run := upload_retry cloud u max_attempts None bucket src dst in
      let c := upload_calls s in
      attempts (emitted run s) <= 30 /\
      (forall N,
          1 <= N <= 30 ->
          (forall i, i < N - 1 -> answer (c + i) <> None) ->
          answer (c + (N - 1)) = None ->
          fst (run s) = Returned None /\
          emitted run s
          = (flat_map failed_round (seq c (N - 1))
             ++ [EvUploadFile bucket src dst None])%list /\
          attempts (emitted run s) = N /\
          pauses (emitted run s) = N - 1) /\
      ((forall i, i < 30 -> answer (c + i) <> None) ->
       fst (run s) = Returned (answer (c + 29)) /\
       emitted run s = flat_map failed_round (seq c 30) /\
       attempts (emitted run s) = 30 /\
       pauses (emitted run s) = 30)) /\
  (forall os cloud s u,
      RemoteStorage.NewGoogleCloudStorage cloud
        (GoogleCloudStorageKey (req (srv s)))
        (GoogleCloudProjectName (req (srv s))) = inr u ->
      let g := globals s in
      let db := Database (req (srv s)) in
      let dpath := databaseLogPath g ++ "-" ++ Database_String db in
      let c := upload_calls s in
      exists e1 e2 e3 e4,
        emitted (uploadFunc os cloud) s = (e1 ++ e2 ++ e3 ++ e4)%list /\
        fst (uploadFunc os cloud s) = Returned None /\
        artifact_uploaded_by_policy cloud u s (databaseLogPath g) c e1 /\
        (if is_proxied db && os_exist os (trace s ++ e1) dpath
         then artifact_uploaded_by_policy cloud u s dpath (c + attempts e1) e2
         else e2 = []) /\
        artifact_uploaded_by_policy cloud u s (monitorLogPath g)
          (c + attempts e1 + attempts e2) e3 /\
        artifact_uploaded_by_policy cloud u s (agentLogPath g)
          (c + attempts e1 + attempts e2 + attempts e3) e4) /\
  (forall os cloud s u,
      RemoteStorage.NewGoogleCloudStorage cloud
        (GoogleCloudStorageKey (req (srv s)))
        (GoogleCloudProjectName (req (srv s))) = inr u ->
      forall path,
        In path [databaseLogPath (globals s); monitorLogPath (globals s);
                 agentLogPath (globals s)] ->
        exists b d res,
          In (EvUploadFile b path d res) (emitted (uploadFunc os cloud) s)).
Proof.
  split; [| split].
  - intros cloud u bucket src dst s answer failed_round run c.
    assert (Hcount : forall k, attempts (failed_round k) = 1 /\ pauses (failed_round k) = 1).
    { intros k. split; reflexivity. }
    split; [| split].
    + destruct (upload_retry_total cloud u bucket src dst max_attempts None s)
        as (r & k & evs & Hrun & Hk & Hatt & _).
      fold run in Hrun. rewrite (emitted_after_uploads run s _ _ _ Hrun).
      unfold max_attempts in Hk. lia.
    + intros N HN Hfail Hok.
      assert (Hrun : run s
                     = (Returned None,
                        after_uploads s N
                          (flat_map failed_round (seq c (N - 1))
                           ++ [EvUploadFile bucket src dst None]))).
      { subst run. unfold max_attempts.
        replace 30 with ((N - 1) + S (30 - N)) by lia.
        rewrite (upload_retry_failed_rounds cloud u bucket src dst (N - 1)); [| exact Hfail].
        cbn [upload_retry]. unfold bind. rewrite upload_once_run.
        cbn [upload_calls after_uploads].
        fold answer. rewrite (Nat.add_comm (N - 1) (upload_calls s)).
        fold c. rewrite Hok. unfold ret.
        fold failed_round. rewrite after_uploads_trans.
        replace (1 + (N - 1)) with N by lia. reflexivity. }
      rewrite (emitted_after_uploads run s _ _ _ Hrun), Hrun. cbn [fst].
      destruct (failed_rounds_count failed_round c (N - 1) Hcount) as [Ha Hp].
      repeat split.
      * rewrite attempts_app, Ha. cbn. lia.
      * rewrite pauses_app, Hp. cbn. lia.
    + intros Hfail.
      assert (Hrun : run s
                     = (Returned (answer (c + 29)),
                        after_uploads s 30 (flat_map failed_round (seq c 30)))).
      { subst run. unfold max_attempts.
        change 30 with (30 + 0) at 1.
        rewrite (upload_retry_failed_rounds cloud u bucket src dst 30); [| exact Hfail].
        reflexivity. }
      rewrite (emitted_after_uploads run s _ _ _ Hrun), Hrun. cbn [fst].
      destruct (failed_rounds_count failed_round c 30 Hcount) as [Ha Hp].
      repeat split; assumption.
  - intros os cloud s u Hnew g db dpath c.
    destruct (uploadFunc_follows_policy os cloud s u Hnew)
      as (e1 & e2 & e3 & e4 & Hrun & P1 & P2 & P3 & P4).
    exists e1, e2, e3, e4.
    rewrite (emitted_after_uploads (uploadFunc os cloud) s _ _ _ Hrun), Hrun.
    repeat split; assumption.
  - intros os cloud s u Hnew path Hin.
    pose proof (uploadFunc_run os cloud s) as Hrun. rewrite Hnew in Hrun.
    destruct Hrun as (k & e1 & e2 & e3 & e4 & Hrun & H1 & H3 & H4 & _).
    rewrite (emitted_after_uploads (uploadFunc os cloud) s _ _ _ Hrun).
    destruct H1 as (b1 & d1 & res1 & rest1 & ->).
    destruct H3 as (b3 & d3 & res3 & rest3 & ->).
    destruct H4 as (b4 & d4 & res4 & rest4 & ->).
    cbn [In] in Hin. destruct Hin as [<- | [<- | [<- | []]]].
    + exists b1, d1, res1. cbn. now left.
    + exists b3, d3, res3. rewrite !in_app_iff. right. right. left. cbn. now left.
    + exists b4, d4, res4. rewrite !in_app_iff. right. right. right. cbn. now left.
Qed.

(** C4, witness of [upload_retry_policy]: an uploader that succeeds on its
    third attempt, one that never succeeds, and the pass over the artifacts
    of [running_zetcd] and of [running_etcd] while the store is down. *)
Lemma upload_retry_policy_witness :
  (let run := upload_retry cloud_flaky uploader0 max_attempts None
                           "bucket" "database.log" "run-1/bench-2-database.log" in
   fst (run running_etcd) = Returned None /\
   attempts (emitted run running_etcd) = 3 /\
   pauses (emitted run running_etcd) = 2) /\
  (let run := upload_retry cloud_down uploader0 max_attempts None
                           "bucket" "database.log" "run-1/bench-2-database.log" in
   fst (run running_etcd) = Returned (Some (Ext "connection refused")) /\
   attempts (emitted run running_etcd) = 30 /\
   pauses (emitted run running_etcd) = 30) /\
  (let s := running_zetcd in
   let g := globals s in
   let dpath := databaseLogPath g ++ "-" ++ "zetcd" in
   let c := upload_calls s in
   exists e1 e2 e3 e4,
     emitted (uploadFunc os_ok cloud_down) s = (e1 ++ e2 ++ e3 ++ e4)%list /\
     fst (uploadFunc os_ok cloud_down s) = Returned None /\
     artifact_uploaded_by_policy cloud_down uploader0 s (databaseLogPath g) c e1 /\
     artifact_uploaded_by_policy cloud_down uploader0 s dpath (c + attempts e1) e2 /\
     artifact_uploaded_by_policy cloud_down uploader0 s (monitorLogPath g)
       (c + attempts e1 + attempts e2) e3 /\
     artifact_uploaded_by_policy cloud_down uploader0 s (agentLogPath g)
       (c + attempts e1 + attempts e2 + attempts e3) e4) /\
  (exists b d res,
      In (EvUploadFile b (monitorLogPath (globals running_etcd)) d res)
         (emitted (uploadFunc os_ok cloud_down) running_etcd)).
Proof.
  destruct upload_retry_policy as (Hloop & Hseg & Hpass).
  split; [| split; [| split]].
  - destruct (Hloop cloud_flaky uploader0 "bucket" "database.log"
                    "run-1/bench-2-database.log" running_etcd)
      as (_ & Hsucc & _).
    destruct (Hsucc 3) as (H1 & _ & H3 & H4).
    + lia.
    + intros [|[|i]] Hi; [discriminate | discriminate | lia].
    + reflexivity.
    + cbv zeta. repeat split; assumption.
  - destruct (Hloop cloud_down uploader0 "bucket" "database.log"
                    "run-1/bench-2-database.log" running_etcd)
      as (_ & _ & Hfail).
    destruct Hfail as (H1 & _ & H3 & H4).
    + intros i _. discriminate.
    + cbv zeta. repeat split; assumption.
  - exact (Hseg os_ok cloud_down running_zetcd uploader0 eq_refl).
  - apply (Hpass os_ok cloud_down running_etcd
                 (RemoteStorage.mkGoogleCloudStorage "" "project") eq_refl).
    cbn. auto.
Defined.
(** ** The result of the upload pass *)

(** C10: the error returned by the upload pass is the error of the client
    construction, and nil when the client is constructed, whatever the
    uploads answer (all of them may fail thirty times). *)
Theorem upload_pass_error_is_client_error
        (os : OS) (cloud : RemoteStorage.Cloud) (s : State) :
  fst (uploadFunc os cloud s)
  = Returned
      match RemoteStorage.NewGoogleCloudStorage cloud
              (GoogleCloudStorageKey (req (srv s)))
              (GoogleCloudProjectName (req (srv s))) with
      | inl e => Some e
      | inr _ => None
      end.
Proof.
  pose proof (uploadFunc_run os cloud s) as Hrun.
  destruct (RemoteStorage.NewGoogleCloudStorage _ _ _) as [e|u].
  - now rewrite Hrun.
  - destruct Hrun as (k & e1 & e2 & e3 & e4 & -> & _). reflexivity.
Qed.

(** With the store unreachable the pass over the three artifacts of
    [running_etcd] makes ninety attempts and returns nil. *)
Example upload_pass_exhausted :
  fst (uploadFunc os_ok cloud_down running_etcd) = Returned None /\
  attempts (emitted (uploadFunc os_ok cloud_down) running_etcd) = 90.
Proof. split; vm_compute; reflexivity. Qed.

Example upload_pass_bad_key :
  fst (uploadFunc os_ok cloud_bad_key running_etcd)
  = Returned (Some (Ext "unexpected end of JSON input")) /\
  emitted (uploadFunc os_ok cloud_bad_key) running_etcd = [].
Proof. split; vm_compute; reflexivity. Qed.

(** ** The [UploadLog] case and the monitoring loop *)

Lemma rFunc_run (os : OS) (p : Z) (s : State) :
  exists r rest,
    fst (rFunc os p s) = Returned r /\
    emitted (rFunc os p) s = EvProcessList p :: rest /\
    srv (snd (rFunc os p s)) = srv s /\
    uploadSig (snd (rFunc os p s)) = uploadSig s.
Proof.
  destruct s as [t g ch opens nf uc tr].
  unfold emitted, rFunc. exec.
  repeat case_step.
  all: repeat rewrite <- app_assoc; rewrite ?skipn_length_app; cbn [app].
  all: do 2 eexists; repeat split; reflexivity.
Qed.

Lemma Transfer_UploadLog (cfg : Config) (os : OS) (r : Request) (s : State) :
  Operation r = Request_UploadLog ->
  Transfer cfg os r s =
  (modify_srv (fun t => set_req (merge_upload_fields r (req t)) t) ;;
   write_key cfg os ;; _ <- upload_log ;; ret (mkResponse true)) s.
Proof.
  intros H. unfold Transfer, store_request, dispatch. rewrite H. reflexivity.
Qed.

Lemma upload_log_trace (cfg : Config) (os : OS) (r : Request) (s : State) :
  Operation r = Request_UploadLog ->
  exists l,
    emitted (Transfer cfg os r) s = l /\
    Forall (fun e => is_signal e = false /\ is_close e = false) l /\
    srv (snd (Transfer cfg os r s))
    = set_req (merge_upload_fields r (req (srv s))) (srv s) /\
    open_files (snd (Transfer cfg os r s)) = open_files s.
Proof.
  intros Hop. unfold emitted. rewrite (Transfer_UploadLog cfg os r s Hop).
  destruct s as [[rq c lf p pc plf pp] g ch opens nf uc tr].
  unfold write_key, upload_log. exec.
  repeat case_step.
  all: repeat rewrite <- app_assoc; rewrite ?skipn_length_app; cbn [app].
  all: eexists; split; [reflexivity|]; split; [|split; reflexivity].
  all: repeat constructor.
Qed.
(** C5 (amended): an [UploadLog] command copies the project name, the
    bucket name and the sub-directory of the new command into the stored
    command and changes nothing else in the server object: the other request
    fields (the key and the test name among them), the process ids, the
    process handles and the log file handles are unchanged and no file is
    closed; repeating the command leaves the server object as it is. *)
Theorem upload_log_merges_three_fields
        (cfg : Config) (os : OS) (r : Request) (s : State) :
  Operation r = Request_UploadLog ->
  let t := srv s in
  let s' := snd (Transfer cfg os r s) in
  let t' := srv s' in
  (GoogleCloudProjectName (req t') = GoogleCloudProjectName r /\
   GoogleCloudStorageBucketName (req t') = GoogleCloudStorageBucketName r /\
   GoogleCloudStorageSubDirectory (req t') = GoogleCloudStorageSubDirectory r) /\
  (Operation (req t') = Operation (req t) /\
   Database (req t') = Database (req t) /\
   PeerIPString (req t') = PeerIPString (req t) /\
   ServerIndex (req t') = ServerIndex (req t) /\
   TestName (req t') = TestName (req t) /\
   GoogleCloudStorageKey (req t') = GoogleCloudStorageKey (req t) /\
   ZookeeperMyID (req t') = ZookeeperMyID (req t) /\
   ZookeeperMaxClientCnxns (req t') = ZookeeperMaxClientCnxns (req t) /\
   ZookeeperSnapCount (req t') = ZookeeperSnapCount (req t)) /\
  (cmd t' = cmd t /\ pid t' = pid t /\ logfile t' = logfile t /\
   proxyCmd t' = proxyCmd t /\ proxyPid t' = proxyPid t /\
   proxyLogfile t' = proxyLogfile t) /\
  open_files s' = open_files s /\
  srv (snd (Transfer cfg os r s')) = t'.
Proof.
  intros Hop t s' t'.
  destruct (upload_log_trace cfg os r s Hop) as (l & _ & _ & Hsrv & Hopen).
  destruct (upload_log_trace cfg os r s' Hop) as (l' & _ & _ & Hsrv' & _).
  subst t t' s'. rewrite Hsrv', Hsrv, Hopen.
  destruct (srv s) as [rq c lf p pc plf pp]. cbn.
  repeat split.
Qed.

(** C5, witness of [upload_log_merges_three_fields]. *)
Lemma upload_log_merges_three_fields_witness :
  Operation upload_request = Request_UploadLog /\
  GoogleCloudStorageBucketName
    (req (srv (snd (Transfer cfg0 os_ok upload_request running_etcd))))
  = "bucket-2" /\
  pid (srv (snd (Transfer cfg0 os_ok upload_request running_etcd)))
  = pid (srv running_etcd).
Proof.
  pose proof (upload_log_merges_three_fields cfg0 os_ok upload_request
                running_etcd eq_refl) as H.
  cbv zeta in H. destruct H as ((_ & Hb & _) & _ & (_ & Hp & _) & _).
  split; [reflexivity | split; assumption].
Defined.

(** C5, counterexample: the key material and the test name of the new
    command are destination fields too, and they are not taken. *)
Lemma upload_log_keeps_key_and_test_name :
  Operation upload_request = Request_UploadLog /\
  GoogleCloudStorageKey upload_request = "key-2" /\
  TestName upload_request = "other" /\
  GoogleCloudStorageKey
    (req (srv (snd (Transfer cfg0 os_ok upload_request running_etcd)))) = "" /\
  TestName
    (req (srv (snd (Transfer cfg0 os_ok upload_request running_etcd)))) = "bench" /\
  req (srv (snd (Transfer cfg0 os_ok upload_request running_etcd)))
  <> merge_destination_fields upload_request (req (srv running_etcd)).
Proof.
  repeat split; try (vm_compute; reflexivity).
  vm_compute. discriminate.
Qed.
(** C6 (amended): an [UploadLog] command signals no process and leaves the
    tracked process id alone.  The monitoring loop that takes its signal
    runs one upload pass; when the remote-storage client could be
    constructed the loop goes on (its next timer tick samples the process
    again), and when the construction fails the goroutine returns. *)
Theorem upload_log_keeps_loop_when_client_ok :
  (forall cfg os r s,
      Operation r = Request_UploadLog ->
      Forall (fun e => is_signal e = false) (emitted (Transfer cfg os r) s) /\
      pid (srv (snd (Transfer cfg os r s))) = pid (srv s) /\
      cmd (srv (snd (Transfer cfg os r s))) = cmd (srv s)) /\
  (forall os cloud p s,
      uploadSig s = Some Request_UploadLog ->
      let it := monitor_iteration os cloud p SelUploadSig s in
      match RemoteStorage.NewGoogleCloudStorage cloud
              (GoogleCloudStorageKey (req (srv s)))
              (GoogleCloudProjectName (req (srv s))) with
      | inr _ =>
          fst it = Returned Looping /\
          fst (monitor_iteration os cloud p SelTimer (snd it)) = Returned Looping /\
          exists rest,
            emitted (monitor_iteration os cloud p SelTimer) (snd it)
            = EvProcessList p :: rest
      | inl _ => fst it = Returned Exited
      end).
Proof.
  split.
  - intros cfg os r s Hop.
    destruct (upload_log_trace cfg os r s Hop) as (l & -> & Hl & Hsrv & _).
    split; [| rewrite Hsrv; destruct (srv s); split; reflexivity].
    eapply Forall_impl; [| exact Hl]. cbn. intros e [He _]. exact He.
  - intros os cloud p s Hsig it.
    set (s1 := mkState (srv s) (globals s) None (open_files s) (next_file s)
                       (upload_calls s) (trace s ++ [EvRecv Request_UploadLog])%list).
    assert (Hit : it = (us <- ret Request_UploadLog ;;
                        r <- uploadFunc os cloud ;;
                        match r with
                        | Some _ => ret Exited
                        | None =>
                            if Operation_eqb us Request_UploadLog
                            then ret Looping else ret Exited
                        end) s1).
    { subst it. unfold monitor_iteration, bind at 1, recv_uploadSig.
      rewrite Hsig. reflexivity. }
    pose proof (uploadFunc_run os cloud s1) as Hrun.
    change (srv s1) with (srv s) in Hrun.
    destruct (RemoteStorage.NewGoogleCloudStorage _ _ _) as [e|u].
    + rewrite Hit. unfold bind, ret. rewrite Hrun. reflexivity.
    + destruct Hrun as (k & e1 & e2 & e3 & e4 & Hrun & _).
      assert (Hit' : it = (Returned Looping, after_uploads s1 k (e1 ++ e2 ++ e3 ++ e4))).
      { rewrite Hit. unfold bind, ret. rewrite Hrun. reflexivity. }
      rewrite Hit'. cbn [fst snd].
      split; [reflexivity|].
      unfold monitor_iteration.
      destruct (rFunc_run os p (after_uploads s1 k (e1 ++ e2 ++ e3 ++ e4)))
        as (r & rest & Hr & Hem & _).
      split.
      * unfold bind, ret. destruct (rFunc os p _) as [o s2]. cbn [fst] in *.
        now rewrite Hr.
      * rewrite (emitted_bind (rFunc os p) (fun _ => ret Looping) _ (extends_rFunc os p));
          [| intros; apply extends_ret].
        destruct (rFunc os p _) as [o s2]. cbn [fst] in Hr. rewrite Hr, Hem.
        rewrite emitted_ret, app_nil_r. eauto.
Qed.

(** C6, witness of [upload_log_keeps_loop_when_client_ok]: an [UploadLog]
    for the etcd of [running_etcd], with a store that accepts the key. *)
Lemma upload_log_keeps_loop_witness :
  Operation upload_request = Request_UploadLog /\
  uploadSig (snd (Transfer cfg0 os_ok upload_request running_etcd))
  = Some Request_UploadLog /\
  pid (srv (snd (Transfer cfg0 os_ok upload_request running_etcd)))
  = pid (srv running_etcd) /\
  fst (monitor_iteration os_ok cloud_ok 102 SelUploadSig
         (snd (Transfer cfg0 os_ok upload_request running_etcd)))
  = Returned Looping.
Proof.
  destruct upload_log_keeps_loop_when_client_ok as [Hcmd Hloop].
  destruct (Hcmd cfg0 os_ok upload_request running_etcd eq_refl) as (_ & Hpid & _).
  pose proof (Hloop os_ok cloud_ok 102%Z
                    (snd (Transfer cfg0 os_ok upload_request running_etcd))
                    eq_refl) as H.
  cbv zeta in H.
  change (RemoteStorage.NewGoogleCloudStorage cloud_ok
            (GoogleCloudStorageKey
               (req (srv (snd (Transfer cfg0 os_ok upload_request running_etcd)))))
            (GoogleCloudProjectName
               (req (srv (snd (Transfer cfg0 os_ok upload_request running_etcd))))))
    with (@inr error _ (RemoteStorage.mkGoogleCloudStorage "" "project-2")) in H.
  destruct H as (Hl & _).
  repeat split; assumption.
Defined.

(** C6, counterexample: the agent was started without key material, so the
    client cannot be constructed; the monitoring goroutine that takes the
    signal of an [UploadLog] returns, and the loop is over. *)
Lemma upload_log_ends_loop_without_client :
  Operation upload_request = Request_UploadLog /\
  fst (Transfer cfg0 os_ok upload_request running_etcd)
  = Returned (mkResponse true) /\
  uploadSig (snd (Transfer cfg0 os_ok upload_request running_etcd))
  = Some Request_UploadLog /\
  fst (monitor_iteration os_ok cloud_bad_key 102 SelUploadSig
         (snd (Transfer cfg0 os_ok upload_request running_etcd)))
  = Returned Exited.
Proof. repeat split; vm_compute; reflexivity. Qed.
(** ** Arguments of the etcd process *)

Lemma range_map_members (peers : list string) (i : nat) :
  range_map etcd_member (Z.of_nat i) peers
  = map (fun iu => "etcd-" ++ Fmt.d (Z.of_nat (fst iu) + 1) ++ "="
                   ++ "http://" ++ snd iu ++ ":2380")
        (combine (seq i (List.length peers)) peers).
Proof.
  revert i. induction peers as [|u peers IH]; intros i; cbn [range_map List.length seq combine map].
  - reflexivity.
  - f_equal. replace (Z.of_nat i + 1)%Z with (Z.of_nat (S i)) by lia. apply IH.
Qed.

Lemma etcd_clusterStr_membership (peers : list string) :
  etcd_clusterStr peers = membership peers.
Proof.
  unfold etcd_clusterStr, membership, membership_pairs.
  now rewrite <- (range_map_members peers 0).
Qed.

Lemma membership_pairs_length (peers : list string) :
  List.length (membership_pairs peers) = List.length peers.
Proof.
  unfold membership_pairs. rewrite length_map, length_combine, length_seq. lia.
Qed.

Lemma start_etcd_first_started (cfg : Config) (os : OS) (peers : list string) (s : State) :
  is_etcd_family (Database (req (srv s))) = true ->
  let l := emitted (start_etcd cfg os peers) s in
  (forall c, first_started l = Some c ->
     Cmd_Path c = etcdBinaryPath cfg /\
     exists pre, Cmd_Args c
       = (pre ++ ["--initial-cluster"; etcd_clusterStr peers;
                  "--initial-cluster-state"; "new"])%list) /\
  (forall p, fst (start_etcd cfg os peers s) = Returned p ->
     exists c, first_started l = Some c /\
               cmd (srv (snd (start_etcd cfg os peers s))) = Some c).
Proof.
  destruct s as [[rq c0 lf p0 pc plf pp] g ch opens nf uc tr].
  cbn [srv req]. intros Hdb. cbv zeta.
  unfold emitted, start_etcd, etcd_flags, start_primary, start_proxy. exec.
  destruct (Database rq); try discriminate; cbn [is_proxied negb]; exec.
  all: repeat case_step.
  all: repeat rewrite <- app_assoc;
    rewrite ?skipn_all, ?skipn_length_app; cbn [app first_started].
  all: split; [intros c Hc | intros p Hp]; try discriminate.
  all: try (injection Hc as <-; split; [reflexivity|];
            cbn [Cmd_Args exec_Command];
            match goal with
            | |- exists pre, ?args = _ => exists (firstn 15 args); reflexivity
            end).
  all: eexists; split; reflexivity.
Qed.

(** For a [Start] request of the etcd family [Transfer] is the preamble
    followed by the etcd branch. *)
Lemma Transfer_Start_etcd (cfg : Config) (os : OS) (r : Request) (s : State) :
  Operation r = Request_Start ->
  is_etcd_family (Database r) = true ->
  Transfer cfg os r s =
  (modify_globals (rebase_globals cfg) ;;
   modify_srv (set_req r) ;;
   write_key cfg os ;;
   p <- start_etcd cfg os (Strings.Split (PeerIPString r) ("_" ++ "__")) ;;
   emit (EvGoMonitor p) ;;
   ret (mkResponse true)) s.
Proof.
  intros Hop Hdb.
  destruct s as [[rq c0 lf p0 pc plf pp] g ch opens nf uc tr].
  unfold Transfer, store_request, dispatch, start_database, write_key.
  rewrite Hop. cbn [Operation_eqb]. exec.
  destruct (negb _); [destruct (os_toFile _ _ _ _)|]; exec;
    destruct (Database r); try discriminate; reflexivity.
Qed.
Lemma first_started_app (l1 l2 : list Event) :
  first_started (l1 ++ l2)
  = match first_started l1 with
    | Some c => Some c
    | None => first_started l2
    end.
Proof.
  induction l1 as [|e l1 IH]; cbn [app first_started]; [reflexivity|].
  destruct e; auto.
Qed.

Lemma extends_index {A : Type} (l : list A) (i : N) : extends (index l i).
Proof. unfold index. destruct (nth_error l (N.to_nat i)); auto with trace_ext. Qed.
#[export] Hint Resolve extends_index : trace_ext.

Lemma extends_start_etcd cfg os peers : extends (start_etcd cfg os peers).
Proof.
  unfold start_etcd, etcd_flags, start_primary, start_proxy, check, check_val,
    os_RemoveAll_, go_Wait.
  extends_tac.
Qed.

(** C8: a [Start] of an etcd-family engine launches the primary process --
    the first process it starts, the one kept in [t.cmd] -- from the etcd
    binary with [--initial-cluster] followed by the comma-joined pairs
    [etcd-{i+1}=http://{peer i}:2380] of all [n] peers in order, and with
    [--initial-cluster-state new] as its last two arguments, whatever the
    other fields of the command are. *)
Theorem etcd_start_membership
        (cfg : Config) (os : OS) (r : Request) (s : State) :
  Operation r = Request_Start ->
  is_etcd_family (Database r) = true ->
  let peers := Strings.Split (PeerIPString r) "___" in
  let l := emitted (Transfer cfg os r) s in
  List.length (membership_pairs peers) = List.length peers /\
  (forall c,
      first_started l = Some c ->
      Cmd_Path c = etcdBinaryPath cfg /\
      exists pre,
        Cmd_Args c
        = (pre ++ ["--initial-cluster"; membership peers;
                   "--initial-cluster-state"; "new"])%list) /\
  (forall resp,
      fst (Transfer cfg os r s) = Returned resp ->
      exists c,
        first_started l = Some c /\
        cmd (srv (snd (Transfer cfg os r s))) = Some c).
Proof.
  intros Hop Hdb peers l.
  split; [apply membership_pairs_length|].
  set (s0 := with_srv (with_globals s (rebase_globals cfg (globals s)))
                      (set_req r (srv s))).
  assert (HT : Transfer cfg os r s
               = (write_key cfg os ;;
                  p <- start_etcd cfg os peers ;;
                  emit (EvGoMonitor p) ;;
                  ret (mkResponse true)) s0).
  { rewrite (Transfer_Start_etcd cfg os r s Hop Hdb). reflexivity. }
  assert (Hl : l = emitted (write_key cfg os ;;
                            p <- start_etcd cfg os peers ;;
                            emit (EvGoMonitor p) ;;
                            ret (mkResponse true)) s0).
  { subst l. unfold emitted. rewrite HT. reflexivity. }
  rewrite HT, Hl. clear HT Hl l.
  rewrite (emitted_bind (write_key cfg os) _ s0 (extends_write_key cfg os));
    [| intros; apply extends_bind; [apply extends_start_etcd | intros; extends_tac] ].
  destruct (write_key_emitted cfg os s0) as (Hk & Hsrv & Hr).
  assert (Hnone : first_started (emitted (write_key cfg os) s0) = None).
  { destruct Hk as [-> | (c & p & ->)]; reflexivity. }
  destruct (write_key cfg os s0) as [o s1] eqn:Ew. cbn [fst snd] in *.
  assert (Hb : forall k : unit -> M Response,
             bind (write_key cfg os) k s0
             = match o with
               | Returned a => k a s1
               | Failed e => (Failed e, s1)
               | Panicked => (Panicked, s1)
               | Parked => (Parked, s1)
               end).
  { intros k. unfold bind. now rewrite Ew. }
  rewrite !Hb. clear Hb.
  destruct Hr as [-> | [e ->]].
  2:{ rewrite Hnone. split; intros; discriminate. }
  assert (Hdb1 : is_etcd_family (Database (req (srv s1))) = true).
  { rewrite Hsrv. exact Hdb. }
  destruct (start_etcd_first_started cfg os peers s1 Hdb1) as [Hfirst Hret].
  rewrite (emitted_bind (start_etcd cfg os peers) _ s1 (extends_start_etcd cfg os peers));
    [| intros; extends_tac].
  rewrite first_started_app, Hnone.
  unfold bind.
  destruct (start_etcd cfg os peers s1) as [[p|e| |] s2]; cbn [fst snd] in *.
  - rewrite first_started_app.
    destruct (Hret p eq_refl) as (c & Hc & Hcmd). rewrite Hc. cbv beta iota.
    split.
    + intros c' Hc'. injection Hc' as <-.
      rewrite <- etcd_clusterStr_membership. apply Hfirst. exact Hc.
    + intros resp _. exists c. split; [reflexivity|]. exact Hcmd.
  - split; [| intros; discriminate].
    intros c Hc. rewrite <- etcd_clusterStr_membership. now apply Hfirst.
  - split; [| intros; discriminate].
    intros c Hc. rewrite <- etcd_clusterStr_membership. now apply Hfirst.
  - split; [| intros; discriminate].
    intros c Hc. rewrite <- etcd_clusterStr_membership. now apply Hfirst.
Qed.

(** C8, witness of [etcd_start_membership]: the second of three peers. *)
Lemma etcd_start_membership_witness :
  Operation start_etcd_request = Request_Start /\
  is_etcd_family (Database start_etcd_request) = true /\
  exists c pre,
    cmd (srv running_etcd) = Some c /\
    Cmd_Args c
    = (pre ++ ["--initial-cluster";
               "etcd-1=http://10.0.0.1:2380,etcd-2=http://10.0.0.2:2380,etcd-3=http://10.0.0.3:2380";
               "--initial-cluster-state"; "new"])%list.
Proof.
  destruct (etcd_start_membership cfg0 os_ok start_etcd_request
              (initial_state cfg0) eq_refl eq_refl) as (_ & Hfirst & Hret).
  destruct (Hret (mkResponse true) eq_refl) as (c & Hc & Hcmd).
  destruct (Hfirst c Hc) as (_ & pre & Hargs).
  split; [reflexivity | split; [reflexivity|]].
  exists c, pre. split; [exact Hcmd | exact Hargs].
Defined.
(** ** Directory upload *)

Section WaitTasks.
Import RemoteStorage.




End WaitTasks.



(** The scenario by evaluation: the call returns the error of the third
    file. *)
Example UploadDir_third_file_fails :
  RemoteStorage.UploadDir cloud_third_unreadable (Some uploader0) 0
    (RemoteStorage.mkOp "") "bucket" "logs" "run-1"
    ["logs/e"; "logs/a"; "logs/c"; "logs/b"; "logs/d"]
  = RemoteStorage.Returns
      (Some (Errorf "ioutil.ReadFile(%s) %v" ["logs/c"; "permission denied"])).
Proof. vm_compute. reflexivity. Qed.
(** ** Destination names *)

(** *** Strings *)

Lemma append_assoc (a b c : string) : (a ++ b) ++ c = a ++ (b ++ c).
Proof. induction a as [|x a IH]; cbn; [reflexivity | now rewrite IH]. Qed.

Lemma append_nil_r (a : string) : a ++ "" = a.
Proof. induction a as [|x a IH]; cbn; [reflexivity | now rewrite IH]. Qed.

Lemma append_inv_head (a b c : string) : a ++ b = a ++ c -> b = c.
Proof.
  induction a as [|x a IH]; cbn; intros H; [exact H|].
  injection H as H. now apply IH.
Qed.

Lemma has_char_app (c : ascii) (a b : string) :
  has_char c (a ++ b) = has_char c a || has_char c b.
Proof.
  induction a as [|x a IH]; cbn; [reflexivity|].
  now rewrite IH, orb_assoc.
Qed.

(** Two strings cut at the first occurrence of [c] are equal piecewise. *)
Lemma append_split_at (c : ascii) (d1 : string) :
  forall d2 b1 b2,
    has_char c d1 = false -> has_char c d2 = false ->
    d1 ++ String c b1 = d2 ++ String c b2 ->
    d1 = d2 /\ b1 = b2.
Proof.
  induction d1 as [|x d1 IH]; intros [|y d2] b1 b2 H1 H2 Heq; cbn in *.
  - injection Heq as ->. auto.
  - injection Heq as <- _. rewrite Ascii.eqb_refl in H2. discriminate.
  - injection Heq as -> _. rewrite Ascii.eqb_refl in H1. discriminate.
  - injection Heq as -> Heq.
    apply orb_false_iff in H1 as [_ H1]. apply orb_false_iff in H2 as [_ H2].
    destruct (IH d2 b1 b2 H1 H2 Heq) as [-> ->]. auto.
Qed.

Lemma prefix_empty (s : string) : String.prefix "" s = true.
Proof. destruct s; reflexivity. Qed.

Lemma prefix_slash (c : ascii) (s : string) :
  String.prefix "/" (String c s) = Ascii.eqb c "/".
Proof.
  cbn [String.prefix]. destruct (ascii_dec "/" c) as [<- | Hne].
  - now rewrite prefix_empty.
  - symmetry. apply Ascii.eqb_neq. congruence.
Qed.

(** *** Decimal digits *)

Lemma digits_have_no (c : ascii) (u : Decimal.uint) :
  c = "-"%char \/ c = "/"%char ->
  has_char c (NilEmpty.string_of_uint u) = false.
Proof.
  intros Hc. induction u; cbn [NilEmpty.string_of_uint has_char];
    rewrite ?IHu; destruct Hc as [-> | ->]; reflexivity.
Qed.

Lemma Fmt_d_of_N_has_no (c : ascii) (n : N) :
  c = "-"%char \/ c = "/"%char ->
  has_char c (Fmt.d (Z.of_N n)) = false.
Proof.
  intros Hc. unfold Fmt.d. destruct n as [|p]; cbn [Z.of_N Z.to_int].
  - destruct Hc as [-> | ->]; reflexivity.
  - cbn [NilZero.string_of_int]. unfold NilZero.string_of_uint.
    pose proof (digits_have_no c (Pos.to_uint p) Hc) as H.
    destruct (Pos.to_uint p); try exact H.
    destruct Hc as [-> | ->]; reflexivity.
Qed.

Lemma Fmt_d_inj (z1 z2 : Z) : Fmt.d z1 = Fmt.d z2 -> z1 = z2.
Proof.
  assert (Hnn : forall z, Z.to_int z <> Decimal.Pos Decimal.Nil /\
                          Z.to_int z <> Decimal.Neg Decimal.Nil).
  { intros [|p|p]; cbn; split; try discriminate;
      intros [= H]; exact (DecimalPos.Unsigned.to_uint_nonnil p H). }
  unfold Fmt.d. intros H.
  apply DecimalZ.to_int_inj.
  destruct (Hnn z1) as [H1 H1'], (Hnn z2) as [H2 H2'].
  pose proof (NilZero.isi _ H1 H1') as E1. pose proof (NilZero.isi _ H2 H2') as E2.
  rewrite H in E1. congruence.
Qed.

Lemma uint32_add_1_inj (i1 i2 : N) :
  (i1 < 2 ^ 32)%N -> (i2 < 2 ^ 32)%N ->
  uint32_add i1 1 = uint32_add i2 1 -> i1 = i2.
Proof.
  unfold uint32_add. intros H1 H2 H.
  change (2 ^ 32)%N with 4294967296%N in *.
  destruct (N.eq_dec i1 4294967295) as [-> | N1];
    destruct (N.eq_dec i2 4294967295) as [-> | N2]; try reflexivity.
  - rewrite (N.mod_small (i2 + 1)) in H by lia. cbn in H. lia.
  - rewrite (N.mod_small (i1 + 1)) in H by lia. cbn in H. lia.
  - rewrite !N.mod_small in H by lia. lia.
Qed.
(** *** Path elements *)

Lemma split_from_nonempty (sep : string) (s : string) :
  forall skip cur, Strings.split_from sep skip cur s <> [].
Proof.
  induction s as [|c s IH]; intros skip cur; cbn [Strings.split_from].
  - discriminate.
  - destruct skip; [destruct (String.prefix sep (String c s))|]; try discriminate; apply IH.
Qed.

Lemma split_slash_snoc (r : string) (y : string) :
  has_char "/" r = false ->
  forall cur,
    Strings.split_from "/" 0 cur (y ++ r)
    = (removelast (Strings.split_from "/" 0 cur y)
       ++ [(last (Strings.split_from "/" 0 cur y) "" ++ r)%string])%list.
Proof.
  intros Hr. induction y as [|c y IH]; intros cur.
  - cbn [append Strings.split_from removelast last app].
    revert cur. induction r as [|c r IHr]; intros cur.
    + cbn. now rewrite append_nil_r.
    + cbn [has_char] in Hr. apply orb_false_iff in Hr as [Hc Hr].
      cbn [Strings.split_from]. rewrite prefix_slash, Hc.
      rewrite (IHr Hr). now rewrite append_assoc.
  - cbn [append]. cbn [Strings.split_from]. rewrite !prefix_slash.
    destruct (Ascii.eqb c "/").
    + cbn [String.length Nat.sub]. rewrite IH.
      pose proof (split_from_nonempty "/" y 0 "") as Hne.
      destruct (Strings.split_from "/" 0 "" y) as [|e es]; [contradiction|].
      reflexivity.
    + apply IH.
Qed.

Lemma real_element (e : string) :
  has_char "-" e = true ->
  (e =? "")%string = false /\ (e =? ".")%string = false /\ (e =? "..")%string = false.
Proof.
  intros H. repeat split; apply String.eqb_neq; intros ->; discriminate.
Qed.

Lemma clean_elements_snoc (rooted : bool) (e : string) :
  has_char "-" e = true ->
  forall l out,
    Filepath.clean_elements rooted out (l ++ [e])
    = (Filepath.clean_elements rooted out l ++ [e])%list.
Proof.
  intros He. destruct (real_element e He) as (E1 & E2 & E3).
  induction l as [|x l IH]; intros out.
  - cbn [app Filepath.clean_elements]. rewrite E1, E2, E3. reflexivity.
  - cbn [app Filepath.clean_elements].
    destruct (x =? "")%string; [apply IH|].
    destruct (x =? ".")%string; [apply IH|].
    destruct (x =? "..")%string; [| apply IH].
    destruct out as [|top out']; [destruct rooted; apply IH|].
    destruct (top =? "..")%string; apply IH.
Qed.

Lemma concat_snoc (sep : string) (l : list string) :
  exists pfx, forall e, String.concat sep (l ++ [e]) = pfx ++ e.
Proof.
  induction l as [|x l [pfx IH]].
  - exists "". reflexivity.
  - exists (x ++ sep ++ pfx). intros e.
    cbn [app String.concat].
    destruct (l ++ [e])%list eqn:E; [destruct l; discriminate|].
    rewrite <- E, IH. now rewrite !append_assoc.
Qed.

(** Appending to a non-empty path a piece without slash that holds a dash
    extends the last element of the cleaned path by that piece. *)
Lemma Clean_snoc (y : string) :
  y <> "" ->
  exists q, forall r,
      has_char "/" r = false -> has_char "-" r = true ->
      Filepath.Clean (y ++ r) = q ++ r.
Proof.
  intros Hy. destruct y as [|c y]; [contradiction|].
  set (E := Filepath.elements (String c y)).
  destruct (concat_snoc "/"
              (Filepath.clean_elements (Ascii.eqb c "/") [] (removelast E)))
    as [pfx Hpfx].
  exists ((if Ascii.eqb c "/" then "/" else "") ++ pfx ++ last E "").
  intros r Hslash Hdash.
  cbn [append]. unfold Filepath.Clean.
  change (String c (y ++ r)) with (String c y ++ r).
  unfold Filepath.elements, Strings.Split, Filepath.Separator.
  rewrite (split_slash_snoc r (String c y) Hslash "").
  change (Strings.split_from "/" 0 "" (String c y)) with E.
  rewrite clean_elements_snoc
    by (rewrite has_char_app, Hdash; apply orb_true_r).
  unfold Strings.Join. rewrite Hpfx.
  destruct (Ascii.eqb c "/").
  - now rewrite !append_assoc.
  - destruct (_ ++ _)%list eqn:E'.
    + destruct (Filepath.clean_elements false [] (removelast E)); discriminate.
    + now rewrite !append_assoc.
Qed.
(** *** The derivation *)

Lemma destination_unprefixed (sub t : string) (i : N) (b : string) :
  Strings.HasPrefix b t = false ->
  exists y, y <> "" /\
    forall i' b',
      Strings.HasPrefix b' t = false ->
      destination sub t i' b'
      = Filepath.Clean
          (y ++ String "-" (Fmt.d (Z.of_N (uint32_add i' 1)) ++ String "-" b')).
Proof.
  intros Hb.
  assert (Ht : t <> "").
  { intros ->. unfold Strings.HasPrefix in Hb. rewrite prefix_empty in Hb. discriminate. }
  destruct (String.eqb_spec sub "") as [-> | Hsub].
  - exists t. split; [exact Ht|]. intros i' b' Hb'.
    unfold destination, destination_name. rewrite Hb'. cbn [negb].
    cbn [Filepath.Join String.eqb].
    destruct (String.eqb_spec (t ++ "-" ++ Fmt.d (Z.of_N (uint32_add i' 1)) ++ "-" ++ b') "")
      as [E | _].
    + destruct t; [contradiction | discriminate].
    + reflexivity.
  - exists (sub ++ "/" ++ t). split.
    { destruct sub; [contradiction | discriminate]. }
    intros i' b' Hb'.
    unfold destination, destination_name. rewrite Hb'. cbn [negb].
    cbn [Filepath.Join].
    destruct (String.eqb_spec sub "") as [E | _]; [contradiction|].
    unfold Strings.Join, Filepath.Separator. cbn [String.concat].
    f_equal. now rewrite !append_assoc.
Qed.

(** C7 (amended): the derivation is a function of its inputs.  A base name
    that does not start with the test name is stored under the
    sub-directory as test name, server index plus one (on 32 bits) and base
    name, joined by dashes; a base name that already starts with the test
    name is stored under the sub-directory as it is, whatever the server
    index.  Under one sub-directory and one test name, two artifacts whose
    base names are single path elements that do not start with the test
    name get the same destination only if they have the same server index
    and the same base name. *)
Theorem destination_injective_for_one_test_name :
  (forall sub sub' t t' i i' b b',
      sub = sub' -> t = t' -> i = i' -> b = b' ->
      destination sub t i b = destination sub' t' i' b') /\
  (forall sub t i b,
      Strings.HasPrefix b t = false ->
      destination sub t i b
      = Filepath.Join
          [sub; t ++ "-" ++ Fmt.d (Z.of_N ((i + 1) mod 2 ^ 32)) ++ "-" ++ b]) /\
  (forall sub t i b,
      Strings.HasPrefix b t = true ->
      destination sub t i b = Filepath.Join [sub; b]) /\
  (forall sub t i1 b1 i2 b2,
      (i1 < 2 ^ 32)%N -> (i2 < 2 ^ 32)%N ->
      has_char "/" b1 = false -> has_char "/" b2 = false ->
      Strings.HasPrefix b1 t = false -> Strings.HasPrefix b2 t = false ->
      destination sub t i1 b1 = destination sub t i2 b2 ->
      i1 = i2 /\ b1 = b2).
Proof.
  split; [| split; [| split]].
  - intros; subst; reflexivity.
  - intros sub t i b Hb. unfold destination, destination_name.
    now rewrite Hb.
  - intros sub t i b Hb. unfold destination, destination_name.
    now rewrite Hb.
  - intros sub t i1 b1 i2 b2 Hi1 Hi2 Hs1 Hs2 Hp1 Hp2 Heq.
    destruct (destination_unprefixed sub t i1 b1 Hp1) as (y & Hy & Hdest).
    rewrite (Hdest i1 b1 Hp1), (Hdest i2 b2 Hp2) in Heq.
    destruct (Clean_snoc y Hy) as [q Hq].
    assert (Hr : forall i b, has_char "/" b = false ->
                   has_char "/" (String "-" (Fmt.d (Z.of_N (uint32_add i 1)) ++ String "-" b)) = false /\
                   has_char "-" (String "-" (Fmt.d (Z.of_N (uint32_add i 1)) ++ String "-" b)) = true).
    { intros i b Hb. split; [| reflexivity].
      cbn [has_char]. rewrite has_char_app. cbn [has_char].
      rewrite Fmt_d_of_N_has_no by (now right). rewrite Hb. reflexivity. }
    destruct (Hr i1 b1 Hs1) as [Ha1 Hb1], (Hr i2 b2 Hs2) as [Ha2 Hb2].
    rewrite (Hq _ Ha1 Hb1), (Hq _ Ha2 Hb2) in Heq.
    apply append_inv_head in Heq. injection Heq as Heq.
    apply append_split_at in Heq as [Hd ->];
      try (apply Fmt_d_of_N_has_no; now left).
    split; [| reflexivity].
    apply Fmt_d_inj in Hd. apply N2Z.inj in Hd.
    now apply uint32_add_1_inj.
Qed.

(** C7, witness of [destination_injective_for_one_test_name]: the database
    log of the second server, its monitor file, which goes elsewhere, and
    the database log of a test called "database", whose name is kept. *)
Lemma destination_injective_witness :
  (1 < 2 ^ 32)%N /\
  has_char "/" "database.log" = false /\
  Strings.HasPrefix "database.log" "bench" = false /\
  destination "run-1" "bench" 1 "database.log"
  = Filepath.Join ["run-1"; "bench" ++ "-" ++ "2" ++ "-" ++ "database.log"] /\
  (Strings.HasPrefix "database.log" "database" = true /\
   destination "run-1" "database" 1 "database.log"
   = Filepath.Join ["run-1"; "database.log"]) /\
  (1%N = 1%N /\ "database.log" = "database.log") /\
  destination "run-1" "bench" 1 "database.log"
  <> destination "run-1" "bench" 1 "monitor.csv".
Proof.
  destruct destination_injective_for_one_test_name as (_ & Hfmt & Hkeep & Hinj).
  do 3 (split; [reflexivity|]).
  split; [exact (Hfmt "run-1" "bench" 1%N "database.log" eq_refl)|].
  split; [split; [reflexivity
                 | exact (Hkeep "run-1" "database" 1%N "database.log" eq_refl)]|].
  split.
  - exact (Hinj "run-1" "bench" 1%N "database.log" 1%N "database.log"
                eq_refl eq_refl eq_refl eq_refl eq_refl eq_refl eq_refl).
  - intros Heq.
    pose proof (proj2 (Hinj "run-1" "bench" 1%N "database.log" 1%N "monitor.csv"
                            eq_refl eq_refl eq_refl eq_refl eq_refl eq_refl Heq)) as H.
    discriminate H.
Defined.

(** C7, counterexample: in a test called "database" the base name of the
    database log, [database.log], starts with the test name and is kept as
    it is, so the agents of the servers 0 and 1 derive the same destination
    for their database logs; the upload pass of each of them stores its log
    under that one name. *)
Lemma destination_collision :
  Filepath.Base (databaseLogPath (globals (running_named_database 0)))
  = "database.log" /\
  ("database", 0%N, "database.log") <> ("database", 1%N, "database.log") /\
  destination "run-1" "database" 0 "database.log" = "run-1/database.log" /\
  destination "run-1" "database" 1 "database.log" = "run-1/database.log" /\
  In (EvUploadFile "bucket" "/home/agent/database.log" "run-1/database.log" None)
     (emitted (uploadFunc os_ok cloud_ok) (running_named_database 0)) /\
  In (EvUploadFile "bucket" "/home/agent/database.log" "run-1/database.log" None)
     (emitted (uploadFunc os_ok cloud_ok) (running_named_database 1)).
Proof.
  split; [reflexivity|]. split; [discriminate|].
  split; [reflexivity|]. split; [reflexivity|].
  split; vm_compute; left; reflexivity.
Qed.

(** The same happens for every artifact when the test has no name: every
    base name starts with the empty string. *)
Example destination_without_test_name (sub : string) (i : N) (b : string) :
  destination sub "" i b = Filepath.Join [sub; b].
Proof.
  unfold destination, destination_name, Strings.HasPrefix.
  now rewrite prefix_empty.
Qed.

(** Two test names can collide as well, even when neither base name starts
    with its test name. *)
Example destination_collision_across_test_names :
  ("a", 0%N, "1-b") <> ("a-1", 0%N, "b") /\
  destination "run-1" "a" 0 "1-b" = destination "run-1" "a-1" 0 "b".
Proof. split; [discriminate | reflexivity]. Qed.

(** ** [Start]: what every engine branch does *)

(** The state in which the engine branch of a [Start] runs: path variables
    rebased, request stored, key file written. *)
Lemma Transfer_Start_decompose (cfg : Config) (os : OS) (r : Request) (s : State) :
  Operation r = Request_Start ->
  exists keyw,
    (keyw = [] \/ exists c p, keyw = [EvToFile c p]) /\
    let s1 := mkState (set_req r (srv s)) (rebase_globals cfg (globals s))
                      (uploadSig s) (open_files s) (next_file s)
                      (upload_calls s) (trace s ++ keyw)%list in
    ((exists e, Transfer cfg os r s = (Failed e, s1)) \/
     Transfer cfg os r s
     = match start_database cfg os r (Strings.Split (PeerIPString r) "___") s1 with
       | (Returned p, s2) =>
           (Returned (mkResponse true),
            with_trace s2 (trace s2 ++ [EvGoMonitor p])%list)
       | (Failed e, s2) => (Failed e, s2)
       | (Panicked, s2) => (Panicked, s2)
       | (Parked, s2) => (Parked, s2)
       end).
Proof.
  intros Hop.
  set (s0 := mkState (set_req r (srv s)) (rebase_globals cfg (globals s))
                     (uploadSig s) (open_files s) (next_file s)
                     (upload_calls s) (trace s)).
  destruct (write_key_cases cfg os s0) as (keyw & Hk & Hs1 & Hr).
  exists keyw. split; [exact Hk|]. cbv zeta.
  assert (HT : Transfer cfg os r s
               = (write_key cfg os ;;
                  p <- start_database cfg os r (Strings.Split (PeerIPString r) "___") ;;
                  emit (EvGoMonitor p) ;;
                  ret (mkResponse true)) s0).
  { unfold Transfer, store_request, dispatch. rewrite Hop. reflexivity. }
  rewrite HT.
  destruct (write_key cfg os s0) as [o s1] eqn:Ew. cbn [fst snd] in *. subst s1.
  assert (Hb : forall k : unit -> M Response,
             bind (write_key cfg os) k s0
             = match o with
               | Returned a => k a (with_trace s0 (trace s0 ++ keyw)%list)
               | Failed e => (Failed e, with_trace s0 (trace s0 ++ keyw)%list)
               | Panicked => (Panicked, with_trace s0 (trace s0 ++ keyw)%list)
               | Parked => (Parked, with_trace s0 (trace s0 ++ keyw)%list)
               end).
  { intros k. unfold bind. now rewrite Ew. }
  rewrite Hb. clear Hb.
  change (with_trace s0 (trace s0 ++ keyw)%list)
    with (mkState (set_req r (srv s)) (rebase_globals cfg (globals s))
                  (uploadSig s) (open_files s) (next_file s)
                  (upload_calls s) (trace s ++ keyw)%list).
  destruct Hr as [-> | [e ->]]; [right | left; eauto].
  unfold bind, emit, ret.
  destruct (start_database cfg os r _ _) as [[p|e| |] s2]; reflexivity.
Qed.

Lemma range_map_length {A : Type} (f : Z -> string -> A) (l : list string) :
  forall i, List.length (range_map f i l) = List.length l.
Proof. induction l as [|u l IH]; intros i; cbn; [reflexivity | now rewrite IH]. Qed.

Lemma index_in_range {A : Type} (l : list A) (n : nat) (a : A) :
  nth_error l n = Some a -> (n < List.length l)%nat.
Proof. intros H. apply nth_error_Some. congruence. Qed.

Lemma index_out_of_range {A : Type} (f : Z -> string -> A) (l : list string) (n : nat) :
  nth_error (range_map f 0 l) n = None -> (List.length l <= n)%nat.
Proof. intros H. apply nth_error_None in H. now rewrite range_map_length in H. Qed.

Lemma index_within {A : Type} (f : Z -> string -> A) (l : list string) (n : nat) (a : A) :
  nth_error (range_map f 0 l) n = Some a -> (n < List.length l)%nat.
Proof. intros H. apply index_in_range in H. now rewrite range_map_length in H. Qed.

Ltac give_events :=
  first [ exists (@nil Event); split; [symmetry; apply app_nil_r|]
        | eexists; split; [reflexivity|] ].

Ltac index_facts :=
  repeat match goal with
  | H : nth_error (range_map _ _ _) _ = None |- _ => apply index_out_of_range in H
  | H : nth_error (range_map _ _ _) _ = Some _ |- _ => apply index_within in H
  | H : nth_error _ _ = None |- _ => apply nth_error_None in H
  | H : nth_error _ _ = Some _ |- _ => apply index_in_range in H
  end;
  cbn in *; lia.

Ltac in_tac := cbn [In]; repeat first [left; reflexivity | right].

Ltac started_tac :=
  split; [intros Hi; first [discriminate Hi | index_facts]|];
  split; [reflexivity|]; split; [reflexivity|]; split; [in_tac|];
  eexists; split; [reflexivity|]; split; [reflexivity|]; split; [in_tac|];
  intros Hpx; first [ discriminate Hpx
                    | eexists; split; [reflexivity|]; split; [reflexivity | in_tac] ].

Ltac failed_tac :=
  first [ left; repeat split; reflexivity
        | right; split; [reflexivity|]; eexists; split; [reflexivity | in_tac] ].

Ltac start_leaf :=
  cbn [fst snd]; norm_trace;
  repeat (split; [reflexivity|]); (split; [discriminate|]);
  give_events; split; [reflexivity|]; split; [reflexivity|];
  split; [intros HP; first [discriminate HP | split; [reflexivity | index_facts]] |];
  split; [intros p0 HR; first [discriminate HR | injection HR as <-; started_tac] |];
  split; [intros Hpx; first [discriminate Hpx | repeat split; reflexivity]
         | intros e0 HF; first [discriminate HF | failed_tac] ].

Ltac use_db :=
  match goal with
  | H : Database ?r = _ |- context [Database ?r] =>
      rewrite !H; cbn [is_proxied indexes_peers]
  end.

Lemma start_database_spec (cfg : Config) (os : OS) (r : Request) (peers : list string) (s : State) :
  wp (start_database cfg os r peers) (start_outcome peers s) s.
Proof.
  destruct s as [[rq c lf p pc plf pp] g ch opens nf uc tr].
  unfold start_outcome. cbn [srv req globals uploadSig upload_calls trace open_files next_file cmd pid logfile proxyCmd proxyLogfile proxyPid].
  destruct (Database rq) eqn:Hdb.
  all: repeat (try use_db; wp_step).
  all: start_leaf.
Qed.

Lemma Transfer_Start_spec (cfg : Config) (os : OS) (r : Request) (s : State) :
  Operation r = Request_Start ->
  exists keyw,
    (keyw = [] \/ exists c p, keyw = [EvToFile c p]) /\
    let s1 := mkState (set_req r (srv s)) (rebase_globals cfg (globals s))
                      (uploadSig s) (open_files s) (next_file s)
                      (upload_calls s) (trace s ++ keyw)%list in
    ((exists e, Transfer cfg os r s = (Failed e, s1)) \/
     exists o2 s2,
       start_database cfg os r (Strings.Split (PeerIPString r) "___") s1 = (o2, s2) /\
       start_outcome (Strings.Split (PeerIPString r) "___") s1 o2 s2 /\
       Transfer cfg os r s
       = match o2 with
         | Returned p =>
             (Returned (mkResponse true),
              with_trace s2 (trace s2 ++ [EvGoMonitor p])%list)
         | Failed e => (Failed e, s2)
         | Panicked => (Panicked, s2)
         | Parked => (Parked, s2)
         end).
Proof.
  intros Hop.
  destruct (Transfer_Start_decompose cfg os r s Hop) as (keyw & Hk & Hd).
  exists keyw. split; [exact Hk|]. cbv zeta in *.
  destruct Hd as [Hd | Hd]; [left; exact Hd | right].
  match type of Hd with
  | _ = match start_database _ _ _ ?ps ?s1 with _ => _ end =>
      pose proof (start_database_spec cfg os r ps s1) as Hsp;
      unfold wp in Hsp;
      destruct (start_database cfg os r ps s1) as [o2 s2]
  end.
  exists o2, s2. cbn [fst snd] in Hsp. split; [reflexivity|]. split; [exact Hsp|].
  rewrite Hd. destruct o2; reflexivity.
Qed.
Ltac closed_tac H :=
  repeat first [ exact (remove_In Nat.eq_dec _ _ H)
               | apply in_remove in H; destruct H as [H _] ].

Ltac request_leaf :=
  cbn [fst snd]; norm_trace;
  split; [discriminate|];
  repeat (split; [reflexivity|]);
  split; [intros rx HR;
          first [ discriminate HR
                | split; [reflexivity|]; split; [reflexivity|];
                  split; intros Hopx;
                  first [ discriminate Hopx
                        | reflexivity
                        | split; [discriminate|]; unfold log_files_closed;
                          split; intros fx Hf0 Hin;
                          cbn [logfile proxyLogfile open_files] in *;
                          first [ discriminate Hf0
                                | injection Hf0 as <-; closed_tac Hin ] ] ] |];
  split; [intros HP; first [discriminate HP | discriminate] |];
  split; [intros HN; first [reflexivity | exfalso; eapply HN; reflexivity] |];
  give_events; repeat split; reflexivity.

Lemma Transfer_request_spec (cfg : Config) (os : OS) (r : Request) (s : State) :
  Operation r <> Request_Start ->
  wp (Transfer cfg os r) (request_outcome r s) s.
Proof.
  intros Hns.
  destruct s as [[rq c lf p pc plf pp] g ch opens nf uc tr].
  unfold request_outcome. cbn [srv req globals uploadSig upload_calls trace open_files next_file cmd pid logfile proxyCmd proxyLogfile proxyPid].
  unfold Transfer, store_request, dispatch.
  destruct (Operation r) eqn:Hop; [congruence| | |]; cbn [Operation_eqb].
  all: repeat wp_step.
  all: request_leaf.
Qed.

Lemma opened_app (l1 l2 : list Event) :
  opened (l1 ++ l2) = (opened l1 ++ opened l2)%list.
Proof.
  induction l1 as [|e l1 IH]; cbn [app opened]; [reflexivity|].
  destruct e; cbn [app]; now rewrite ?IH.
Qed.

Lemma opened_key_write (keyw : list Event) :
  keyw = [] \/ (exists c p, keyw = [EvToFile c p]) -> opened keyw = [].
Proof. intros [-> | (c & p & ->)]; reflexivity. Qed.

Lemma first_started_key_write (keyw : list Event) :
  keyw = [] \/ (exists c p, keyw = [EvToFile c p]) -> first_started keyw = None.
Proof. intros [-> | (c & p & ->)]; reflexivity. Qed.

(** ** Extra properties of [Start] *)

(** X1: a [Start] that returns successfully leaves the agent tracking the
    process it started: the command and the process id are stored, the
    database log is stored and still open, the process was started on that
    log, and the last thing the call does is to spawn the monitoring
    goroutine on that process id.  For the engines that look their node up
    in the peer list the server index is within the list. *)
Theorem start_success_tracks_process
        (cfg : Config) (os : OS) (r : Request) (s : State) (resp : Response) :
  Operation r = Request_Start ->
  fst (Transfer cfg os r s) = Returned resp ->
  let s' := snd (Transfer cfg os r s) in
  exists c pre,
    cmd (srv s') = Some c /\
    logfile (srv s') = Some (next_file s) /\
    In (next_file s) (open_files s') /\
    emitted (Transfer cfg os r) s = (pre ++ [EvGoMonitor (pid (srv s'))])%list /\
    In (EvStart c (next_file s) (pid (srv s'))) pre /\
    first_started pre = Some c /\
    (indexes_peers (Database r) = true ->
     (N.to_nat (ServerIndex r)
      < List.length (Strings.Split (PeerIPString r) "___"))%nat).
Proof.
  intros Hop Hret. cbv zeta.
  destruct (Transfer_Start_spec cfg os r s Hop) as (keyw & Hk & Hd).
  cbv zeta in Hd. unfold emitted.
  destruct Hd as [[e He] | (o2 & s2 & Hrun & Hout & HT)];
    [rewrite He in Hret; discriminate|].
  rewrite HT in *. clear HT.
  destruct Hout as (_ & _ & _ & _ & _ & evs & Htr & _ & _ & _ & Hok & _).
  destruct o2 as [p| | |]; try discriminate.
  destruct (Hok p eq_refl) as (Hidx & Hpid & Hlf & Hin & c & Hc & Hfs & Hst & _).
  cbn [srv req trace next_file fst snd with_trace set_req] in *.
  exists c, (keyw ++ evs)%list. rewrite Hpid, Htr.
  repeat split; auto.
  - repeat rewrite <- app_assoc. apply skipn_length_app.
  - apply in_or_app. now right.
  - rewrite first_started_app, (first_started_key_write keyw Hk). exact Hfs.
Qed.

Lemma start_success_tracks_process_witness :
  exists c pre,
    cmd (srv running_etcd) = Some c /\
    logfile (srv running_etcd) = Some 1%nat /\
    In 1%nat (open_files running_etcd) /\
    emitted (Transfer cfg0 os_ok start_etcd_request) (initial_state cfg0)
    = (pre ++ [EvGoMonitor (pid (srv running_etcd))])%list /\
    In (EvStart c 1%nat (pid (srv running_etcd))) pre /\
    first_started pre = Some c /\
    (indexes_peers Request_etcdv3 = true -> (1 < 3)%nat).
Proof.
  apply (start_success_tracks_process cfg0 os_ok start_etcd_request
           (initial_state cfg0) (mkResponse true)); reflexivity.
Defined.

(** X2: [Transfer] panics only in a [Start] of an engine that looks its
    node up in the peer list (etcd, zetcd, cetcd, Consul), and only when
    the server index of the request is not a position of that list. *)
Theorem transfer_panics_only_on_bad_index
        (cfg : Config) (os : OS) (r : Request) (s : State) :
  fst (Transfer cfg os r s) = Panicked ->
  Operation r = Request_Start /\
  indexes_peers (Database r) = true /\
  (List.length (Strings.Split (PeerIPString r) "___")
   <= N.to_nat (ServerIndex r))%nat.
Proof.
  intros Hp.
  destruct (Operation_eqb (Operation r) Request_Start) eqn:Hop.
  - assert (Hop' : Operation r = Request_Start)
      by (destruct (Operation r); try discriminate; reflexivity).
    split; [exact Hop'|].
    destruct (Transfer_Start_spec cfg os r s Hop') as (keyw & Hk & Hd).
    cbv zeta in Hd.
    destruct Hd as [[e He] | (o2 & s2 & Hrun & Hout & HT)];
      [rewrite He in Hp; discriminate|].
    rewrite HT in Hp.
    destruct Hout as (_ & _ & _ & _ & _ & evs & _ & _ & _ & Hpanic & _).
    destruct o2 as [p| | |]; try discriminate.
    exact (Hpanic eq_refl).
  - assert (Hns : Operation r <> Request_Start)
      by (intros E; rewrite E in Hop; discriminate).
    pose proof (Transfer_request_spec cfg os r s Hns) as Hsp.
    unfold wp, request_outcome in Hsp. destruct Hsp as [Hnp _].
    contradiction.
Qed.

Lemma transfer_panics_only_on_bad_index_witness :
  Operation start_out_of_range_request = Request_Start /\
  indexes_peers (Database start_out_of_range_request) = true /\
  (List.length (Strings.Split (PeerIPString start_out_of_range_request) "___")
   <= N.to_nat (ServerIndex start_out_of_range_request))%nat.
Proof.
  apply (transfer_panics_only_on_bad_index cfg0 os_ok
           start_out_of_range_request (initial_state cfg0)).
  reflexivity.
Defined.

(** X3: a [Start] is not undone when it fails: whatever its outcome, the
    stored request is the new one and the path variables are the rebased
    ones; it never touches the channel [uploadSig] and never blocks. *)
Theorem start_overwrites_request_whatever_the_outcome
        (cfg : Config) (os : OS) (r : Request) (s : State) :
  Operation r = Request_Start ->
  let s' := snd (Transfer cfg os r s) in
  req (srv s') = r /\
  globals s' = rebase_globals cfg (globals s) /\
  uploadSig s' = uploadSig s /\
  fst (Transfer cfg os r s) <> Parked.
Proof.
  intros Hop. cbv zeta.
  destruct (Transfer_Start_spec cfg os r s Hop) as (keyw & Hk & Hd).
  cbv zeta in Hd.
  destruct Hd as [[e He] | (o2 & s2 & Hrun & Hout & HT)].
  - rewrite He. cbn. repeat split; auto. discriminate.
  - rewrite HT.
    destruct Hout as (Hreq & Hg & Hch & _ & Hnp & _).
    cbn [srv req globals uploadSig set_req] in *.
    destruct o2; cbn [fst snd with_trace srv globals uploadSig];
      repeat split; auto; try discriminate.
Qed.

Lemma start_overwrites_request_witness :
  let s' := snd (Transfer cfg0 os_ok start_out_of_range_request running_etcd) in
  req (srv s') = start_out_of_range_request /\
  globals s' = rebase_globals cfg0 (globals running_etcd) /\
  uploadSig s' = uploadSig running_etcd /\
  fst (Transfer cfg0 os_ok start_out_of_range_request running_etcd) <> Parked.
Proof.
  apply (start_overwrites_request_whatever_the_outcome cfg0 os_ok
           start_out_of_range_request running_etcd).
  reflexivity.
Defined.

(** X4: a [Start] never closes a file: when it ends, with whatever
    outcome, the open file objects are those that were open before
    together with every file it has opened.  A [Start] that fails after
    opening a log file leaves that file open. *)
Theorem start_never_closes_a_file
        (cfg : Config) (os : OS) (r : Request) (s : State) :
  Operation r = Request_Start ->
  open_files (snd (Transfer cfg os r s))
  = (rev (opened (emitted (Transfer cfg os r) s)) ++ open_files s)%list.
Proof.
  intros Hop.
  destruct (Transfer_Start_spec cfg os r s Hop) as (keyw & Hk & Hd).
  cbv zeta in Hd. unfold emitted.
  destruct Hd as [[e He] | (o2 & s2 & Hrun & Hout & HT)].
  - rewrite He. cbn [snd trace open_files].
    now rewrite skipn_length_app, (opened_key_write keyw Hk).
  - rewrite HT.
    destruct Hout as (_ & _ & _ & _ & _ & evs & Htr & _ & Hopen & _).
    cbn [trace open_files] in *.
    assert (E : forall tl, opened ((keyw ++ evs) ++ tl) = (opened evs ++ opened tl)%list).
    { intros tl. now rewrite !opened_app, (opened_key_write keyw Hk). }
    destruct o2; cbn [snd with_trace trace open_files]; rewrite Htr, Hopen.
    + rewrite <- !app_assoc, skipn_length_app, app_assoc, E. cbn [opened].
      now rewrite app_nil_r.
    + rewrite <- (app_nil_r ((trace s ++ keyw) ++ evs)), <- !app_assoc,
        skipn_length_app, app_assoc, E. cbn [opened]. now rewrite app_nil_r.
    + rewrite <- (app_nil_r ((trace s ++ keyw) ++ evs)), <- !app_assoc,
        skipn_length_app, app_assoc, E. cbn [opened]. now rewrite app_nil_r.
    + rewrite <- (app_nil_r ((trace s ++ keyw) ++ evs)), <- !app_assoc,
        skipn_length_app, app_assoc, E. cbn [opened]. now rewrite app_nil_r.
Qed.

Lemma start_never_closes_a_file_witness :
  open_files (snd (Transfer cfg0 os_ok start_zetcd_request (initial_state cfg0)))
  = (rev (opened (emitted (Transfer cfg0 os_ok start_zetcd_request)
                          (initial_state cfg0)))
     ++ open_files (initial_state cfg0))%list.
Proof.
  apply (start_never_closes_a_file cfg0 os_ok start_zetcd_request
           (initial_state cfg0)).
  reflexivity.
Defined.

Lemma start_events_no_spawn (l : list Event) (p : Z) :
  forallb is_start_event l = true -> ~ In (EvGoMonitor p) l.
Proof.
  intros H Hin. rewrite forallb_forall in H. specialize (H _ Hin). discriminate.
Qed.

Lemma no_spawn_in (l : list Event) (p : Z) :
  existsb is_spawn l = false -> ~ In (EvGoMonitor p) l.
Proof.
  intros H Hin.
  assert (E : existsb is_spawn l = true)
    by (apply existsb_exists; exists (EvGoMonitor p); auto).
  congruence.
Qed.

Lemma key_write_no_spawn (keyw : list Event) (p : Z) :
  keyw = [] \/ (exists c q, keyw = [EvToFile c q]) -> ~ In (EvGoMonitor p) keyw.
Proof.
  intros [-> | (c & q & ->)] Hin; cbn in Hin; [tauto|].
  destruct Hin as [Hin | []]. discriminate.
Qed.

Lemma Operation_eqb_Start (op : Request_Operation) :
  Operation_eqb op Request_Start = true <-> op = Request_Start.
Proof. destruct op; cbn; split; intros H; try discriminate; reflexivity. Qed.

(** X5: the monitoring goroutine is spawned by a [Start] that returns
    successfully and by nothing else: a request spawns it exactly when it
    is a [Start] and returns, and then on the process id it stored. *)
Theorem monitor_spawned_iff_start_succeeds
        (cfg : Config) (os : OS) (r : Request) (s : State) (p : Z) :
  In (EvGoMonitor p) (emitted (Transfer cfg os r) s) <->
  Operation r = Request_Start /\
  fst (Transfer cfg os r s) = Returned (mkResponse true) /\
  p = pid (srv (snd (Transfer cfg os r s))).
Proof.
  destruct (Operation_eqb (Operation r) Request_Start) eqn:Hop.
  - apply Operation_eqb_Start in Hop.
    destruct (Transfer_Start_spec cfg os r s Hop) as (keyw & Hk & Hd).
    cbv zeta in Hd. unfold emitted.
    destruct Hd as [[e He] | (o2 & s2 & Hrun & Hout & HT)].
    + rewrite He. cbn [fst snd trace]. rewrite skipn_length_app. split.
      * intros Hin. now apply key_write_no_spawn in Hin.
      * intros (_ & H & _). discriminate.
    + rewrite HT. clear HT.
      destruct Hout as (_ & _ & _ & _ & _ & evs & Htr & Hev & _ & _ & Hok & _).
      cbn [trace] in Htr.
      assert (Hno : forall q, ~ In (EvGoMonitor q) (keyw ++ evs)).
      { intros q Hin. apply in_app_or in Hin as [Hin | Hin].
        - now apply key_write_no_spawn in Hin.
        - now apply start_events_no_spawn in Hin. }
      destruct o2 as [q|e| |]; cbn [fst snd with_trace trace srv pid]; rewrite Htr.
      * destruct (Hok q eq_refl) as (_ & Hpid & _).
        rewrite <- !app_assoc, skipn_length_app, app_assoc. split.
        -- intros Hin. apply in_app_or in Hin as [Hin | Hin].
           ++ now apply Hno in Hin.
           ++ destruct Hin as [Hin | []]. injection Hin as <-. auto.
        -- intros (_ & _ & ->). apply in_or_app. right. rewrite Hpid. now left.
      * rewrite <- app_assoc, skipn_length_app. split.
        -- intros Hin. now apply Hno in Hin.
        -- intros (_ & H & _). discriminate.
      * rewrite <- app_assoc, skipn_length_app. split.
        -- intros Hin. now apply Hno in Hin.
        -- intros (_ & H & _). discriminate.
      * rewrite <- app_assoc, skipn_length_app. split.
        -- intros Hin. now apply Hno in Hin.
        -- intros (_ & H & _). discriminate.
  - assert (Hns : Operation r <> Request_Start).
    { intros E. apply Operation_eqb_Start in E. congruence. }
    pose proof (Transfer_request_spec cfg os r s Hns) as Hsp.
    unfold wp, request_outcome in Hsp.
    destruct Hsp as (_ & _ & _ & _ & _ & _ & _ & _ & evs & Htr & Hsp & _).
    unfold emitted. rewrite Htr, skipn_length_app. split.
    + intros Hin. now apply no_spawn_in in Hin.
    + intros (H & _). contradiction.
Qed.

(** ** Extra properties of [Stop] and [UploadLog] *)

(** X6: a [Stop] never forgets the process it stops: whatever its outcome,
    the server object (the stored request, the command, the process id,
    the log-file handles, and the same for the proxy) and the path
    variables are what they were, and no file is opened. *)
Theorem stop_keeps_server_object
        (cfg : Config) (os : OS) (r : Request) (s : State) :
  Operation r = Request_Stop ->
  let s' := snd (Transfer cfg os r s) in
  srv s' = srv s /\ globals s' = globals s /\ next_file s' = next_file s /\
  opened (emitted (Transfer cfg os r) s) = [] /\
  first_started (emitted (Transfer cfg os r) s) = None.
Proof.
  intros Hop. cbv zeta.
  assert (Hns : Operation r <> Request_Start) by (rewrite Hop; discriminate).
  pose proof (Transfer_request_spec cfg os r s Hns) as Hsp.
  unfold wp, request_outcome in Hsp. rewrite Hop in Hsp.
  destruct Hsp as (_ & Hg & _ & Hnf & Hsrv & _ & _ & _ & evs & Htr & _ & Hfs & Hopn).
  unfold emitted. rewrite Htr, skipn_length_app. auto.
Qed.

Lemma stop_keeps_server_object_witness :
  let s' := snd (Transfer cfg0 os_ok stop_request running_zetcd) in
  srv s' = srv running_zetcd /\ globals s' = globals running_zetcd /\
  next_file s' = next_file running_zetcd /\
  opened (emitted (Transfer cfg0 os_ok stop_request) running_zetcd) = [] /\
  first_started (emitted (Transfer cfg0 os_ok stop_request) running_zetcd) = None.
Proof.
  apply (stop_keeps_server_object cfg0 os_ok stop_request running_zetcd).
  reflexivity.
Defined.

(** X7: a [Stop] that returns successfully was given a tracked process and
    leaves the log files of the server object closed: neither the log of
    the primary nor the log of the proxy is among the open files. *)
Theorem stop_success_closes_log_files
        (cfg : Config) (os : OS) (r : Request) (s : State) (resp : Response) :
  Operation r = Request_Stop ->
  fst (Transfer cfg os r s) = Returned resp ->
  cmd (srv s) <> None /\
  log_files_closed (srv s) (snd (Transfer cfg os r s)).
Proof.
  intros Hop Hret.
  assert (Hns : Operation r <> Request_Start) by (rewrite Hop; discriminate).
  pose proof (Transfer_request_spec cfg os r s Hns) as Hsp.
  unfold wp, request_outcome in Hsp.
  destruct Hsp as (_ & _ & _ & _ & _ & Hok & _).
  destruct (Hok resp Hret) as (_ & _ & Hstop & _).
  exact (Hstop Hop).
Qed.

Lemma stop_success_closes_log_files_witness :
  cmd (srv running_zetcd) <> None /\
  log_files_closed (srv running_zetcd)
                   (snd (Transfer cfg0 os_ok stop_request running_zetcd)).
Proof.
  apply (stop_success_closes_log_files cfg0 os_ok stop_request running_zetcd
           (mkResponse true)); reflexivity.
Defined.

(** X8: the channel [uploadSig] holds one signal.  A [Stop] or an
    [UploadLog] returns successfully only if the channel was empty, and
    then leaves its own operation in it; it blocks only if the channel was
    full; and when it does not return successfully the channel is as it
    was. *)
Theorem trigger_needs_empty_channel
        (cfg : Config) (os : OS) (r : Request) (s : State) :
  Operation r = Request_Stop \/ Operation r = Request_UploadLog ->
  let o := fst (Transfer cfg os r s) in
  let s' := snd (Transfer cfg os r s) in
  (forall resp, o = Returned resp ->
     uploadSig s = None /\ uploadSig s' = Some (Operation r)) /\
  (o = Parked -> uploadSig s <> None) /\
  ((forall resp, o <> Returned resp) -> uploadSig s' = uploadSig s).
Proof.
  intros Hop. cbv zeta.
  assert (Hns : Operation r <> Request_Start)
    by (destruct Hop as [-> | ->]; discriminate).
  pose proof (Transfer_request_spec cfg os r s Hns) as Hsp.
  unfold wp, request_outcome in Hsp.
  destruct Hsp as (_ & _ & _ & _ & _ & Hok & Hpark & Hkeep & _).
  split; [| split; assumption].
  intros resp Hret. destruct (Hok resp Hret) as (H1 & H2 & _). auto.
Qed.

Lemma trigger_needs_empty_channel_witness :
  let o := fst (Transfer cfg0 os_ok stop_request running_etcd) in
  let s' := snd (Transfer cfg0 os_ok stop_request running_etcd) in
  (forall resp, o = Returned resp ->
     uploadSig running_etcd = None /\ uploadSig s' = Some Request_Stop) /\
  (o = Parked -> uploadSig running_etcd <> None) /\
  ((forall resp, o <> Returned resp) -> uploadSig s' = uploadSig running_etcd).
Proof.
  apply (trigger_needs_empty_channel cfg0 os_ok stop_request running_etcd).
  left. reflexivity.
Defined.

(** ** Extra properties of the monitoring goroutine *)

Lemma remove_fresh (f : File) (l : list File) :
  ~ In f l -> List.remove Nat.eq_dec f (f :: l) = l.
Proof.
  intros H. cbn [List.remove].
  destruct (Nat.eq_dec f f) as [_ | Hne]; [| congruence].
  now apply notin_remove.
Qed.

Lemma files_fresh_next (s : State) :
  files_fresh s -> ~ In (next_file s) (open_files s).
Proof. intros H Hin. specialize (H _ Hin). lia. Qed.

(** What one sample does. *)
Lemma rFunc_spec (os : OS) (p : Z) (s : State) :
  files_fresh s ->
  wp (rFunc os p)
     (fun o s' =>
        (exists r, o = Returned r) /\
        srv s' = srv s /\ globals s' = globals s /\
        uploadSig s' = uploadSig s /\ upload_calls s' = upload_calls s /\
        open_files s' = open_files s /\
        (next_file s <= next_file s')%nat /\
        exists evs,
          trace s' = (trace s ++ EvProcessList p :: evs)%list /\
          forallb is_sample_event evs = true) s.
Proof.
  intros Hfresh. apply files_fresh_next in Hfresh. revert Hfresh.
  destruct s as [[rq c lf p0 pc plf pp] g ch opens nf uc tr].
  cbn [next_file open_files]. intros Hfresh.
  repeat wp_step.
  all: cbn [fst snd]; norm_trace.
  all: split; [eexists; reflexivity|].
  all: do 4 (split; [reflexivity|]).
  all: split; [first [reflexivity | now apply remove_fresh]|].
  all: split; [lia|].
  all: eexists; split; reflexivity.
Qed.

Lemma rFunc_keeps_fresh (os : OS) (p : Z) (s : State) :
  files_fresh s -> files_fresh (snd (rFunc os p s)).
Proof.
  intros Hfresh.
  pose proof (rFunc_spec os p s Hfresh) as Hsp. unfold wp in Hsp.
  destruct Hsp as (_ & _ & _ & _ & _ & Hopen & Hnf & _).
  intros f Hin. rewrite Hopen in Hin. specialize (Hfresh _ Hin). lia.
Qed.

(** X9: a sample of the monitored process leaves no file open and touches
    nothing but the trace: the monitor file it opens is closed again
    whether or not the write succeeds, and the server object, the path
    variables and the channel are as before. *)
Theorem rFunc_leaves_no_file_open (os : OS) (p : Z) (s : State) :
  files_fresh s ->
  let s' := snd (rFunc os p s) in
  open_files s' = open_files s /\
  srv s' = srv s /\ globals s' = globals s /\ uploadSig s' = uploadSig s /\
  exists r, fst (rFunc os p s) = Returned r.
Proof.
  intros Hfresh. cbv zeta.
  pose proof (rFunc_spec os p s Hfresh) as Hsp. unfold wp in Hsp.
  destruct Hsp as (Hr & Hsrv & Hg & Hch & _ & Hopen & _).
  auto.
Qed.

Lemma rFunc_leaves_no_file_open_witness :
  let s' := snd (rFunc os_ok 102 running_etcd) in
  open_files s' = open_files running_etcd /\
  srv s' = srv running_etcd /\ globals s' = globals running_etcd /\
  uploadSig s' = uploadSig running_etcd /\
  exists r, fst (rFunc os_ok 102 running_etcd) = Returned r.
Proof.
  apply (rFunc_leaves_no_file_open os_ok 102 running_etcd).
  intros f. vm_compute. intros [<- | [<- | []]]; lia.
Defined.

(** X10: as long as only the timer fires, the monitoring goroutine stays in
    its loop, whatever the samples answer: an error of a sample taken in
    the loop is logged and the loop goes on.  No upload is attempted, the
    channel is not read and no file is left open. *)
Theorem monitor_keeps_sampling
        (os : OS) (cloud : RemoteStorage.Cloud) (p : Z) (n : nat) (s : State) :
  files_fresh s ->
  let run := monitor_loop os cloud p (repeat SelTimer n) in
  fst (run s) = Returned Looping /\
  srv (snd (run s)) = srv s /\
  uploadSig (snd (run s)) = uploadSig s /\
  upload_calls (snd (run s)) = upload_calls s /\
  open_files (snd (run s)) = open_files s.
Proof.
  revert s. induction n as [|n IH]; intros s Hfresh; cbv zeta.
  - cbn. auto.
  - pose proof (rFunc_spec os p s Hfresh) as Hsp. unfold wp in Hsp.
    pose proof (rFunc_keeps_fresh os p s Hfresh) as Hfresh'.
    destruct Hsp as ([r Hr] & Hsrv & _ & Hch & Huc & Hopen & _).
    assert (Hstep : monitor_loop os cloud p (repeat SelTimer (S n)) s
                    = monitor_loop os cloud p (repeat SelTimer n)
                                   (snd (rFunc os p s))).
    { cbn [repeat monitor_loop]. unfold monitor_iteration, bind, ret.
      destruct (rFunc os p s) as [o s1]. cbn [fst snd] in *. now subst o. }
    rewrite Hstep.
    destruct (IH (snd (rFunc os p s)) Hfresh') as (H1 & H2 & H3 & H4 & H5).
    rewrite H1, H2, H3, H4, H5, Hsrv, Hch, Huc, Hopen. auto.
Qed.

Lemma monitor_keeps_sampling_witness :
  let run := monitor_loop os_ok cloud_down 102 (repeat SelTimer 5) in
  fst (run running_etcd) = Returned Looping /\
  srv (snd (run running_etcd)) = srv running_etcd /\
  uploadSig (snd (run running_etcd)) = uploadSig running_etcd /\
  upload_calls (snd (run running_etcd)) = upload_calls running_etcd /\
  open_files (snd (run running_etcd)) = open_files running_etcd.
Proof.
  apply (monitor_keeps_sampling os_ok cloud_down 102 5 running_etcd).
  intros f. vm_compute. intros [<- | [<- | []]]; lia.
Defined.

(** X11: when the first sample fails, the goroutine returns before it
    enters its loop: whatever fires later it is [Exited], it has not read
    the channel and has attempted no upload.  A [Stop] sent afterwards
    leaves its signal in the channel, where nothing takes it. *)
Theorem monitor_exits_when_first_sample_fails
        (os : OS) (cloud : RemoteStorage.Cloud) (p : Z)
        (sels : list Select) (s : State) (e : error) :
  fst (rFunc os p s) = Returned (Some e) ->
  monitor os cloud p sels s = (Returned Exited, snd (rFunc os p s)) /\
  (files_fresh s ->
   uploadSig (snd (monitor os cloud p sels s)) = uploadSig s /\
   upload_calls (snd (monitor os cloud p sels s)) = upload_calls s).
Proof.
  intros Hr.
  assert (Hm : monitor os cloud p sels s = (Returned Exited, snd (rFunc os p s))).
  { unfold monitor, monitor_enter, bind.
    destruct (rFunc os p s) as [o s1]. cbn [fst snd] in *. now subst o. }
  split; [exact Hm|].
  intros Hfresh. rewrite Hm. cbn [snd].
  pose proof (rFunc_spec os p s Hfresh) as Hsp. unfold wp in Hsp.
  destruct Hsp as (_ & _ & _ & Hch & Huc & _). auto.
Qed.

Lemma monitor_exits_when_first_sample_fails_witness :
  monitor os_blind cloud_ok 102 [SelTimer; SelUploadSig] running_etcd
  = (Returned Exited, snd (rFunc os_blind 102 running_etcd)) /\
  (files_fresh running_etcd ->
   uploadSig (snd (monitor os_blind cloud_ok 102 [SelTimer; SelUploadSig]
                           running_etcd))
   = uploadSig running_etcd /\
   upload_calls (snd (monitor os_blind cloud_ok 102 [SelTimer; SelUploadSig]
                              running_etcd))
   = upload_calls running_etcd).
Proof.
  apply (monitor_exits_when_first_sample_fails os_blind cloud_ok 102
           [SelTimer; SelUploadSig] running_etcd (Ext "process not found")).
  reflexivity.
Defined.

(** X12: a [Stop] signal always ends the monitoring goroutine: the
    iteration that takes it from the channel runs the upload pass and
    returns, whether the pass succeeds or not; the channel is empty
    afterwards and the server object is untouched. *)
Theorem stop_signal_ends_monitor
        (os : OS) (cloud : RemoteStorage.Cloud) (p : Z) (s : State) :
  uploadSig s = Some Request_Stop ->
  let s' := snd (monitor_iteration os cloud p SelUploadSig s) in
  fst (monitor_iteration os cloud p SelUploadSig s) = Returned Exited /\
  uploadSig s' = None /\ srv s' = srv s /\ open_files s' = open_files s.
Proof.
  intros Hsig. cbv zeta.
  unfold monitor_iteration. unfold bind at 1 3 5 7. unfold recv_uploadSig.
  rewrite Hsig. cbv beta iota.
  set (s1 := mkState (srv s) (globals s) None (open_files s) (next_file s)
                     (upload_calls s) (trace s ++ [EvRecv Request_Stop])%list).
  pose proof (uploadFunc_run os cloud s1) as Hrun.
  unfold bind.
  destruct (RemoteStorage.NewGoogleCloudStorage cloud _ _) as [e | u].
  - rewrite Hrun. cbn. auto.
  - destruct Hrun as (k & e1 & e2 & e3 & e4 & Hrun & _).
    rewrite Hrun. cbn. auto.
Qed.

Lemma stop_signal_ends_monitor_witness :
  let s := snd (Transfer cfg0 os_ok stop_request running_etcd) in
  let s' := snd (monitor_iteration os_ok cloud_down 102 SelUploadSig s) in
  fst (monitor_iteration os_ok cloud_down 102 SelUploadSig s) = Returned Exited /\
  uploadSig s' = None /\ srv s' = srv s /\ open_files s' = open_files s.
Proof.
  apply (stop_signal_ends_monitor os_ok cloud_down 102
           (snd (Transfer cfg0 os_ok stop_request running_etcd))).
  reflexivity.
Defined.

(** ** Extra properties of the engines *)

Lemma range_map_nth_inv {A : Type} (f : Z -> string -> A) (l : list string) :
  forall i n x,
    nth_error (range_map f i l) n = Some x ->
    exists u, nth_error l n = Some u /\ x = f (i + Z.of_nat n)%Z u.
Proof.
  induction l as [|v l IH]; intros i n x H; [destruct n; discriminate|].
  destruct n as [|n]; cbn in H.
  - injection H as <-. exists v. split; [reflexivity|]. now rewrite Z.add_0_r.
  - destruct (IH (i + 1)%Z n x H) as (u & Hu & ->).
    exists u. split; [exact Hu|]. f_equal. lia.
Qed.

Lemma index_of_peers {A : Type} (f : Z -> string -> A) (l : list string)
      (i : N) (x : A) :
  nth_error (range_map f 0 l) (N.to_nat i) = Some x ->
  exists u, nth_error l (N.to_nat i) = Some u /\ x = f (Z.of_N i) u.
Proof.
  intros H. destruct (range_map_nth_inv f l 0 (N.to_nat i) x H) as (u & Hu & ->).
  exists u. split; [exact Hu|]. now rewrite Z.add_0_l, N_nat_Z.
Qed.

Ltac peers_tac :=
  repeat match goal with
  | H : nth_error (range_map _ 0 _) (N.to_nat _) = Some _ |- _ =>
      apply index_of_peers in H; destruct H as (? & ? & ->)
  end;
  repeat match goal with
  | H1 : nth_error ?l ?n = Some ?a, H2 : nth_error ?l ?n = Some ?b |- _ =>
      assert (b = a) by congruence; subst b; clear H2
  end.

(** What a successful run of the etcd branch has done. *)
Lemma start_etcd_success (cfg : Config) (os : OS) (peers : list string) (s : State) :
  is_etcd_family (Database (req (srv s))) = true ->
  wp (start_etcd cfg os peers)
     (fun o s' =>
        forall p, o = Returned p ->
          exists u p2,
            nth_error peers (N.to_nat (ServerIndex (req (srv s)))) = Some u /\
            trace s'
            = (trace s ++
               etcd_start_events cfg (globals s) (Database (req (srv s))) peers
                                 (ServerIndex (req (srv s))) u (next_file s) p p2)%list /\
            (is_proxied (Database (req (srv s))) = true ->
             proxyCmd (srv s')
             = Some (proxy_command cfg (Database (req (srv s))) u) /\
             proxyPid (srv s') = p2 /\
             proxyLogfile (srv s') = Some (S (next_file s)))) s.
Proof.
  destruct s as [[rq c lf p0 pc plf pp] g ch opens nf uc tr].
  cbn [srv req globals next_file trace]. intros Hfam.
  unfold etcd_start_events.
  destruct (Database rq) eqn:Hdb; try discriminate Hfam.
  all: repeat (try use_db; wp_step).
  all: cbn [fst snd]; intros px HR; try discriminate HR; injection HR as <-.
  all: peers_tac.
  all: eexists; eexists; split; [eassumption|].
  all: split;
    [ norm_trace;
      unfold etcd_node_flags, proxy_command, etcd_name, etcd_clientURL,
        etcd_peerURL, etcdToken;
      rewrite ?etcd_clusterStr_membership; reflexivity
    | intros Hpx; first [discriminate Hpx | repeat split; reflexivity] ].
  Unshelve. all: exact 0%Z.
Qed.

Lemma start_database_etcd (cfg : Config) (os : OS) (r : Request)
      (peers : list string) (s : State) :
  is_etcd_family (Database (req (srv s))) = true ->
  start_database cfg os r peers s = start_etcd cfg os peers s.
Proof.
  intros H. unfold start_database, bind at 1. unfold get_srv at 1. cbn [fst snd].
  destruct (Database (req (srv s))); try discriminate H; reflexivity.
Qed.

(** X13: a successful [Start] of an etcd-family engine runs the node of
    the request: with [u] the peer at the server index, it removes the etcd
    data directory, opens the database log, starts etcd under the name
    [etcd-{index+1}] on the client and peer URLs of [u] with the membership
    of the whole cluster, and, for zetcd and cetcd, then opens the proxy
    log and starts the proxy against the client URL of [u]; these, after
    the write of the key file and before the spawn of the monitor, are all
    its effects. *)
Theorem etcd_start_runs_own_node
        (cfg : Config) (os : OS) (r : Request) (s : State) (resp : Response) :
  Operation r = Request_Start ->
  is_etcd_family (Database r) = true ->
  fst (Transfer cfg os r s) = Returned resp ->
  let peers := Strings.Split (PeerIPString r) "___" in
  let g := rebase_globals cfg (globals s) in
  let s' := snd (Transfer cfg os r s) in
  exists u keyw,
    nth_error peers (N.to_nat (ServerIndex r)) = Some u /\
    (keyw = [] \/ exists c p, keyw = [EvToFile c p]) /\
    emitted (Transfer cfg os r) s
    = (keyw ++
       etcd_start_events cfg g (Database r) peers (ServerIndex r) u
                         (next_file s) (pid (srv s')) (proxyPid (srv s')) ++
       [EvGoMonitor (pid (srv s'))])%list /\
    cmd (srv s')
    = Some (exec_Command (etcdBinaryPath cfg)
                         (etcd_node_flags g peers (ServerIndex r) u)) /\
    (is_proxied (Database r) = true ->
     proxyCmd (srv s') = Some (proxy_command cfg (Database r) u)).
Proof.
  intros Hop Hfam Hret. cbv zeta.
  destruct (Transfer_Start_spec cfg os r s Hop) as (keyw & Hk & Hd).
  cbv zeta in Hd. unfold emitted.
  destruct Hd as [[e He] | (o2 & s2 & Hrun & Hout & HT)];
    [rewrite He in Hret; discriminate|].
  rewrite HT in *. clear HT.
  destruct o2 as [p| | |]; try discriminate.
  rewrite start_database_etcd in Hrun by exact Hfam.
  match type of Hrun with
  | start_etcd _ _ ?ps ?s1 = _ =>
      pose proof (start_etcd_success cfg os ps s1 Hfam) as Hsp
  end.
  unfold wp in Hsp. rewrite Hrun in Hsp. cbn [fst snd srv req globals next_file trace set_req] in Hsp.
  destruct (Hsp p eq_refl) as (u & p2 & Hu & Htr & Hproxy).
  destruct Hout as (_ & _ & _ & _ & _ & evs & Htr' & _ & _ & _ & Hok & _).
  destruct (Hok p eq_refl) as (_ & Hpid & _ & _ & c & Hc & Hfs & _).
  cbn [srv req trace next_file set_req] in *.
  exists u, keyw. cbn [fst snd with_trace srv trace].
  split; [exact Hu|]. split; [exact Hk|].
  assert (Hevs : evs = etcd_start_events cfg (rebase_globals cfg (globals s))
                         (Database r) (Strings.Split (PeerIPString r) "___")
                         (ServerIndex r) u (next_file s) p p2).
  { rewrite Htr in Htr'. now apply app_inv_head in Htr'. }
  assert (Hcmd : c = exec_Command (etcdBinaryPath cfg)
                       (etcd_node_flags (rebase_globals cfg (globals s))
                          (Strings.Split (PeerIPString r) "___") (ServerIndex r) u)).
  { rewrite Hevs in Hfs. unfold etcd_start_events in Hfs.
    cbn [app first_started] in Hfs. now injection Hfs as <-. }
  rewrite Hpid, Hc, Hcmd, Htr.
  assert (Hp2 : etcd_start_events cfg (rebase_globals cfg (globals s))
                  (Database r) (Strings.Split (PeerIPString r) "___")
                  (ServerIndex r) u (next_file s) p (proxyPid (srv s2))
                = etcd_start_events cfg (rebase_globals cfg (globals s))
                  (Database r) (Strings.Split (PeerIPString r) "___")
                  (ServerIndex r) u (next_file s) p p2).
  { unfold etcd_start_events. destruct (is_proxied (Database r)) eqn:Hpx;
      [| reflexivity].
    destruct (Hproxy eq_refl) as (_ & -> & _). reflexivity. }
  rewrite Hp2. split; [| split; [reflexivity|]].
  - rewrite <- !app_assoc. rewrite skipn_length_app. reflexivity.
  - intros Hpx. now destruct (Hproxy Hpx) as (-> & _).
Qed.

Lemma etcd_start_runs_own_node_witness :
  let r := start_zetcd_request in
  let peers := Strings.Split (PeerIPString r) "___" in
  let g := rebase_globals cfg0 (globals (initial_state cfg0)) in
  let s' := running_zetcd in
  exists u keyw,
    nth_error peers (N.to_nat (ServerIndex r)) = Some u /\
    (keyw = [] \/ exists c p, keyw = [EvToFile c p]) /\
    emitted (Transfer cfg0 os_ok r) (initial_state cfg0)
    = (keyw ++
       etcd_start_events cfg0 g (Database r) peers (ServerIndex r) u
                         (next_file (initial_state cfg0))
                         (pid (srv s')) (proxyPid (srv s')) ++
       [EvGoMonitor (pid (srv s'))])%list /\
    cmd (srv s')
    = Some (exec_Command (etcdBinaryPath cfg0)
                         (etcd_node_flags g peers (ServerIndex r) u)) /\
    (is_proxied (Database r) = true ->
     proxyCmd (srv s') = Some (proxy_command cfg0 (Database r) u)).
Proof.
  apply (etcd_start_runs_own_node cfg0 os_ok start_zetcd_request
           (initial_state cfg0) (mkResponse true)); reflexivity.
Defined.

Lemma start_database_consul (cfg : Config) (os : OS) (r : Request)
      (peers : list string) (s : State) :
  Database (req (srv s)) = Request_Consul ->
  start_database cfg os r peers s = start_consul cfg os peers s.
Proof.
  intros H. unfold start_database, bind at 1. unfold get_srv at 1. cbn [fst snd].
  now rewrite H.
Qed.

Lemma start_database_zookeeper (cfg : Config) (os : OS) (r : Request)
      (peers : list string) (s : State) :
  Database (req (srv s)) = Request_ZooKeeper ->
  start_database cfg os r peers s = start_zookeeper cfg os peers s.
Proof.
  intros H. unfold start_database, bind at 1. unfold get_srv at 1. cbn [fst snd].
  now rewrite H.
Qed.

Lemma first_peer (peers : list string) (u : string) :
  nth_error peers (N.to_nat 0) = Some u -> hd "" peers = u.
Proof. destruct peers; cbn; congruence. Qed.

(** What a successful run of the Consul branch has done. *)
Lemma start_consul_success (cfg : Config) (os : OS) (peers : list string) (s : State) :
  wp (start_consul cfg os peers)
     (fun o s' =>
        forall p, o = Returned p ->
          exists u,
            nth_error peers (N.to_nat (ServerIndex (req (srv s)))) = Some u /\
            trace s'
            = (trace s ++
               consul_start_events cfg (globals s) peers
                                   (ServerIndex (req (srv s))) u (next_file s) p)%list) s.
Proof.
  destruct s as [[rq c lf p0 pc plf pp] g ch opens nf uc tr].
  cbn [srv req globals next_file trace].
  unfold consul_start_events, consul_flags.
  repeat wp_step.
  all: cbn [fst snd]; intros px HR; try discriminate HR; injection HR as <-.
  all: eexists; split; [reflexivity|].
  all: norm_trace.
  all: repeat match goal with
         | H : (_ =? _)%N = _ |- _ => rewrite H
         | H : nth_error _ (N.to_nat 0) = Some _ |- _ =>
             apply first_peer in H; rewrite H
         end.
  all: reflexivity.
Qed.

Lemma zookeeper_peers_lines (peers : list string) (i : nat) :
  map (fun p => "server." ++ Fmt.d (MyID p) ++ "=" ++ IP p ++ ":2888:3888" ++ newline)
      (range_map (fun i ip => mkZookeeperPeer (i + 1) ip) (Z.of_nat i) peers)
  = map (fun iu => "server." ++ Fmt.d (Z.of_nat (fst iu) + 1) ++ "="
                   ++ snd iu ++ ":2888:3888" ++ newline)
        (combine (seq i (List.length peers)) peers).
Proof.
  revert i. induction peers as [|u peers IH]; intros i;
    cbn [range_map List.length seq combine map MyID IP fst snd].
  - reflexivity.
  - f_equal. replace (Z.of_nat i + 1)%Z with (Z.of_nat (S i)) by lia. apply IH.
Qed.

Lemma zookeeper_config_rendered (g : Globals) (r : Request) (peers : list string) :
  zkTemplate_execute
    (mkZookeeperConfig (TickTime zkConfigDefault) (zkDataDir g)
                       (ClientPort zkConfigDefault)
                       (InitLimit zkConfigDefault) (SyncLimit zkConfigDefault)
                       (ZookeeperMaxClientCnxns r) (ZookeeperSnapCount r)
                       (range_map (fun i ip => mkZookeeperPeer (i + 1) ip) 0 peers))
  = zookeeper_config_text g r peers.
Proof.
  unfold zkTemplate_execute, zookeeper_config_text, zookeeper_server_lines.
  cbn [TickTime DataDir ClientPort InitLimit SyncLimit MaxClientCnxns SnapCount
       Peers zkConfigDefault].
  pose proof (zookeeper_peers_lines peers 0) as H. cbn [Z.of_nat] in H.
  rewrite H. reflexivity.
Qed.

(** What a successful run of the ZooKeeper branch has done. *)
Lemma start_zookeeper_success (cfg : Config) (os : OS) (peers : list string) (s : State) :
  wp (start_zookeeper cfg os peers)
     (fun o s' =>
        forall p, o = Returned p ->
          trace s'
          = (trace s ++
             zookeeper_start_events cfg (globals s) (req (srv s)) peers
                                    (next_file s) p)%list) s.
Proof.
  destruct s as [[rq c lf p0 pc plf pp] g ch opens nf uc tr].
  cbn [srv req globals next_file trace].
  unfold zookeeper_start_events.
  repeat wp_step.
  all: cbn [fst snd]; intros px HR; try discriminate HR; injection HR as <-.
  all: norm_trace.
  all: rewrite zookeeper_config_rendered; reflexivity.
Qed.

(** A [Start] that returns successfully, in terms of its engine branch. *)
Lemma Transfer_Start_success
      (cfg : Config) (os : OS) (r : Request) (s : State) (resp : Response) :
  Operation r = Request_Start ->
  fst (Transfer cfg os r s) = Returned resp ->
  exists keyw p s2,
    (keyw = [] \/ exists c q, keyw = [EvToFile c q]) /\
    start_database cfg os r (Strings.Split (PeerIPString r) "___")
      (mkState (set_req r (srv s)) (rebase_globals cfg (globals s))
               (uploadSig s) (open_files s) (next_file s)
               (upload_calls s) (trace s ++ keyw)%list)
    = (Returned p, s2) /\
    Transfer cfg os r s
    = (Returned (mkResponse true),
       with_trace s2 (trace s2 ++ [EvGoMonitor p])%list) /\
    pid (srv s2) = p.
Proof.
  intros Hop Hret.
  destruct (Transfer_Start_spec cfg os r s Hop) as (keyw & Hk & Hd).
  cbv zeta in Hd.
  destruct Hd as [[e He] | (o2 & s2 & Hrun & Hout & HT)];
    [rewrite He in Hret; discriminate|].
  rewrite HT in Hret.
  destruct o2 as [p| | |]; try discriminate.
  destruct Hout as (_ & _ & _ & _ & _ & evs & _ & _ & _ & _ & Hok & _).
  destruct (Hok p eq_refl) as (_ & Hpid & _).
  exists keyw, p, s2. auto.
Qed.

Lemma emitted_start (A : Type) (m : M A) (s s2 : State) (o : Outcome A)
      (keyw evs : list Event) (p : Z) :
  m s = (o, with_trace s2 (trace s2 ++ [EvGoMonitor p])%list) ->
  trace s2 = ((trace s ++ keyw) ++ evs)%list ->
  emitted m s = (keyw ++ evs ++ [EvGoMonitor p])%list.
Proof.
  intros Hm Htr. apply emitted_intro. rewrite Hm. cbn [snd with_trace trace].
  rewrite Htr. now rewrite <- !app_assoc.
Qed.

(** X14: a successful [Start] of Consul removes the Consul data directory,
    opens the database log and starts the agent bound to the peer at the
    server index: the node of index 0 bootstraps (always expecting three
    servers, however many peers the request names), every other node joins
    the first peer.  These, after the write of the key file and before the
    spawn of the monitor, are all its effects. *)
Theorem consul_start_bootstraps_or_joins
        (cfg : Config) (os : OS) (r : Request) (s : State) (resp : Response) :
  Operation r = Request_Start ->
  Database r = Request_Consul ->
  fst (Transfer cfg os r s) = Returned resp ->
  let peers := Strings.Split (PeerIPString r) "___" in
  let g := rebase_globals cfg (globals s) in
  let s' := snd (Transfer cfg os r s) in
  exists u keyw,
    nth_error peers (N.to_nat (ServerIndex r)) = Some u /\
    (keyw = [] \/ exists c p, keyw = [EvToFile c p]) /\
    emitted (Transfer cfg os r) s
    = (keyw ++
       consul_start_events cfg g peers (ServerIndex r) u (next_file s)
                           (pid (srv s')) ++
       [EvGoMonitor (pid (srv s'))])%list.
Proof.
  intros Hop Hdb Hret. cbv zeta.
  destruct (Transfer_Start_success cfg os r s resp Hop Hret)
    as (keyw & p & s2 & Hk & Hrun & HT & Hpid).
  rewrite start_database_consul in Hrun by exact Hdb.
  match type of Hrun with
  | start_consul _ _ ?ps ?s1 = _ =>
      pose proof (start_consul_success cfg os ps s1) as Hsp
  end.
  unfold wp in Hsp. rewrite Hrun in Hsp.
  cbn [fst snd srv req globals next_file trace set_req] in Hsp.
  destruct (Hsp p eq_refl) as (u & Hu & Htr).
  exists u, keyw. split; [exact Hu|]. split; [exact Hk|].
  rewrite HT. cbn [snd with_trace srv]. rewrite Hpid.
  exact (emitted_start _ _ s s2 _ keyw _ p HT Htr).
Qed.

Lemma consul_start_bootstraps_or_joins_witness :
  let r := start_consul_request in
  let s := initial_state cfg0 in
  let peers := Strings.Split (PeerIPString r) "___" in
  let g := rebase_globals cfg0 (globals s) in
  let s' := snd (Transfer cfg0 os_ok r s) in
  exists u keyw,
    nth_error peers (N.to_nat (ServerIndex r)) = Some u /\
    (keyw = [] \/ exists c p, keyw = [EvToFile c p]) /\
    emitted (Transfer cfg0 os_ok r) s
    = (keyw ++
       consul_start_events cfg0 g peers (ServerIndex r) u (next_file s)
                           (pid (srv s')) ++
       [EvGoMonitor (pid (srv s'))])%list.
Proof.
  apply (consul_start_bootstraps_or_joins cfg0 os_ok start_consul_request
           (initial_state cfg0) (mkResponse true)); reflexivity.
Defined.

(** X15: a successful [Start] of ZooKeeper changes to the ZooKeeper working
    directory, creates the data directory, writes the [myid] file with the
    id of the request and the configuration file with one [server] line per
    peer, numbered from 1 in the order of the peer list, then opens the
    database log and starts the server through the shell.  The server index
    of the request plays no part.  These, after the write of the key file
    and before the spawn of the monitor, are all its effects. *)
Theorem zookeeper_start_writes_configuration
        (cfg : Config) (os : OS) (r : Request) (s : State) (resp : Response) :
  Operation r = Request_Start ->
  Database r = Request_ZooKeeper ->
  fst (Transfer cfg os r s) = Returned resp ->
  let peers := Strings.Split (PeerIPString r) "___" in
  let g := rebase_globals cfg (globals s) in
  let s' := snd (Transfer cfg os r s) in
  exists keyw,
    (keyw = [] \/ exists c p, keyw = [EvToFile c p]) /\
    emitted (Transfer cfg os r) s
    = (keyw ++
       zookeeper_start_events cfg g r peers (next_file s) (pid (srv s')) ++
       [EvGoMonitor (pid (srv s'))])%list.
Proof.
  intros Hop Hdb Hret. cbv zeta.
  destruct (Transfer_Start_success cfg os r s resp Hop Hret)
    as (keyw & p & s2 & Hk & Hrun & HT & Hpid).
  rewrite start_database_zookeeper in Hrun by exact Hdb.
  match type of Hrun with
  | start_zookeeper _ _ ?ps ?s1 = _ =>
      pose proof (start_zookeeper_success cfg os ps s1) as Hsp
  end.
  unfold wp in Hsp. rewrite Hrun in Hsp.
  cbn [fst snd srv req globals next_file trace set_req] in Hsp.
  pose proof (Hsp p eq_refl) as Htr.
  exists keyw. split; [exact Hk|].
  rewrite HT. cbn [snd with_trace srv]. rewrite Hpid.
  exact (emitted_start _ _ s s2 _ keyw _ p HT Htr).
Qed.

Lemma zookeeper_start_writes_configuration_witness :
  let r := start_zookeeper_request in
  let s := initial_state cfg0 in
  let peers := Strings.Split (PeerIPString r) "___" in
  let g := rebase_globals cfg0 (globals s) in
  let s' := snd (Transfer cfg0 os_ok r s) in
  exists keyw,
    (keyw = [] \/ exists c p, keyw = [EvToFile c p]) /\
    emitted (Transfer cfg0 os_ok r) s
    = (keyw ++
       zookeeper_start_events cfg0 g r peers (next_file s) (pid (srv s')) ++
       [EvGoMonitor (pid (srv s'))])%list.
Proof.
  apply (zookeeper_start_writes_configuration cfg0 os_ok start_zookeeper_request
           (initial_state cfg0) (mkResponse true)); reflexivity.
Defined.

(** A missing executable ends the engine branch before it does anything. *)
Lemma start_database_missing_binary
      (cfg : Config) (os : OS) (r : Request) (peers : list string)
      (s : State) (b : string) :
  In b (required_binaries cfg (Database (req (srv s)))) ->
  (forall h, os_exist os h b = false) ->
  wp (start_database cfg os r peers)
     (fun o s' => (exists e, o = Failed e) /\ s' = s) s.
Proof.
  destruct s as [[rq c lf p0 pc plf pp] g ch opens nf uc tr].
  cbn [srv req]. intros Hin Hex.
  destruct (Database rq) eqn:Hdb; cbn [required_binaries In] in Hin.
  all: repeat match type of Hin with
              | _ \/ _ => destruct Hin as [Hin | Hin]
              | False => contradiction
              end.
  all: subst b.
  all: repeat (try use_db; wp_step).
  all: try match goal with
           | H : negb (os_exist _ _ _) = false |- _ =>
               rewrite Hex in H; discriminate H
           end.
  all: cbn [fst snd]; split; [eexists; reflexivity | reflexivity].
Qed.

(** X16: a [Start] whose engine needs an executable that is not on the
    machine fails before it touches anything: no directory is removed, no
    file is opened or written (the key file apart), no process is started
    and the handles of the server object are what they were. *)
Theorem start_fails_early_without_binary
        (cfg : Config) (os : OS) (r : Request) (s : State) (b : string) :
  Operation r = Request_Start ->
  In b (required_binaries cfg (Database r)) ->
  (forall h, os_exist os h b = false) ->
  let s' := snd (Transfer cfg os r s) in
  (exists e, fst (Transfer cfg os r s) = Failed e) /\
  (emitted (Transfer cfg os r) s = [] \/
   exists c p, emitted (Transfer cfg os r) s = [EvToFile c p]) /\
  open_files s' = open_files s /\
  cmd (srv s') = cmd (srv s) /\ pid (srv s') = pid (srv s) /\
  logfile (srv s') = logfile (srv s).
Proof.
  intros Hop Hin Hex. cbv zeta.
  destruct (Transfer_Start_decompose cfg os r s Hop) as (keyw & Hk & Hd).
  cbv zeta in Hd.
  assert (Hem : forall o,
             Transfer cfg os r s
             = (o, mkState (set_req r (srv s)) (rebase_globals cfg (globals s))
                           (uploadSig s) (open_files s) (next_file s)
                           (upload_calls s) (trace s ++ keyw)%list) ->
             emitted (Transfer cfg os r) s = keyw).
  { intros o E. apply emitted_intro. now rewrite E. }
  destruct Hd as [[e He] | HT].
  - rewrite (Hem _ He), He. cbn. repeat split; eauto.
  - match type of HT with
    | _ = match start_database _ _ _ ?ps ?s1 with _ => _ end =>
        pose proof (start_database_missing_binary cfg os r ps s1 b Hin Hex) as Hsp;
        unfold wp in Hsp;
        destruct (start_database cfg os r ps s1) as [o2 s2]
    end.
    cbn [fst snd] in Hsp. destruct Hsp as ([e ->] & ->).
    rewrite (Hem _ HT), HT. cbn. repeat split; eauto.
Qed.

Lemma start_fails_early_without_binary_witness :
  let s' := snd (Transfer cfg0 os_bare start_zetcd_request running_etcd) in
  (exists e, fst (Transfer cfg0 os_bare start_zetcd_request running_etcd) = Failed e) /\
  (emitted (Transfer cfg0 os_bare start_zetcd_request) running_etcd = [] \/
   exists c p, emitted (Transfer cfg0 os_bare start_zetcd_request) running_etcd
               = [EvToFile c p]) /\
  open_files s' = open_files running_etcd /\
  cmd (srv s') = cmd (srv running_etcd) /\ pid (srv s') = pid (srv running_etcd) /\
  logfile (srv s') = logfile (srv running_etcd).
Proof.
  apply (start_fails_early_without_binary cfg0 os_bare start_zetcd_request
           running_etcd (zetcdBinaryPath cfg0)).
  - reflexivity.
  - simpl. right. left. reflexivity.
  - intros h. reflexivity.
Defined.

(** ** Extra properties of the key file and of unknown requests *)

(** X17: every request first writes the stored key to the key file, and a
    request whose key file cannot be written ends there with that error:
    a [Stop] then signals no process, closes no file and triggers no
    upload, a [Start] starts nothing. *)
Theorem key_write_failure_aborts_request
        (cfg : Config) (os : OS) (r : Request) (s : State) (msg : string) :
  let key := stored_key r s in
  let path := Filepath.Join [WorkingDirectory cfg; "gcloud-key.json"] in
  key <> "" ->
  os_toFile os (trace s) key path = Some msg ->
  let s' := snd (Transfer cfg os r s) in
  fst (Transfer cfg os r s) = Failed (Ext msg) /\
  emitted (Transfer cfg os r) s = [EvToFile key path] /\
  cmd (srv s') = cmd (srv s) /\ pid (srv s') = pid (srv s) /\
  logfile (srv s') = logfile (srv s) /\
  uploadSig s' = uploadSig s /\ open_files s' = open_files s.
Proof.
  cbv zeta. intros Hkey Hfail.
  enough (Hwp : wp (Transfer cfg os r)
                   (fun o s' =>
                      o = Failed (Ext msg) /\
                      trace s'
                      = (trace s ++
                         [EvToFile (stored_key r s)
                                   (Filepath.Join [WorkingDirectory cfg;
                                                   "gcloud-key.json"])])%list /\
                      cmd (srv s') = cmd (srv s) /\ pid (srv s') = pid (srv s) /\
                      logfile (srv s') = logfile (srv s) /\
                      uploadSig s' = uploadSig s /\ open_files s' = open_files s) s).
  { unfold wp in Hwp. destruct Hwp as (Ho & Htr & Hrest).
    split; [exact Ho|]. split; [now apply emitted_intro | exact Hrest]. }
  revert Hkey Hfail. unfold stored_key.
  destruct s as [[rq c lf p0 pc plf pp] g ch opens nf uc tr].
  cbn [srv req trace cmd pid logfile uploadSig open_files].
  unfold Transfer, store_request, dispatch.
  destruct (Operation r) eqn:Hop; cbn [Operation_eqb]; intros Hkey Hfail.
  all: repeat first
         [ progress cbn [GoogleCloudStorageKey merge_upload_fields] in *
         | match goal with
           | H : option_map Ext (os_toFile _ _ _ _) = None |- _ =>
               rewrite Hfail in H; discriminate H
           | H : negb (_ =? _)%string = false |- _ =>
               apply negb_false_iff, String.eqb_eq in H; contradiction
           | H : option_map Ext (os_toFile _ _ _ _) = Some _ |- wp (fail _) _ _ =>
               rewrite Hfail in H; injection H as <-
           end
         | wp_step ].
  all: cbn [fst snd]; repeat split; reflexivity.
Qed.

Lemma key_write_failure_aborts_request_witness :
  let key := "key-1" in
  let path := Filepath.Join [WorkingDirectory cfg0; "gcloud-key.json"] in
  let s := running_with_key in
  let s' := snd (Transfer cfg0 os_read_only stop_request s) in
  fst (Transfer cfg0 os_read_only stop_request s)
  = Failed (Ext "read-only file system") /\
  emitted (Transfer cfg0 os_read_only stop_request) s = [EvToFile key path] /\
  cmd (srv s') = cmd (srv s) /\ pid (srv s') = pid (srv s) /\
  logfile (srv s') = logfile (srv s) /\
  uploadSig s' = uploadSig s /\ open_files s' = open_files s.
Proof.
  apply (key_write_failure_aborts_request cfg0 os_read_only stop_request
           running_with_key "read-only file system").
  - vm_compute. discriminate.
  - reflexivity.
Defined.

(** X18: a request whose operation is none of [Start], [Stop] and
    [UploadLog] is refused: the call fails, and apart from the write of
    the key file it has no effect on the agent. *)
Theorem unknown_operation_is_refused
        (cfg : Config) (os : OS) (r : Request) (s : State) (n : Z) :
  Operation r = Request_Operation_other n ->
  let s' := snd (Transfer cfg os r s) in
  (exists e, fst (Transfer cfg os r s) = Failed e) /\
  (stored_key r s = "" ->
   fst (Transfer cfg os r s) = Failed (Errorf "Not implemented %v" [Fmt.d n]) /\
   s' = s) /\
  srv s' = srv s /\ globals s' = globals s /\ uploadSig s' = uploadSig s /\
  open_files s' = open_files s /\ upload_calls s' = upload_calls s.
Proof.
  intros Hop. cbv zeta. unfold stored_key. rewrite Hop. cbn [Operation_eqb].
  change (wp (Transfer cfg os r)
             (fun o s' =>
                (exists e, o = Failed e) /\
                (GoogleCloudStorageKey (req (srv s)) = "" ->
                 o = Failed (Errorf "Not implemented %v" [Fmt.d n]) /\ s' = s) /\
                srv s' = srv s /\ globals s' = globals s /\
                uploadSig s' = uploadSig s /\
                open_files s' = open_files s /\
                upload_calls s' = upload_calls s) s).
  destruct s as [[rq c lf p0 pc plf pp] g ch opens nf uc tr].
  cbn [srv req globals uploadSig open_files upload_calls].
  unfold Transfer, store_request, dispatch. rewrite Hop.
  cbn [Operation_eqb Operation_name].
  repeat wp_step.
  all: cbn [fst snd]; split; [eexists; reflexivity|].
  all: split;
    [ intros Hk;
      first [ rewrite Hk in *; discriminate
            | split; reflexivity ]
    | repeat split; reflexivity ].
Qed.

Lemma unknown_operation_is_refused_witness :
  let s := running_etcd in
  let s' := snd (Transfer cfg0 os_ok unknown_request s) in
  (exists e, fst (Transfer cfg0 os_ok unknown_request s) = Failed e) /\
  (stored_key unknown_request s = "" ->
   fst (Transfer cfg0 os_ok unknown_request s)
   = Failed (Errorf "Not implemented %v" [Fmt.d 7]) /\
   s' = s) /\
  srv s' = srv s /\ globals s' = globals s /\ uploadSig s' = uploadSig s /\
  open_files s' = open_files s /\ upload_calls s' = upload_calls s.
Proof.
  apply (unknown_operation_is_refused cfg0 os_ok unknown_request running_etcd 7).
  reflexivity.
Defined.

(** ** Extra properties of [UploadLog] and of the uploader *)

(** X19: an [UploadLog] that returns successfully has, after the write of
    the key file, waited three seconds, flushed the database log when one
    is stored, and then left its signal in the channel; it has done
    nothing else. *)
Theorem upload_log_flushes_then_signals
        (cfg : Config) (os : OS) (r : Request) (s : State) (resp : Response) :
  Operation r = Request_UploadLog ->
  fst (Transfer cfg os r s) = Returned resp ->
  exists keyw,
    (keyw = [] \/ exists c p, keyw = [EvToFile c p]) /\
    emitted (Transfer cfg os r) s
    = (keyw ++ EvSleep 3 :: opt_sync (logfile (srv s))
            ++ [EvSend Request_UploadLog])%list.
Proof.
  intros Hop.
  enough (Hwp : wp (Transfer cfg os r)
                   (fun o s' =>
                      forall resp, o = Returned resp ->
                        exists keyw,
                          (keyw = [] \/ exists c p, keyw = [EvToFile c p]) /\
                          trace s'
                          = (trace s ++ keyw ++ EvSleep 3 :: opt_sync (logfile (srv s))
                                     ++ [EvSend Request_UploadLog])%list) s).
  { unfold wp in Hwp. intros Hret.
    destruct (Hwp resp Hret) as (keyw & Hk & Htr).
    exists keyw. split; [exact Hk | now apply emitted_intro]. }
  destruct s as [[rq c lf p0 pc plf pp] g ch opens nf uc tr].
  cbn [srv logfile trace].
  unfold Transfer, store_request, dispatch. rewrite Hop. cbn [Operation_eqb].
  repeat wp_step.
  all: cbn [fst snd]; intros rx HR; try discriminate HR.
  all: norm_trace; cbn [opt_sync app].
  all: first [ exists (@nil Event); split; [now left | reflexivity]
             | eexists; split; [right; eauto | reflexivity] ].
Qed.

Lemma upload_log_flushes_then_signals_witness :
  exists keyw,
    (keyw = [] \/ exists c p, keyw = [EvToFile c p]) /\
    emitted (Transfer cfg0 os_ok upload_request) running_with_key
    = (keyw ++ EvSleep 3 :: opt_sync (logfile (srv running_with_key))
            ++ [EvSend Request_UploadLog])%list.
Proof.
  apply (upload_log_flushes_then_signals cfg0 os_ok upload_request
           running_with_key (mkResponse true)); reflexivity.
Defined.

(** X20: [UploadFile] returns nil exactly when the receiver is not nil, the
    client is created, the bucket is created or the refusal says that the
    caller already owns it, the local file is read, written to the object
    and the writer closed. *)
Theorem UploadFile_succeeds_iff
        (cloud : RemoteStorage.Cloud)
        (g : option RemoteStorage.GoogleCloudStorage) (n : nat)
        (ret : RemoteStorage.Op) (bucket src dst : string) :
  RemoteStorage.UploadFile cloud g n ret bucket src dst = None <->
  exists gcs contents,
    g = Some gcs /\
    RemoteStorage.storage_NewClient cloud n = None /\
    (RemoteStorage.Bucket_Create cloud n bucket (RemoteStorage.Project gcs) = None \/
     exists m,
       RemoteStorage.Bucket_Create cloud n bucket (RemoteStorage.Project gcs) = Some m /\
       Strings.Contains m RemoteStorage.already_owned = true) /\
    RemoteStorage.ioutil_ReadFile cloud n src = inr contents /\
    RemoteStorage.Writer_Write cloud n bucket dst (RemoteStorage.ContentType ret)
                               contents = None /\
    RemoteStorage.Writer_Close cloud n bucket dst = None.
Proof.
  unfold RemoteStorage.UploadFile, RemoteStorage.open_bucket,
    RemoteStorage.transfer_file.
  split.
  - destruct g as [gcs|]; [| discriminate].
    destruct (RemoteStorage.storage_NewClient cloud n) eqn:Hn; [discriminate|].
    destruct (RemoteStorage.Bucket_Create cloud n bucket _) as [m|] eqn:Hb.
    + destruct (Strings.Contains m RemoteStorage.already_owned) eqn:Hc;
        cbn [negb]; [| discriminate].
      destruct (RemoteStorage.ioutil_ReadFile cloud n src) as [e|contents] eqn:Hr;
        [discriminate|].
      destruct (RemoteStorage.Writer_Write cloud n bucket dst _ contents) eqn:Hw;
        [discriminate|].
      destruct (RemoteStorage.Writer_Close cloud n bucket dst) eqn:Hcl;
        [discriminate|].
      intros _. exists gcs, contents.
      split; [reflexivity|]. split; [reflexivity|].
      split; [right; exists m; split; [exact Hb | exact Hc]|].
      split; [reflexivity|]. split; [exact Hw | reflexivity].
    + destruct (RemoteStorage.ioutil_ReadFile cloud n src) as [e|contents] eqn:Hr;
        [discriminate|].
      destruct (RemoteStorage.Writer_Write cloud n bucket dst _ contents) eqn:Hw;
        [discriminate|].
      destruct (RemoteStorage.Writer_Close cloud n bucket dst) eqn:Hcl;
        [discriminate|].
      intros _. exists gcs, contents.
      split; [reflexivity|]. split; [reflexivity|].
      split; [left; exact Hb|].
      split; [reflexivity|]. split; [exact Hw | reflexivity].
  - intros (gcs & contents & -> & Hc & Hb & Hr & Hw & Hcl).
    rewrite Hc.
    destruct Hb as [Hb | (m & Hb & Hm)]; rewrite Hb; [| rewrite Hm; cbn [negb]];
      now rewrite Hr, Hw, Hcl.
Qed.
